(** * Odoo MCP worker: request configuration, capability gate, RPC client

    A shallow embedding of [src/index.ts] (the worker's [fetch] entry
    point), [src/mcp.ts] (the [OdooMCP] agent) and [src/odooClient.ts] (the
    JSON-RPC client), followed by the properties of these three files.

    Conventions.
    - A JavaScript value of type [any] is a [JValue]; a value of type
      [string | null] is an [option string] ([None] for [null] and
      [undefined]). A string is the UTF-8 encoding of the JavaScript
      string.
    - Functions of the JavaScript runtime ([JSON.parse], [JSON.stringify],
      [decodeURIComponent], [Number], the text of a caught error, [uuid])
      and the remote backend are variables of the section [Runtime]: every
      theorem holds for all of them. The module [Sample] gives executable
      instances on which the theorems are run.
    - [async] code is run sequentially: an [await] is a bind of the monad
      [M], which threads the agent, the client objects and the list of
      transport requests sent so far, and keeps the state when an
      exception is thrown.
    - The console output of [fetch] is part of its result; the console
      output of the agent and of the client is left out. *)

From Stdlib Require Import ZArith String Ascii List Bool Lia.
From stdpp Require Import gmap strings list pretty.

Open Scope string_scope.
Open Scope list_scope.
Set Warnings "-register-all".

(** ** JavaScript values *)

(** The numbers that occur in this program: the result of [parseInt] is
    [NaN], an infinity, or a double whose value is an integer. [Num z] is
    the double of value [z]; the two zeros are one value here, since
    truthiness, [===] and [JSON.stringify] do not tell them apart. *)
Inductive JNumber : Type :=
  | NaN
  | Num (z : Z)
  | Inf (negative : bool).

Inductive JValue : Type :=
  | JUndefined
  | JNull
  | JBool (b : bool)
  | JNum (n : JNumber)
  | JStr (s : string)
  | JArr (xs : list JValue)
  | JObj (fields : list (string * JValue)).

(** ToBoolean: what [if (v)], [!v] and [v || d] test. *)
Definition truthy (v : JValue) : bool :=
  match v with
  | JUndefined | JNull => false
  | JBool b => b
  | JNum NaN => false
  | JNum (Num z) => negb (z =? 0)%Z
  | JNum (Inf _) => true
  | JStr s => negb (s =? "")
  | JArr _ | JObj _ => true
  end.

(** [v == null]: true for [null] and [undefined] only. *)
Definition nullish (v : JValue) : bool :=
  match v with
  | JUndefined | JNull => true
  | _ => false
  end.

(** [v ?? d] *)
Definition coalesce (v d : JValue) : JValue :=
  if nullish v then d else v.

(** Own property lookup in an object literal, first binding wins. *)
Fixpoint assoc (k : string) (fields : list (string * JValue)) : JValue :=
  match fields with
  | [] => JUndefined
  | (k', v) :: rest => if k =? k' then v else assoc k rest
  end.

(** [v.k]: [None] is the TypeError raised on [null] and [undefined]; the
    properties of primitives and arrays that the program reads ([error],
    [result], [data], [message], [id]) are all absent there. *)
Definition get_prop (v : JValue) (k : string) : option JValue :=
  match v with
  | JUndefined | JNull => None
  | JObj fields => Some (assoc k fields)
  | _ => Some JUndefined
  end.

(** [const [x] = v]: the first value of the iteration of [v]; [None] is the
    TypeError raised when [v] is not iterable. A string iterates over its
    characters (code points; bytes here). *)
Definition first_of (v : JValue) : option JValue :=
  match v with
  | JArr [] => Some JUndefined
  | JArr (x :: _) => Some x
  | JStr EmptyString => Some JUndefined
  | JStr (String a _) => Some (JStr (String a EmptyString))
  | _ => None
  end.

(** Truthiness of a [string | null | undefined]. *)
Definition str_truthy (o : option string) : bool :=
  match o with
  | Some s => negb (s =? "")
  | None => false
  end.

(** [o || d] for a [string | null | undefined] and a string [d]. *)
Definition str_or (o : option string) (d : string) : string :=
  match o with
  | Some s => if s =? "" then d else s
  | None => d
  end.

(** [Array.isArray(v) && v.every((x) => typeof x === "string")] *)
Definition is_str (v : JValue) : bool :=
  match v with
  | JStr _ => true
  | _ => false
  end.

Definition is_string_array (v : JValue) : bool :=
  match v with
  | JArr xs => forallb is_str xs
  | _ => false
  end.

(** The elements of an array that passed [is_string_array]. *)
Fixpoint strings_of_list (xs : list JValue) : list string :=
  match xs with
  | [] => []
  | JStr s :: rest => s :: strings_of_list rest
  | _ :: rest => strings_of_list rest
  end.

Definition strings_of (v : JValue) : list string :=
  match v with
  | JArr xs => strings_of_list xs
  | _ => []
  end.

(** ** [parseInt(s, 10)]

    A string is the UTF-8 encoding of the JavaScript string. [parseInt]
    trims the leading white space and line terminators, reads an optional
    sign and then the longest run of decimal digits, and returns the
    double nearest to the integer read; no digit gives [NaN]. *)

(** The white space and line terminators of one byte: TAB, LF, VT, FF, CR
    and SP. *)
Definition is_white (a : ascii) : bool :=
  match nat_of_ascii a with
  | 9 | 10 | 11 | 12 | 13 | 32 => true
  | _ => false
  end.

Fixpoint skip_white (s : string) : string :=
  match s with
  | String a rest => if is_white a then skip_white rest else s
  | EmptyString => s
  end.

Definition byte_is (a : ascii) (n : nat) : bool := (nat_of_ascii a =? n)%nat.

(** The white space of two bytes: U+00A0. *)
Definition is_white2 (a b : ascii) : bool := byte_is a 194 && byte_is b 160.

(** The white space and line terminators of three bytes: U+1680, U+2000
    to U+200A, U+2028, U+2029, U+202F, U+205F, U+3000 and U+FEFF. *)
Definition is_white3 (a b c : ascii) : bool :=
  (byte_is a 225 && byte_is b 154 && byte_is c 128)
  || (byte_is a 226 && byte_is b 128
      && (((128 <=? nat_of_ascii c)%nat && (nat_of_ascii c <=? 138)%nat)
          || byte_is c 168 || byte_is c 169 || byte_is c 175))
  || (byte_is a 226 && byte_is b 129 && byte_is c 159)
  || (byte_is a 227 && byte_is b 128 && byte_is c 128)
  || (byte_is a 239 && byte_is b 187 && byte_is c 191).

(** TrimString(s, start): [s] without its leading white space and line
    terminators. *)
Fixpoint trim_start (s : string) : string :=
  match s with
  | EmptyString => s
  | String a r1 =>
      if is_white a then trim_start r1
      else
        match r1 with
        | EmptyString => s
        | String b r2 =>
            if is_white2 a b then trim_start r2
            else
              match r2 with
              | EmptyString => s
              | String c r3 => if is_white3 a b c then trim_start r3 else s
              end
        end
  end.

Definition digit_of (a : ascii) : option Z :=
  let n := nat_of_ascii a in
  if (48 <=? n)%nat && (n <=? 57)%nat then Some (Z.of_nat (n - 48)) else None.

(** The longest prefix of decimal digits, read left to right; [acc] is
    [None] until a digit has been read. *)
Fixpoint read_digits (s : string) (acc : option Z) : option Z :=
  match s with
  | String a rest =>
      match digit_of a with
      | Some d => read_digits rest (Some (10 * default 0%Z acc + d)%Z)
      | None => acc
      end
  | EmptyString => acc
  end.

(** The Number value for an integer: the nearest double, ties to the even
    significand of 53 bits, an infinity from 2^1024 on. *)
Definition to_double (z : Z) : JNumber :=
  let a := Z.abs z in
  if (a <? 2 ^ 53)%Z then Num z
  else
    let e := (Z.log2 a - 52)%Z in
    let q := (a / 2 ^ e)%Z in
    let r := (a mod 2 ^ e)%Z in
    let half := (2 ^ (e - 1))%Z in
    let q' :=
      if (half <? r)%Z || ((r =? half)%Z && Z.odd q) then (q + 1)%Z else q in
    let v := (q' * 2 ^ e)%Z in
    if (2 ^ 1024 <=? v)%Z then Inf (z <? 0)%Z else Num (Z.sgn z * v).

(** The text after the optional sign. *)
Definition after_sign (s : string) : string :=
  match s with
  | String "-" rest => rest
  | String "+" rest => rest
  | t => t
  end.

Definition parseInt (s : string) : JNumber :=
  match trim_start s with
  | String "-" rest =>
      match read_digits rest None with
      | Some n => to_double (- n)
      | None => NaN
      end
  | String "+" rest =>
      match read_digits rest None with
      | Some n => to_double n
      | None => NaN
      end
  | t =>
      match read_digits t None with
      | Some n => to_double n
      | None => NaN
      end
  end.

(** ** [String.prototype.split("/")] on [URL.pathname] *)

Fixpoint split_acc (sep : ascii) (s : string) (cur : string) : list string :=
  match s with
  | EmptyString => [cur]
  | String a rest =>
      if Ascii.eqb a sep then cur :: split_acc sep rest EmptyString
      else split_acc sep rest (cur +:+ String a EmptyString)
  end.

Definition split (sep : ascii) (s : string) : list string :=
  split_acc sep s EmptyString.

(** An array element read by position, [undefined] past the end. *)
Definition nth_str (parts : list string) (i : nat) : JValue :=
  match parts !! i with
  | Some s => JStr s
  | None => JUndefined
  end.

(** ** Console *)

Inductive Level : Type := LOG | WARN | ERROR.

Definition LogEntry : Type := Level * string.

(** ** Configuration records *)

(** The process-wide settings that [fetch] reads from [env]. *)
Record Env : Type := {
  ODOO_URL : option string;
  ODOO_DB : option string;
  ODOO_USER : option string;
  ODOO_PASS : option string;
  ODOO_TIMEOUT : option string;
  ALGOLIA_API_KEY : option string;
  ALGOLIA_APP_ID : option string;
  ALGOLIA_INDEX_NAME : option string;
  LABUREN_API_KEY : option string;
  TO_USE : option string
}.

(** The keys that [fetch] writes into [context.props]. Both branches write
    every one of them after the spread of [ctx.props], so nothing of the
    incoming [ctx.props] reaches these keys. *)
Record Props : Type := {
  odooUrl : option string;
  odooDb : option string;
  odooUser : option string;
  odooPass : option string;
  odooTimeout : option string;
  algoliaApiKey : option string;
  algoliaAppId : option string;
  algoliaIndexName : option string;
  laburenApiKey : option string;
  toolsToUse : option (list string)
}.

(** [OdooConfig] of odooClient.ts; [timeout] is [None] when the key is
    absent from the object. *)
Record OdooConfig : Type := {
  baseUrl : string;
  db : string;
  username : string;
  password : string;
  timeout : option JNumber
}.

Record AlgoliaConfig : Type := {
  apiKey : string;
  appId : string;
  indexName : string
}.

(** What [getConfigFromContext] returns. *)
Record Bundle : Type := {
  odooConfig : OdooConfig;
  algoliaConfig : AlgoliaConfig;
  bundleToolsToUse : list string;
  bundleLaburenApiKey : string
}.

(** What [fetch] does with the request once the context is built. *)
Inductive Routed : Type :=
  | ServeSSE (props : Props)
  | ServeMCP (props : Props)
  | NotFound.

(** ** Transport *)

Record RpcParams : Type := {
  service : string;
  rpcMethod : string;
  args : list JValue
}.

(** The body of a request, before [JSON.stringify]. *)
Record Payload : Type := {
  jsonrpc : string;
  id : string;
  method : string;
  params : RpcParams
}.

(** The arguments of the call of the global [fetch] in [jsonRpc]. *)
Record FetchRequest : Type := {
  url : string;
  httpMethod : string;
  contentType : string;
  body : Payload;
  cfTimeout : option JNumber
}.

(** What the call of the global [fetch] gives back: a rejection (network
    failure), or a response whose [json()] is [None] when the body does not
    parse. *)
Inductive FetchResult : Type :=
  | Rejected
  | Responded (ok : bool) (status : Z) (statusText : string)
      (json : option JValue).

(** ** Exceptions *)

(** [Error msg] is [new Error(v)] with [msg] the value [v] handed to the
    constructor; the other constructors are the errors raised by the
    runtime. *)
Inductive Exn : Type :=
  | Error (msg : JValue)
  | TypeError
  | SyntaxError
  | URIError
  | NetworkError.

Inductive Result (A : Type) : Type :=
  | Ok (a : A)
  | Throw (e : Exn).

Arguments Ok {A} a.
Arguments Throw {A} e.

(** ** Objects and state *)

(** An [OdooClient] object: the private fields [uid] and [cfg]. [uid] is
    declared [number | null] and is assigned the untyped result of the
    login call. *)
Record OdooClient : Type := {
  uid : JValue;
  cfg : OdooConfig
}.

Inductive ToolName : Type :=
  | SearchProductByReferenceCode
  | CreateSaleOrder.

Inductive ResourceName : Type :=
  | Models
  | Model
  | Record_
  | Search.

(** The state of one [OdooMCP] agent and of the world around it.
    - [heap]: the [OdooClient] objects created so far; a reference to a
      client is its position in this list.
    - [this_odoo]: the field [this.odoo] ([None] before [init] assigns it).
    - [tools], [resources]: what has been registered on [this.server],
      by name.
    - [sent]: the transport requests issued so far, oldest first. *)
Record State : Type := {
  heap : list OdooClient;
  this_odoo : option nat;
  tools : gmap string ToolName;
  resources : gmap string (string * ResourceName);
  sent : list FetchRequest
}.

Definition set_heap (h : list OdooClient) (s : State) : State :=
  {| heap := h; this_odoo := this_odoo s; tools := tools s;
     resources := resources s; sent := sent s |}.

Definition set_this_odoo (r : option nat) (s : State) : State :=
  {| heap := heap s; this_odoo := r; tools := tools s;
     resources := resources s; sent := sent s |}.

Definition set_tools (t : gmap string ToolName) (s : State) : State :=
  {| heap := heap s; this_odoo := this_odoo s; tools := t;
     resources := resources s; sent := sent s |}.

Definition set_resources (r : gmap string (string * ResourceName))
    (s : State) : State :=
  {| heap := heap s; this_odoo := this_odoo s; tools := tools s;
     resources := r; sent := sent s |}.

Definition set_sent (l : list FetchRequest) (s : State) : State :=
  {| heap := heap s; this_odoo := this_odoo s; tools := tools s;
     resources := resources s; sent := l |}.

(** A freshly constructed agent: nothing registered, nothing sent. *)
Definition fresh_state : State :=
  {| heap := []; this_odoo := None; tools := ∅; resources := ∅; sent := [] |}.

(** ** The monad of the asynchronous code

    A computation takes the state and gives a result or an exception,
    together with the state reached: what was done before a [throw]
    stays done. *)
Definition M (A : Type) : Type := State -> Result A * State.

Definition ret {A} (a : A) : M A := fun s => (Ok a, s).

Definition throw {A} (e : Exn) : M A := fun s => (Throw e, s).

Definition bind {A B} (m : M A) (k : A -> M B) : M B :=
  fun s =>
    match m s with
    | (Ok a, s') => k a s'
    | (Throw e, s') => (Throw e, s')
    end.

(** [try { m } catch (error) { h(error) }] *)
Definition try_catch {A} (m : M A) (h : Exn -> M A) : M A :=
  fun s =>
    match m s with
    | (Ok a, s') => (Ok a, s')
    | (Throw e, s') => h e s'
    end.

Definition get_state : M State := fun s => (Ok s, s).

Definition modify (f : State -> State) : M unit := fun s => (Ok tt, f s).

(** An optional value whose absence is a runtime exception. *)
Definition lift_opt {A} (e : Exn) (o : option A) : M A :=
  match o with
  | Some a => ret a
  | None => throw e
  end.

Definition lift_result {A} (r : Result A) : M A := fun s => (r, s).

Declare Scope m_scope.
Delimit Scope m_scope with M.
Notation "x <- m ;; k" := (bind m (fun x => k))
  (at level 100, m at next level, right associativity) : m_scope.
Notation "m ;;; k" := (bind m (fun _ => k))
  (at level 100, right associativity) : m_scope.
Open Scope m_scope.

(** The value and the state of a run. *)
Definition result_of {A} (r : Result A * State) : Result A := fst r.
Definition state_of {A} (r : Result A * State) : State := snd r.

(** The [content] of a tool result: [(type, text)] pairs. *)
Definition Content : Type := list (string * string).

Definition text_content (t : string) : Content := [("text", t)].

(** One element of the [lines] argument of [create_sale_order]. *)
Record OrderLine : Type := {
  reference_code : string;
  qty : JValue
}.

(** The arguments of one call of [executeKw]. *)
Record Call : Type := {
  call_model : JValue;
  call_method : string;
  call_args : list JValue;
  call_kwargs : JValue
}.

(** ** A concrete runtime

    Executable instances of the runtime functions and of the backend, on
    which the general theorems are run at concrete requests. *)
Module Sample.

Definition dquote : ascii := "034"%char.

(** A string literal of JSON: the text between double quotes. *)
Definition quoted (s : string) : string :=
  String dquote (s +:+ String dquote EmptyString).

(** The characters up to the closing double quote (no escapes). *)
Fixpoint read_string (s : string) (acc : string)
    : option (string * string) :=
  match s with
  | EmptyString => None
  | String a rest =>
      if Ascii.eqb a dquote then Some (acc, rest)
      else read_string rest (acc +:+ String a EmptyString)
  end.

Fixpoint drop_digits (s : string) : string :=
  match s with
  | String a rest =>
      match digit_of a with
      | Some _ => drop_digits rest
      | None => s
      end
  | EmptyString => s
  end.

(** The elements of an array after its opening bracket, given the parser
    [pv] of one value. *)
Fixpoint parse_items (pv : string -> option (JValue * string)) (n : nat)
    (s : string) (acc : list JValue) : option (JValue * string) :=
  match n with
  | O => None
  | S n' =>
      match pv s with
      | Some (v, rest) =>
          match skip_white rest with
          | String "," rest' => parse_items pv n' rest' (acc ++ [v])%list
          | String "]" rest' => Some (JArr (acc ++ [v])%list, rest')
          | _ => None
          end
      | None => None
      end
  end.

(** One value of the fragment of JSON made of [null], [true], [false],
    integers, strings without escapes and arrays. *)
Fixpoint parse_value (fuel : nat) (s : string) : option (JValue * string) :=
  match fuel with
  | O => None
  | S f =>
      match skip_white s with
      | String "[" rest =>
          match skip_white rest with
          | String "]" rest' => Some (JArr [], rest')
          | r => parse_items (parse_value f) (S (String.length r)) r []
          end
      | String "n" (String "u" (String "l" (String "l" rest))) =>
          Some (JNull, rest)
      | String "t" (String "r" (String "u" (String "e" rest))) =>
          Some (JBool true, rest)
      | String "f" (String "a" (String "l" (String "s" (String "e" rest)))) =>
          Some (JBool false, rest)
      | String "-" rest =>
          match read_digits rest None with
          | Some z => Some (JNum (Num (- z)), drop_digits rest)
          | None => None
          end
      | String a rest =>
          if Ascii.eqb a dquote then
            match read_string rest EmptyString with
            | Some (str, rest') => Some (JStr str, rest')
            | None => None
            end
          else
            match read_digits (String a rest) None with
            | Some z => Some (JNum (Num z), drop_digits (String a rest))
            | None => None
            end
      | EmptyString => None
      end
  end.

Definition JSON_parse (s : string) : option JValue :=
  match parse_value (S (String.length s)) s with
  | Some (v, rest) =>
      match skip_white rest with
      | EmptyString => Some v
      | _ => None
      end
  | None => None
  end.

Definition hex_of (a : ascii) : option nat :=
  let n := nat_of_ascii a in
  if (48 <=? n)%nat && (n <=? 57)%nat then Some (n - 48)
  else if (65 <=? n)%nat && (n <=? 70)%nat then Some (n - 55)
  else if (97 <=? n)%nat && (n <=? 102)%nat then Some (n - 87)
  else None.

(** Percent-decoding of ASCII; any other escape is refused. *)
Fixpoint decodeURIComponent (s : string) : option string :=
  match s with
  | EmptyString => Some EmptyString
  | String "%" (String h (String l rest)) =>
      match hex_of h, hex_of l with
      | Some x, Some y =>
          if (16 * x + y <? 128)%nat then
            String (ascii_of_nat (16 * x + y)) <$> decodeURIComponent rest
          else None
      | _, _ => None
      end
  | String "%" _ => None
  | String a rest => String a <$> decodeURIComponent rest
  end.

Definition JSON_stringify (v : JValue) : string :=
  match v with
  | JStr s => quoted s
  | JNull => "null"
  | JBool true => "true"
  | JBool false => "false"
  | JNum (Num z) => pretty z
  | JArr [] => "[]"
  | JObj [] => "{}"
  | _ => "[object]"
  end.

Definition Number_ (v : JValue) : JValue :=
  match v with
  | JStr s => JNum (parseInt s)
  | JNum n => JNum n
  | _ => JNum NaN
  end.

Definition error_text (e : Exn) : string :=
  match e with
  | Error (JStr m) => m
  | Error _ => "Error"
  | TypeError => "TypeError"
  | SyntaxError => "SyntaxError"
  | URIError => "URIError"
  | NetworkError => "NetworkError"
  end.

Definition uuid (n : nat) : string := "req-" +:+ pretty n.

(** A successful response with the given [result]. *)
Definition reply (result : JValue) : FetchResult :=
  Responded true 200 "OK"
    (Some (JObj [("jsonrpc", JStr "2.0"); ("result", result)])).

(** A backend that answers every login with [on_login] and every other
    request with [on_call]. *)
Definition backend (on_login on_call : FetchResult)
    (history : list FetchRequest) (req : FetchRequest) : FetchResult :=
  if rpcMethod (params (body req)) =? "login" then on_login else on_call.

Definition no_env : Env :=
  {| ODOO_URL := None; ODOO_DB := None; ODOO_USER := None;
     ODOO_PASS := None; ODOO_TIMEOUT := None; ALGOLIA_API_KEY := None;
     ALGOLIA_APP_ID := None; ALGOLIA_INDEX_NAME := None;
     LABUREN_API_KEY := None; TO_USE := None |}.

(** Process-wide settings of a single fixed tenant. *)
Definition tenant_env : Env :=
  {| ODOO_URL := Some "https://erp.example";
     ODOO_DB := Some "prod";
     ODOO_USER := Some "svc";
     ODOO_PASS := Some "secret";
     ODOO_TIMEOUT := Some "5000";
     ALGOLIA_API_KEY := Some "envkey";
     ALGOLIA_APP_ID := None;
     ALGOLIA_INDEX_NAME := None;
     LABUREN_API_KEY := None;
     TO_USE := None |}.

(** The four mandatory backend headers of a request. *)
Definition backend_headers : gmap string string :=
  <["odoo-url" := "https://x"]>
    (<["odoo-db" := "d"]> (<["odoo-user" := "u"]> (<["odoo-pass" := "p"]> ∅))).

Definition sample_props : Props :=
  {| odooUrl := Some "https://x"; odooDb := Some "d"; odooUser := Some "u";
     odooPass := Some "p"; odooTimeout := Some "60000";
     algoliaApiKey := None; algoliaAppId := None; algoliaIndexName := None;
     laburenApiKey := None; toolsToUse := Some [] |}.

Definition gated_props : Props :=
  {| odooUrl := Some "https://x"; odooDb := Some "d"; odooUser := Some "u";
     odooPass := Some "p"; odooTimeout := Some "60000";
     algoliaApiKey := None; algoliaAppId := None; algoliaIndexName := None;
     laburenApiKey := None;
     toolsToUse := Some ["search_product_by_reference_code"] |}.

Definition cfg0 : OdooConfig :=
  {| baseUrl := "https://x"; db := "d"; username := "u"; password := "p";
     timeout := Some (Num 60000) |}.

(** The four mandatory headers, the first with an empty value. *)
Definition empty_url_headers : gmap string string :=
  <["odoo-url" := ""]> backend_headers.

(** A request with a malformed allow-list and no backend header. *)
Definition bad_to_use_only : gmap string string :=
  <["to-use" := "not json"]> ∅.

(** A request with a malformed allow-list and the backend headers. *)
Definition bad_to_use_headers : gmap string string :=
  <["to-use" := "not json"]> backend_headers.

(** Settings whose allow-list names one tool. *)
Definition listed_env : Env :=
  {| ODOO_URL := Some "https://erp.example";
     ODOO_DB := Some "prod";
     ODOO_USER := Some "svc";
     ODOO_PASS := Some "secret";
     ODOO_TIMEOUT := None;
     ALGOLIA_API_KEY := None;
     ALGOLIA_APP_ID := None;
     ALGOLIA_INDEX_NAME := None;
     LABUREN_API_KEY := None;
     TO_USE := Some ("[" +:+ quoted "create_sale_order" +:+ "]") |}.

(** A request with an unparseable timeout and no backend header. *)
Definition bad_timeout_only : gmap string string :=
  <["odoo-timeout" := "abc"]> ∅.

(** A request with an unparseable timeout and the backend headers. *)
Definition bad_timeout_headers : gmap string string :=
  <["odoo-timeout" := "abc"]> backend_headers.

(** A request with an empty timeout header and the backend headers. *)
Definition empty_timeout_headers : gmap string string :=
  <["odoo-timeout" := ""]> backend_headers.

(** Login gives the identity 7, every other call an empty list. *)
Definition login7 : list FetchRequest -> FetchRequest -> FetchResult :=
  backend (reply (JNum (Num 7))) (reply (JArr [])).

(** Login gives [null] without an error. *)
Definition login_null : list FetchRequest -> FetchRequest -> FetchResult :=
  backend (reply JNull) (reply (JArr [])).

(** Login is answered with a status 500. *)
Definition login_500 : list FetchRequest -> FetchRequest -> FetchResult :=
  backend (Responded false 500 "Internal Server Error" None)
    (reply (JArr [])).

(** Every read gives a list with [null] in first place. *)
Definition read_null : list FetchRequest -> FetchRequest -> FetchResult :=
  backend (reply (JNum (Num 7))) (reply (JArr [JNull])).

Definition partner5 : JValue :=
  JObj [("id", JNum (Num 5)); ("name", JStr "Ada")].

(** Every read gives one record. *)
Definition read_partner : list FetchRequest -> FetchRequest -> FetchResult :=
  backend (reply (JNum (Num 7))) (reply (JArr [partner5])).

Definition read_call : Call :=
  {| call_model := JStr "res.partner"; call_method := "read";
     call_args := [JArr [JNum (Num 5)]]; call_kwargs := JObj [] |}.

(** The address of search(res.partner, [["vat","=","X"]]). *)
Definition search_path : string :=
  "/res.partner/%5B%5B%22vat%22%2C%22%3D%22%2C%22X%22%5D%5D".

(** Its domain segment once decoded. *)
Definition vat_text : string :=
  "[[" +:+ quoted "vat" +:+ "," +:+ quoted "=" +:+ "," +:+ quoted "X" +:+ "]]".

Definition vat_domain : JValue :=
  JArr [JArr [JStr "vat"; JStr "="; JStr "X"]].

(** A request with the backend headers and an allow-list of one tool. *)
Definition listed_headers : gmap string string :=
  <["to-use" := "[" +:+ quoted "create_sale_order" +:+ "]"]> backend_headers.

(** Settings whose allow-list is not valid JSON. *)
Definition bad_list_env : Env :=
  {| ODOO_URL := None; ODOO_DB := None; ODOO_USER := None;
     ODOO_PASS := None; ODOO_TIMEOUT := None; ALGOLIA_API_KEY := None;
     ALGOLIA_APP_ID := None; ALGOLIA_INDEX_NAME := None;
     LABUREN_API_KEY := None; TO_USE := Some "not json" |}.

Definition widget : OrderLine :=
  {| reference_code := "W1"; qty := JNum (Num 2) |}.

Definition gadget : OrderLine :=
  {| reference_code := "G1"; qty := JNum (Num 1) |}.

End Sample.

Section Runtime.

Set Default Proof Using "Type".

(** ** The runtime and the backend *)

(** [JSON.parse]; [None] is the SyntaxError it throws. *)
Variable JSON_parse : string -> option JValue.

(** [JSON.stringify] *)
Variable JSON_stringify : JValue -> string.

(** [decodeURIComponent]; [None] is the URIError it throws. *)
Variable decodeURIComponent : string -> option string.

(** [Number(v)] *)
Variable Number_ : JValue -> JValue.

(** The text of [(error as Error).message || error] inside a template. *)
Variable error_text : Exn -> string.

(** [uuid()]: the identifier drawn for the n-th transport request. *)
Variable uuid : nat -> string.

(** The remote end: what the global [fetch] yields for a request, given the
    requests that came before it. *)
Variable backend : list FetchRequest -> FetchRequest -> FetchResult.

(** ** index.ts: [fetch] *)

(** Lines 19-40: the [to-use] header. *)
Definition parse_to_use_header (toUseHeader : option string)
    : list string * list LogEntry :=
  match toUseHeader with
  | Some h =>
      if h =? "" then ([], [])
      else
        match JSON_parse h with
        | Some v =>
            if negb (is_string_array v) then
              ([], [(WARN, "⚠️ [fetch] Header 'to-use' debe ser un array de strings. Ignorando configuración.")])
            else (strings_of v, [])
        | None =>
            ([], [(WARN, "⚠️ [fetch] Error parseando header 'to-use'. Debe ser un JSON válido. Ignorando configuración.")])
        end
  | None => ([], [])
  end.

(** Lines 43-63: the [TO_USE] setting. *)
Definition parse_env_to_use (to_use : option string)
    : list string * list LogEntry :=
  match to_use with
  | Some e =>
      if e =? "" then ([], [])
      else
        match JSON_parse e with
        | Some parsed =>
            if is_string_array parsed then
              (strings_of parsed, [(LOG, "✅ [fetch] Variable TO_USE configurada:")])
            else
              ([], [(WARN, "⚠️ [fetch] Variable TO_USE debe ser un array de strings. Usando configuración por defecto.")])
        | None =>
            ([], [(WARN, "⚠️ [fetch] Error parseando variable TO_USE. Debe ser un JSON válido. Usando configuración por defecto.")])
        end
  | None => ([], [])
  end.

Definition log_tools (l : list string) : LogEntry :=
  if (0 <? length l)%nat then
    (LOG, "✅ [fetch] Tools a usar: " +:+ String.concat ", " l)
  else (LOG, "✅ [fetch] Todas las tools disponibles (sin filtrado)").

(** The test of line 69: one of the four mandatory headers is falsy. *)
Definition missing_backend_header (headers : gmap string string) : bool :=
  negb (str_truthy (headers !! "odoo-url"))
  || negb (str_truthy (headers !! "odoo-db"))
  || negb (str_truthy (headers !! "odoo-user"))
  || negb (str_truthy (headers !! "odoo-pass")).

(** Lines 10-131: the props injected into the execution context, and the
    console output on the way. *)
Definition build_context (headers : gmap string string) (env : Env)
    : Props * list LogEntry :=
  let odooUrl := headers !! "odoo-url" in
  let odooDb := headers !! "odoo-db" in
  let odooUser := headers !! "odoo-user" in
  let odooPass := headers !! "odoo-pass" in
  let algoliaApiKey := headers !! "algolia-api-key" in
  let algoliaAppId := headers !! "algolia-app-id" in
  let algoliaIndexName := headers !! "algolia-index-name" in
  let laburenApiKey := headers !! "laburen-api-key" in
  let '(toolsToUse, log1) := parse_to_use_header (headers !! "to-use") in
  let '(envToolsToUse, log2) := parse_env_to_use (TO_USE env) in
  if missing_backend_header headers then
    let envUrl := str_or (ODOO_URL env) "https://tu-odoo-instance.com" in
    ({| odooUrl := Some envUrl;
        odooDb := Some (str_or (ODOO_DB env) "tu_database");
        odooUser := Some (str_or (ODOO_USER env) "usuario@ejemplo.com");
        odooPass := Some (str_or (ODOO_PASS env) "tu_password");
        odooTimeout := Some (str_or (ODOO_TIMEOUT env) "60000");
        algoliaApiKey := Some (str_or (ALGOLIA_API_KEY env) "");
        algoliaAppId := Some (str_or (ALGOLIA_APP_ID env) "");
        algoliaIndexName := Some (str_or (ALGOLIA_INDEX_NAME env) "");
        laburenApiKey := Some (str_or (LABUREN_API_KEY env) "");
        toolsToUse := Some envToolsToUse |},
     (log1 ++ log2
       ++ [(LOG, "⚠️ [fetch] Headers de Odoo no encontrados. Intentando usar variables de entorno de Cloudflare Workers.");
           (LOG, "🔍 [fetch] Configuración de variables de entorno inyectada: " +:+ envUrl);
           log_tools envToolsToUse])%list)
  else
    ({| odooUrl := odooUrl;
        odooDb := odooDb;
        odooUser := odooUser;
        odooPass := odooPass;
        odooTimeout := Some (str_or (headers !! "odoo-timeout") "60000");
        algoliaApiKey := algoliaApiKey;
        algoliaAppId := algoliaAppId;
        algoliaIndexName := algoliaIndexName;
        laburenApiKey := laburenApiKey;
        toolsToUse := Some toolsToUse |},
     (log1 ++ log2
       ++ [(LOG, "🔍 [fetch] Configuración real inyectada desde headers");
           log_tools toolsToUse])%list).

(** Lines 133-142: only the MCP endpoints are served. *)
Definition fetch (pathname : string) (headers : gmap string string)
    (env : Env) : Routed * list LogEntry :=
  let '(props, log) := build_context headers env in
  if (pathname =? "/sse") || (pathname =? "/sse/message") then
    (ServeSSE props, log)
  else if pathname =? "/mcp" then (ServeMCP props, log)
  else (NotFound, log).

(** ** mcp.ts: configuration and gate *)

(** [getConfigFromContext], lines 24-52. *)
Definition getConfigFromContext (contextProps : Props) : Bundle :=
  {| odooConfig :=
       {| baseUrl := str_or (odooUrl contextProps) "";
          db := str_or (odooDb contextProps) "";
          username := str_or (odooUser contextProps) "";
          password := str_or (odooPass contextProps) "";
          timeout :=
            Some (parseInt (str_or (odooTimeout contextProps) "60000")) |};
     algoliaConfig :=
       {| apiKey := str_or (algoliaApiKey contextProps) "";
          appId := str_or (algoliaAppId contextProps) "";
          indexName := str_or (algoliaIndexName contextProps) "" |};
     bundleToolsToUse := default [] (toolsToUse contextProps);
     bundleLaburenApiKey := str_or (laburenApiKey contextProps) "" |}.

(** [toolsToUse.includes(toolName)] *)
Definition includes (l : list string) (x : string) : bool :=
  existsb (String.eqb x) l.

(** [shouldIgnoreTool], lines 68-86. *)
Definition shouldIgnoreTool (props : Props) (toolName : string) : bool :=
  let toolsToUse := bundleToolsToUse (getConfigFromContext props) in
  if (length toolsToUse =? 0)%nat then false
  else
    let shouldIgnore := negb (includes toolsToUse toolName) in
    shouldIgnore.

(** The configuration bundle of a request: what the agent reads from the
    props that [fetch] built. *)
Definition resolve (headers : gmap string string) (env : Env) : Bundle :=
  getConfigFromContext (fst (build_context headers env)).

(** ** odooClient.ts *)

(** [this.cfg = { timeout: 60000, ...cfg }], line 16: a [timeout] key of
    [cfg] replaces the default, whatever its value. *)
Definition spread_cfg (c : OdooConfig) : OdooConfig :=
  {| baseUrl := baseUrl c;
     db := db c;
     username := username c;
     password := password c;
     timeout := Some (default (Num 60000) (timeout c)) |}.

(** [new OdooClient(cfg)]: a new object with [uid = null]; the value is the
    reference to it. *)
Definition new_OdooClient (c : OdooConfig) : M nat :=
  fun s =>
    (Ok (length (heap s)),
     set_heap (heap s ++ [{| uid := JNull; cfg := spread_cfg c |}]) s).

(** Reading the object behind a reference; a missing object is the
    TypeError of a call on [undefined]. *)
Definition deref (this : nat) : M OdooClient :=
  fun s => lift_opt TypeError (heap s !! this) s.

(** [this.uid = v] *)
Definition set_uid (this : nat) (v : JValue) : M unit :=
  fun s =>
    match heap s !! this with
    | Some o =>
        (Ok tt, set_heap (<[this := {| uid := v; cfg := cfg o |}]> (heap s)) s)
    | None => (Throw TypeError, s)
    end.

(** [data.error.data?.message ?? "Odoo RPC error"], for a truthy
    [data.error]. *)
Definition rpc_error_message (err : JValue) : JValue :=
  match get_prop err "data" with
  | Some d =>
      match get_prop d "message" with
      | Some m => coalesce m (JStr "Odoo RPC error")
      | None => JStr "Odoo RPC error"
      end
  | None => JStr "Odoo RPC error"
  end.

(** The request that [jsonRpc] hands to the global [fetch], lines 21-33. *)
Definition rpc_request (o : OdooClient) (n : nat) (service method : string)
    (args : list JValue) : FetchRequest :=
  {| url := baseUrl (cfg o) +:+ "/jsonrpc";
     httpMethod := "POST";
     contentType := "application/json";
     body :=
       {| jsonrpc := "2.0";
          id := uuid n;
          method := "call";
          params :=
            {| service := service; rpcMethod := method; args := args |} |};
     cfTimeout := timeout (cfg o) |}.

(** Lines 35-44: from the response to the result. *)
Definition rpc_outcome (r : FetchResult) : Result JValue :=
  match r with
  | Rejected => Throw NetworkError
  | Responded ok status statusText json =>
      if negb ok then
        Throw (Error (JStr ("HTTP " +:+ pretty status +:+ ": " +:+ statusText)))
      else
        match json with
        | None => Throw SyntaxError
        | Some data =>
            match get_prop data "error" with
            | None => Throw TypeError
            | Some err =>
                if truthy err then Throw (Error (rpc_error_message err))
                else
                  match get_prop data "result" with
                  | None => Throw TypeError
                  | Some result => Ok result
                  end
            end
        end
  end.

(** [jsonRpc], lines 20-45. *)
Definition jsonRpc (this : nat) (service method : string)
    (args : list JValue) : M JValue :=
  o <- deref this ;;
  s <- get_state ;;
  let req := rpc_request o (length (sent s)) service method args in
  modify (set_sent (sent s ++ [req])) ;;;
  lift_result (rpc_outcome (backend (sent s) req)).

(** [login], lines 47-57. *)
Definition login (this : nat) : M unit :=
  o <- deref this ;;
  if negb (nullish (uid o)) then ret tt
  else
    r <- jsonRpc this "common" "login"
           [JStr (db (cfg o)); JStr (username (cfg o));
            JStr (password (cfg o))] ;;
    set_uid this r.

(** [executeKw], lines 60-76. *)
Definition executeKw (this : nat) (model : JValue) (method : string)
    (args : list JValue) (kwargs : JValue) : M JValue :=
  login this ;;;
  o <- deref this ;;
  jsonRpc this "object" "execute_kw"
    [JStr (db (cfg o)); uid o; JStr (password (cfg o)); model; JStr method;
     JArr args; kwargs].

(** ** mcp.ts: the agent *)

(** [getOdooClient], lines 55-59. *)
Definition getOdooClient (props : Props) : M nat :=
  c <- new_OdooClient (odooConfig (getConfigFromContext props)) ;;
  modify (set_this_odoo (Some c)) ;;;
  ret c.

(** The reference held by [this.odoo]. *)
Definition the_odoo : M nat :=
  s <- get_state ;;
  lift_opt TypeError (this_odoo s).

(** [search_product_by_reference_code], lines 111-153. *)
Definition search_product_handler (props : Props) (reference_code : string)
    : M Content :=
  try_catch
    (odoo <- getOdooClient props ;;
     r <- executeKw odoo (JStr "product.product") "search_read"
            [JArr [JArr [JStr "default_code"; JStr "="; JStr reference_code]]]
            (JObj [("fields",
                    JArr [JStr "id"; JStr "name"; JStr "default_code";
                          JStr "list_price"; JStr "qty_available"]);
                   ("limit", JNum (Num 1))]) ;;
     product <- lift_opt TypeError (first_of r) ;;
     if negb (truthy product) then
       ret (text_content
              (JSON_stringify (JObj [("error", JStr "Product not found")])))
     else ret (text_content (JSON_stringify product)))
    (fun error =>
       ret (text_content ("Error al buscar producto: " +:+ error_text error))).

(** The loop over [lines], lines 196-215. *)
Fixpoint create_lines (odoo : nat) (orderId : JValue)
    (lines : list OrderLine) : M unit :=
  match lines with
  | [] => ret tt
  | line :: rest =>
      r <- executeKw odoo (JStr "product.product") "search_read"
             [JArr [JArr [JStr "default_code"; JStr "=";
                          JStr (reference_code line)]]]
             (JObj [("fields", JArr [JStr "id"]); ("limit", JNum (Num 1))]) ;;
      prod <- lift_opt TypeError (first_of r) ;;
      if negb (truthy prod) then
        throw (Error (JStr ("Product " +:+ reference_code line +:+ " missing")))
      else
        prod_id <- lift_opt TypeError (get_prop prod "id") ;;
        executeKw odoo (JStr "sale.order.line") "create"
          [JObj [("order_id", orderId); ("product_id", prod_id);
                 ("product_uom_qty", qty line)]]
          (JObj []) ;;;
        create_lines odoo orderId rest
  end.

(** [create_sale_order], lines 172-238. *)
Definition create_sale_order_handler (props : Props) (tax_id : string)
    (confirm : bool) (lines : list OrderLine) : M Content :=
  try_catch
    (odoo <- getOdooClient props ;;
     r <- executeKw odoo (JStr "res.partner") "search_read"
            [JArr [JArr [JStr "vat"; JStr "="; JStr tax_id]]]
            (JObj [("fields", JArr [JStr "id"]); ("limit", JNum (Num 1))]) ;;
     partner <- lift_opt TypeError (first_of r) ;;
     if negb (truthy partner) then throw (Error (JStr "Partner not found"))
     else
       partner_id <- lift_opt TypeError (get_prop partner "id") ;;
       orderId <- executeKw odoo (JStr "sale.order") "create"
                    [JObj [("partner_id", partner_id)]] (JObj []) ;;
       create_lines odoo orderId lines ;;;
       ret (text_content
              (JSON_stringify
                 (JObj [("order_id", orderId); ("confirmed", JBool confirm)]))))
    (fun error =>
       ret (text_content
              ("Error al crear orden de venta: " +:+ error_text error))).

(** The resource [odoo://models], lines 243-248. *)
Definition models_handler : M JValue :=
  odoo <- the_odoo ;;
  executeKw odoo (JStr "ir.model") "search_read"
    [JArr []; JArr [JStr "model"; JStr "name"]] (JObj []).

(** The resource [odoo://model/:model], lines 250-256. *)
Definition model_handler (pathname : string) : M JValue :=
  let model := default JUndefined (JStr <$> last (split "/" pathname)) in
  odoo <- the_odoo ;;
  executeKw odoo model "fields_get"
    [JArr []; JArr [JStr "string"; JStr "type"; JStr "required"]] (JObj []).

(** The resource [odoo://record/:model/:id], lines 258-262. *)
Definition record_handler (pathname : string) : M JValue :=
  let parts := split "/" pathname in
  let model := nth_str parts 1 in
  let id := nth_str parts 2 in
  odoo <- the_odoo ;;
  r <- executeKw odoo model "read" [JArr [Number_ id]] (JObj []) ;;
  rec <- lift_opt TypeError (first_of r) ;;
  ret (coalesce rec (JObj [])).

(** The argument of [decodeURIComponent] as a string: [undefined] reads
    as its name. *)
Definition uri_argument (v : JValue) : string :=
  match v with
  | JStr s => s
  | _ => "undefined"
  end.

(** The resource [odoo://search/:model/:domain], lines 264-272. *)
Definition search_handler (pathname : string) : M JValue :=
  let parts := split "/" pathname in
  let model := nth_str parts 1 in
  let domainStr := nth_str parts 2 in
  decoded <- lift_opt URIError (decodeURIComponent (uri_argument domainStr)) ;;
  domain <- lift_opt SyntaxError (JSON_parse decoded) ;;
  odoo <- the_odoo ;;
  executeKw odoo model "search_read" [domain] (JObj []).

(** [this.server.tool(name, ...)] and [this.server.resource(name, uri, ...)]:
    the entry is added to the server's registry under its name. *)
Definition server_tool (name : string) (t : ToolName) : M unit :=
  modify (fun s => set_tools (<[name := t]> (tools s)) s).

Definition server_resource (name uri : string) (r : ResourceName) : M unit :=
  modify (fun s => set_resources (<[name := (uri, r)]> (resources s)) s).

(** [init], lines 88-273. *)
Definition init (props : Props) : M unit :=
  c <- new_OdooClient (odooConfig (getConfigFromContext props)) ;;
  modify (set_this_odoo (Some c)) ;;;
  (if negb (shouldIgnoreTool props "search_product_by_reference_code") then
     server_tool "search_product_by_reference_code" SearchProductByReferenceCode
   else ret tt) ;;;
  (if negb (shouldIgnoreTool props "create_sale_order") then
     server_tool "create_sale_order" CreateSaleOrder
   else ret tt) ;;;
  server_resource "models" "odoo://models" Models ;;;
  server_resource "model" "odoo://model/:model" Model ;;;
  server_resource "record" "odoo://record/:model/:id" Record_ ;;;
  server_resource "search" "odoo://search/:model/:domain" Search.

(** ** Vocabulary of the properties *)

(** The login envelope that a client sends as its n-th request. *)
Definition login_request (o : OdooClient) (n : nat) : FetchRequest :=
  rpc_request o n "common" "login"
    [JStr (db (cfg o)); JStr (username (cfg o)); JStr (password (cfg o))].

(** The execution envelope of [executeKw(model, method, args, kwargs)]. *)
Definition execute_request (o : OdooClient) (n : nat) (model : JValue)
    (method : string) (args : list JValue) (kwargs : JValue) : FetchRequest :=
  rpc_request o n "object" "execute_kw"
    [JStr (db (cfg o)); uid o; JStr (password (cfg o)); model; JStr method;
     JArr args; kwargs].

Definition is_login (r : FetchRequest) : bool :=
  (service (params (body r)) =? "common")
  && (rpcMethod (params (body r)) =? "login").

(** A request that is no login envelope and carries the identity [v]. *)
Definition carries (v : JValue) (r : FetchRequest) : Prop :=
  is_login r = false /\ args (params (body r)) !! 1 = Some v.

(** The number of login envelopes in a list of requests. *)
Definition logins (l : list FetchRequest) : nat :=
  length (filter (fun r => is_login r = true) l).

(** The resolution of an optional field as the specification words it:
    the header value when the header is present, else the process-wide
    setting, else the fixed literal. *)
Definition spec_header_else_setting_else_literal
    (header setting : option string) (literal : string) : string :=
  match header with
  | Some v => v
  | None =>
      match setting with
      | Some v => v
      | None => literal
      end
  end.

(** The requests sent between the state [before] and the state [after]. *)
Definition sent_since (before after : State) : list FetchRequest :=
  drop (length (sent before)) (sent after).

(** A caller that issues the calls one after the other on the same client
    and goes on whether a call returns or throws. *)
Fixpoint run_calls (this : nat) (calls : list Call) : M unit :=
  match calls with
  | [] => ret tt
  | c :: rest =>
      try_catch
        (executeKw this (call_model c) (call_method c) (call_args c)
           (call_kwargs c) ;;;
         ret tt)
        (fun _ => ret tt) ;;;
      run_calls this rest
  end.

(** The session identity held by the client behind a reference. *)
Definition uid_of (this : nat) (s : State) : option JValue :=
  uid <$> heap s !! this.

(** From [s] to [s'] requests were added at the end, and nothing else
    changed but the fields of the client [this]. *)
Definition only_client_changed (this : nat) (s s' : State) : Prop :=
  (exists new, sent s' = sent s ++ new)
  /\ this_odoo s' = this_odoo s
  /\ tools s' = tools s
  /\ resources s' = resources s
  /\ length (heap s') = length (heap s)
  /\ (forall i, i <> this -> heap s' !! i = heap s !! i)
  /\ is_Some (heap s' !! this).

(** The states [s1] and [s2] have seen the same requests, and the client
    [c1] of the first has the fields of the client [c2] of the second. *)
Definition same_client (c1 c2 : nat) (s1 s2 : State) : Prop :=
  sent s1 = sent s2
  /\ heap s1 !! c1 = heap s2 !! c2
  /\ is_Some (heap s1 !! c1).

(** Two computations that, started in such states, give the same result and
    end in such states. *)
Definition alike {A} (c1 c2 : nat) (m1 m2 : M A) : Prop :=
  forall s1 s2,
    same_client c1 c2 s1 s2 ->
    result_of (m1 s1) = result_of (m2 s2)
    /\ same_client c1 c2 (state_of (m1 s1)) (state_of (m2 s2)).

(** ** mcpBase.ts: [BaseMCP]

    [getConfigFromContext], [getOdooClient] and [shouldIgnoreTool] of
    [BaseMCP] (lines 26-72) are the code of the same methods of [OdooMCP];
    the helpers below use the definitions above. *)

(** [createErrorResponse], lines 74-86. *)
Definition createErrorResponse (error : Exn) (operation : string) : Content :=
  text_content ("Error en " +:+ operation +:+ ": " +:+ error_text error).

(** [createSuccessResponse], lines 89-93. *)
Definition createSuccessResponse (data : JValue) : Content :=
  text_content (JSON_stringify data).

(** [findPartnerByVat], lines 96-105. *)
Definition findPartnerByVat (props : Props) (vat : string) : M JValue :=
  odoo <- getOdooClient props ;;
  r <- executeKw odoo (JStr "res.partner") "search_read"
         [JArr [JArr [JStr "vat"; JStr "="; JStr vat]]]
         (JObj [("fields",
                 JArr [JStr "id"; JStr "name"; JStr "email"; JStr "phone"]);
                ("limit", JNum (Num 1))]) ;;
  lift_opt TypeError (first_of r).

(** [findProductByCode], lines 108-120. *)
Definition findProductByCode (props : Props) (referenceCode : string)
    : M JValue :=
  odoo <- getOdooClient props ;;
  r <- executeKw odoo (JStr "product.product") "search_read"
         [JArr [JArr [JStr "default_code"; JStr "="; JStr referenceCode]]]
         (JObj [("fields",
                 JArr [JStr "id"; JStr "name"; JStr "default_code";
                       JStr "list_price"; JStr "qty_available"]);
                ("limit", JNum (Num 1))]) ;;
  lift_opt TypeError (first_of r).

(** [createBasicSaleOrder], lines 123-131. *)
Definition createBasicSaleOrder (props : Props) (partnerId : JValue)
    : M JValue :=
  odoo <- getOdooClient props ;;
  executeKw odoo (JStr "sale.order") "create"
    [JObj [("partner_id", partnerId)]] (JObj []).

(** [createOrderLine], lines 134-144. *)
Definition createOrderLine (props : Props) (orderId productId qty : JValue)
    : M JValue :=
  odoo <- getOdooClient props ;;
  executeKw odoo (JStr "sale.order.line") "create"
    [JObj [("order_id", orderId); ("product_id", productId);
           ("product_uom_qty", qty)]]
    (JObj []).

(** [setupBasicResources], lines 150-181: the registrations; the four
    handlers are the handlers of [init]. *)
Definition setupBasicResources : M unit :=
  server_resource "models" "odoo://models" Models ;;;
  server_resource "model" "odoo://model/:model" Model ;;;
  server_resource "record" "odoo://record/:model/:id" Record_ ;;;
  server_resource "search" "odoo://search/:model/:domain" Search.

(** ** Vocabulary of the further properties *)

(** One call of a helper of [BaseMCP]. *)
Inductive BaseCall : Type :=
  | FindPartnerByVat (vat : string)
  | FindProductByCode (referenceCode : string)
  | CreateBasicSaleOrder (partnerId : JValue)
  | CreateOrderLine (orderId productId qty : JValue).

Definition base_call (props : Props) (c : BaseCall) : M JValue :=
  match c with
  | FindPartnerByVat vat => findPartnerByVat props vat
  | FindProductByCode code => findProductByCode props code
  | CreateBasicSaleOrder partnerId => createBasicSaleOrder props partnerId
  | CreateOrderLine orderId productId qty =>
      createOrderLine props orderId productId qty
  end.

(** A caller that runs helper calls one after the other and goes on
    whether a call returns or throws. *)
Fixpoint run_base_calls (props : Props) (calls : list BaseCall) : M unit :=
  match calls with
  | [] => ret tt
  | c :: rest =>
      try_catch (base_call props c ;;; ret tt) (fun _ => ret tt) ;;;
      run_base_calls props rest
  end.

(** What the protocol host can ask of an [OdooMCP] agent: [init], the two
    tools and the four resources. *)
Inductive Op : Type :=
  | OpInit
  | OpSearchProduct (reference_code : string)
  | OpCreateSaleOrder (tax_id : string) (confirm : bool)
      (lines : list OrderLine)
  | OpModels
  | OpModel (pathname : string)
  | OpRecord (pathname : string)
  | OpSearch (pathname : string).

(** The state after one operation, whatever it returned or threw. *)
Definition run_op (props : Props) (op : Op) (s : State) : State :=
  match op with
  | OpInit => state_of (init props s)
  | OpSearchProduct code => state_of (search_product_handler props code s)
  | OpCreateSaleOrder tax_id confirm lines =>
      state_of (create_sale_order_handler props tax_id confirm lines s)
  | OpModels => state_of (models_handler s)
  | OpModel pathname => state_of (model_handler pathname s)
  | OpRecord pathname => state_of (record_handler pathname s)
  | OpSearch pathname => state_of (search_handler pathname s)
  end.

(** The state after a sequence of operations, first to last. *)
Definition run_ops (props : Props) (ops : list Op) (s : State) : State :=
  fold_left (fun s op => run_op props op s) ops s.

(** A computation that keeps a property of the state, whether it returns
    or throws. *)
Definition keeps {A} (P : State -> Prop) (m : M A) : Prop :=
  forall s, P s -> P (state_of (m s)).

(** A computation whose start and end states are always related by [R]. *)
Definition moves {A} (R : State -> State -> Prop) (m : M A) : Prop :=
  forall s, R s (state_of (m s)).

(** The envelope of the n-th request of an agent whose clients have the
    configuration [c]. *)
Definition request_ok (c : OdooConfig) (n : nat) (r : FetchRequest) : Prop :=
  url r = baseUrl c +:+ "/jsonrpc"
  /\ httpMethod r = "POST"
  /\ contentType r = "application/json"
  /\ cfTimeout r = timeout c
  /\ jsonrpc (body r) = "2.0"
  /\ id (body r) = uuid n
  /\ method (body r) = "call"
  /\ ((service (params (body r)) = "common"
       /\ rpcMethod (params (body r)) = "login"
       /\ args (params (body r))
          = [JStr (db c); JStr (username c); JStr (password c)])
      \/ (service (params (body r)) = "object"
          /\ rpcMethod (params (body r)) = "execute_kw"
          /\ exists u model method a kwargs,
               args (params (body r))
               = [JStr (db c); u; JStr (password c); model; JStr method;
                  JArr a; kwargs])).

(** The invariant of an agent with the props [props]: every client has
    the configuration read from the props, [this.odoo] refers to a client
    that exists, and every request sent so far has the envelope above. *)
Definition agent_inv (props : Props) (s : State) : Prop :=
  let c := spread_cfg (odooConfig (getConfigFromContext props)) in
  (forall i o, heap s !! i = Some o -> cfg o = c)
  /\ (forall i, this_odoo s = Some i -> i < length (heap s))
  /\ (forall n r, sent s !! n = Some r -> request_ok c n r).

(** From [s] to [s']: requests were only added at the end; no client was
    removed, no configuration changed and no stored identity was replaced;
    no tool or resource was unregistered. *)
Definition history (s s' : State) : Prop :=
  (exists new, sent s' = sent s ++ new)
  /\ (forall i o,
        heap s !! i = Some o ->
        exists o',
          heap s' !! i = Some o'
          /\ cfg o' = cfg o
          /\ (nullish (uid o) = false -> uid o' = uid o))
  /\ dom (tools s) ⊆ dom (tools s')
  /\ dom (resources s) ⊆ dom (resources s').

(** From [s] to [s'] requests were added at the end, each of them
    satisfying [Q]. *)
Definition appends (Q : FetchRequest -> Prop) (s s' : State) : Prop :=
  exists new, sent s' = sent s ++ new /\ Forall Q new.

(** A computation whose results all satisfy [Q]. *)
Definition returns {A} (Q : A -> Prop) (m : M A) : Prop :=
  forall s a, result_of (m s) = Ok a -> Q a.

(** The model and the method that an execution envelope asks the backend
    to run: the fourth and the fifth of its arguments. *)
Definition remote_call (r : FetchRequest) : option (JValue * JValue) :=
  match args (params (body r)) !! 3, args (params (body r)) !! 4 with
  | Some model, Some method => Some (model, method)
  | _, _ => None
  end.

(** A request that is a login envelope, or an execution envelope for one
    of the calls of [table]. *)
Definition login_or_call (table : list (JValue * string))
    (r : FetchRequest) : Prop :=
  is_login r = true
  \/ exists model method,
       (model, method) ∈ table
       /\ remote_call r = Some (model, JStr method).

(** The model that the resource [odoo://model/:model] reads from a path. *)
Definition path_model (pathname : string) : JValue :=
  default JUndefined (JStr <$> last (split "/" pathname)).

(** The calls that an operation can make on the backend. *)
Definition calls_of (op : Op) : list (JValue * string) :=
  match op with
  | OpInit => []
  | OpSearchProduct _ => [(JStr "product.product", "search_read")]
  | OpCreateSaleOrder _ _ _ =>
      [(JStr "res.partner", "search_read");
       (JStr "product.product", "search_read");
       (JStr "sale.order", "create");
       (JStr "sale.order.line", "create")]
  | OpModels => [(JStr "ir.model", "search_read")]
  | OpModel pathname => [(path_model pathname, "fields_get")]
  | OpRecord pathname => [(nth_str (split "/" pathname) 1, "read")]
  | OpSearch pathname => [(nth_str (split "/" pathname) 1, "search_read")]
  end.

(** The names under which [init] can register a tool. *)
Definition tool_table : list (string * ToolName) :=
  [("search_product_by_reference_code", SearchProductByReferenceCode);
   ("create_sale_order", CreateSaleOrder)].

(** The resources of an agent. *)
Definition resource_table : list (string * (string * ResourceName)) :=
  [("models", ("odoo://models", Models));
   ("model", ("odoo://model/:model", Model));
   ("record", ("odoo://record/:model/:id", Record_));
   ("search", ("odoo://search/:model/:domain", Search))].

(** A text without the character [sep]. *)
Fixpoint free_of (sep : ascii) (s : string) : bool :=
  match s with
  | EmptyString => true
  | String a rest => negb (Ascii.eqb a sep) && free_of sep rest
  end.

(** The first call of [create_sale_order], lines 174-182: the search of
    the partner on the client of the invocation. *)
Definition partner_search (props : Props) (tax_id : string) : M JValue :=
  odoo <- getOdooClient props ;;
  executeKw odoo (JStr "res.partner") "search_read"
    [JArr [JArr [JStr "vat"; JStr "="; JStr tax_id]]]
    (JObj [("fields", JArr [JStr "id"]); ("limit", JNum (Num 1))]).

(** The test of lines 184-186 on the outcome of the search of the
    partner: the search returned something whose first element is
    truthy. *)
Definition partner_found (r : Result JValue) : bool :=
  match r with
  | Ok v =>
      match first_of v with
      | Some partner => truthy partner
      | None => false
      end
  | Throw _ => false
  end.

(** The client behind [this] holds a session identity. *)
Definition has_session (this : nat) (s : State) : Prop :=
  exists o, heap s !! this = Some o /\ nullish (uid o) = false.

(** A computation that, started on a client with a session identity,
    leaves it with one and sends no login envelope. *)
Definition steady {A} (this : nat) (m : M A) : Prop :=
  forall s,
    has_session this s ->
    has_session this (state_of (m s))
    /\ appends (fun r => is_login r = false) s (state_of (m s)).

(** The search of the product of a line, lines 197-202. *)
Definition product_search (odoo : nat) (line : OrderLine) : M JValue :=
  executeKw odoo (JStr "product.product") "search_read"
    [JArr [JArr [JStr "default_code"; JStr "="; JStr (reference_code line)]]]
    (JObj [("fields", JArr [JStr "id"]); ("limit", JNum (Num 1))]).

(** The number of [executeKw] calls that an operation can make. *)
Definition calls_bound (op : Op) : nat :=
  match op with
  | OpInit => 0
  | OpCreateSaleOrder _ _ lines => 2 + 2 * length lines
  | _ => 1
  end.

(** From [s] to [s'] requests were added at the end: at most two for
    each of [n] calls, at most one login envelope for each. *)
Definition within (n : nat) (s s' : State) : Prop :=
  exists new,
    sent s' = sent s ++ new
    /\ length new <= 2 * n
    /\ logins new <= n.

(** ** Properties of the request configuration resolver *)

Lemma str_or_present (s d : string) : s <> "" -> str_or (Some s) d = s.
Proof.
  intros Hs. unfold str_or.
  destruct (String.eqb_spec s ""); [contradiction | reflexivity].
Qed.

Lemma str_or_nonempty (o : option string) (d : string) :
  d <> "" -> str_or o d <> "".
Proof.
  intros Hd. unfold str_or. destruct o as [s|]; [|exact Hd].
  now destruct (String.eqb_spec s "").
Qed.

Lemma str_truthy_false (o : option string) :
  str_truthy o = false <-> o = None \/ o = Some "".
Proof.
  destruct o as [s|]; simpl.
  - destruct (String.eqb_spec s ""); simpl; split; intros H.
    + right. now subst.
    + reflexivity.
    + discriminate.
    + destruct H as [H|H]; [discriminate | congruence].
  - split; [now left | reflexivity].
Qed.

Lemma str_truthy_true (o : option string) :
  str_truthy o = true <-> exists s, o = Some s /\ s <> "".
Proof.
  destruct o as [s|]; simpl.
  - destruct (String.eqb_spec s ""); simpl; split; intros H.
    + discriminate.
    + destruct H as (s' & [= <-] & Hne). contradiction.
    + now exists s.
    + reflexivity.
  - split; [discriminate | intros (s & [=] & _)].
Qed.

(** The header branch is taken exactly when the four mandatory headers are
    there with a non-empty value. *)
Lemma missing_backend_header_false (headers : gmap string string) :
  missing_backend_header headers = false <->
  exists u d us p,
    (headers !! "odoo-url" = Some u /\ u <> "")
    /\ (headers !! "odoo-db" = Some d /\ d <> "")
    /\ (headers !! "odoo-user" = Some us /\ us <> "")
    /\ (headers !! "odoo-pass" = Some p /\ p <> "").
Proof.
  unfold missing_backend_header.
  rewrite !orb_false_iff, !negb_false_iff, !str_truthy_true.
  split.
  - intros [[[(u & Hu) (d & Hd)] (us & Hus)] (p & Hp)].
    now exists u, d, us, p.
  - intros (u & d & us & p & Hu & Hd & Hus & Hp).
    repeat split; eauto.
Qed.

Lemma missing_backend_header_true (headers : gmap string string) :
  missing_backend_header headers = true <->
  exists name,
    name ∈ ["odoo-url"; "odoo-db"; "odoo-user"; "odoo-pass"]
    /\ (headers !! name = None \/ headers !! name = Some "").
Proof.
  unfold missing_backend_header.
  rewrite !orb_true_iff, !negb_true_iff, !str_truthy_false.
  split.
  - intros [[[H|H]|H]|H]; eexists; (split; [|exact H]);
      rewrite !elem_of_cons; tauto.
  - intros (name & Hin & H).
    repeat (apply elem_of_cons in Hin as [->|Hin]); [tauto..|].
    now apply elem_of_nil in Hin.
Qed.

(** The props of the header branch. *)
Lemma build_context_headers (headers : gmap string string) (env : Env) :
  missing_backend_header headers = false ->
  fst (build_context headers env) =
    {| odooUrl := headers !! "odoo-url";
       odooDb := headers !! "odoo-db";
       odooUser := headers !! "odoo-user";
       odooPass := headers !! "odoo-pass";
       odooTimeout := Some (str_or (headers !! "odoo-timeout") "60000");
       algoliaApiKey := headers !! "algolia-api-key";
       algoliaAppId := headers !! "algolia-app-id";
       algoliaIndexName := headers !! "algolia-index-name";
       laburenApiKey := headers !! "laburen-api-key";
       toolsToUse := Some (fst (parse_to_use_header (headers !! "to-use"))) |}.
Proof.
  intros Hb. unfold build_context.
  destruct (parse_to_use_header _) as [t l1].
  destruct (parse_env_to_use _) as [e l2].
  now rewrite Hb.
Qed.

(** The props of the fallback branch. *)
Lemma build_context_env (headers : gmap string string) (env : Env) :
  missing_backend_header headers = true ->
  fst (build_context headers env) =
    {| odooUrl := Some (str_or (ODOO_URL env) "https://tu-odoo-instance.com");
       odooDb := Some (str_or (ODOO_DB env) "tu_database");
       odooUser := Some (str_or (ODOO_USER env) "usuario@ejemplo.com");
       odooPass := Some (str_or (ODOO_PASS env) "tu_password");
       odooTimeout := Some (str_or (ODOO_TIMEOUT env) "60000");
       algoliaApiKey := Some (str_or (ALGOLIA_API_KEY env) "");
       algoliaAppId := Some (str_or (ALGOLIA_APP_ID env) "");
       algoliaIndexName := Some (str_or (ALGOLIA_INDEX_NAME env) "");
       laburenApiKey := Some (str_or (LABUREN_API_KEY env) "");
       toolsToUse := Some (fst (parse_env_to_use (TO_USE env))) |}.
Proof.
  intros Hb. unfold build_context.
  destruct (parse_to_use_header _) as [t l1].
  destruct (parse_env_to_use _) as [e l2].
  now rewrite Hb.
Qed.

Lemma str_or_idem (o : option string) (d : string) :
  str_or (Some (str_or o d)) d = str_or o d.
Proof.
  unfold str_or. destruct o as [s|].
  - destruct (String.eqb_spec s "") as [->|Hs].
    + now destruct (String.eqb_spec d "").
    + now destruct (String.eqb_spec s "").
  - now destruct (String.eqb_spec d "").
Qed.

(** C4 (as amended). When each of the four mandatory backend headers
    (odoo-url, odoo-db, odoo-user, odoo-pass) is present with a non-empty
    value, the backend fields of the resolved bundle are the header values,
    whatever the process-wide settings are. When one of them is missing or
    empty, each backend field is the process-wide setting of that field
    (its fixed placeholder when the setting is unset or empty), whatever the
    headers are. The two sources are never mixed. *)
Theorem backend_fields_from_one_source
    (headers : gmap string string) (env : Env) :
  let c := odooConfig (resolve headers env) in
  (forall u d us p,
      headers !! "odoo-url" = Some u -> u <> "" ->
      headers !! "odoo-db" = Some d -> d <> "" ->
      headers !! "odoo-user" = Some us -> us <> "" ->
      headers !! "odoo-pass" = Some p -> p <> "" ->
      baseUrl c = u /\ db c = d /\ username c = us /\ password c = p)
  /\ (forall name,
        name ∈ ["odoo-url"; "odoo-db"; "odoo-user"; "odoo-pass"] ->
        headers !! name = None \/ headers !! name = Some "" ->
        baseUrl c = str_or (ODOO_URL env) "https://tu-odoo-instance.com"
        /\ db c = str_or (ODOO_DB env) "tu_database"
        /\ username c = str_or (ODOO_USER env) "usuario@ejemplo.com"
        /\ password c = str_or (ODOO_PASS env) "tu_password").
Proof.
  intros c. subst c. unfold resolve. split.
  - intros u d us p Hu Hu' Hd Hd' Hus Hus' Hp Hp'.
    assert (Hb : missing_backend_header headers = false).
    { apply missing_backend_header_false. exists u, d, us, p.
      repeat split; assumption. }
    rewrite (build_context_headers headers env Hb). simpl.
    rewrite Hu, Hd, Hus, Hp.
    rewrite !str_or_present by assumption. repeat split; reflexivity.
  - intros name Hin Hmiss.
    assert (Hb : missing_backend_header headers = true).
    { apply missing_backend_header_true. now exists name. }
    rewrite (build_context_env headers env Hb).
    cbn -[str_or].
    rewrite !str_or_present by (apply str_or_nonempty; discriminate).
    repeat split; reflexivity.
Qed.

(** C6 (as amended). The timeout and the optional fields come from the
    same source as the mandatory backend fields. In a request whose four
    mandatory headers are present and non-empty, each is the value of its
    header when that header is present and non-empty, else its fixed
    literal ("60000" for the timeout, the empty string for the others); the
    process-wide settings are not read. In any other request, each is the
    process-wide setting when that is set and non-empty, else the same
    literal; the headers are not read. *)
Theorem optional_fields_follow_the_branch
    (headers : gmap string string) (env : Env) :
  let b := resolve headers env in
  (missing_backend_header headers = false ->
     timeout (odooConfig b)
       = Some (parseInt (str_or (headers !! "odoo-timeout") "60000"))
     /\ apiKey (algoliaConfig b) = str_or (headers !! "algolia-api-key") ""
     /\ appId (algoliaConfig b) = str_or (headers !! "algolia-app-id") ""
     /\ indexName (algoliaConfig b)
          = str_or (headers !! "algolia-index-name") ""
     /\ bundleLaburenApiKey b = str_or (headers !! "laburen-api-key") "")
  /\ (missing_backend_header headers = true ->
        timeout (odooConfig b)
          = Some (parseInt (str_or (ODOO_TIMEOUT env) "60000"))
        /\ apiKey (algoliaConfig b) = str_or (ALGOLIA_API_KEY env) ""
        /\ appId (algoliaConfig b) = str_or (ALGOLIA_APP_ID env) ""
        /\ indexName (algoliaConfig b) = str_or (ALGOLIA_INDEX_NAME env) ""
        /\ bundleLaburenApiKey b = str_or (LABUREN_API_KEY env) "").
Proof.
  intros b. subst b. unfold resolve. split; intros Hb.
  - rewrite (build_context_headers headers env Hb).
    cbn -[str_or parseInt]. now rewrite str_or_idem.
  - rewrite (build_context_env headers env Hb).
    cbn -[str_or parseInt]. now rewrite !str_or_idem.
Qed.

(** What the two parsers of the allow-list give on a malformed input. *)
Lemma parse_to_use_header_malformed (raw : string) :
  (JSON_parse raw = None
   \/ exists v, JSON_parse raw = Some v /\ is_string_array v = false) ->
  fst (parse_to_use_header (Some raw)) = []
  /\ (raw <> "" -> exists msg, snd (parse_to_use_header (Some raw)) = [(WARN, msg)]).
Proof.
  intros Hbad. unfold parse_to_use_header.
  destruct (String.eqb_spec raw "") as [->|Hne].
  - split; [reflexivity | congruence].
  - destruct Hbad as [Hnone | (v & Hv & Hshape)].
    + rewrite Hnone. split; [reflexivity | eauto].
    + rewrite Hv, Hshape. split; [reflexivity | eauto].
Qed.

Lemma parse_env_to_use_malformed (raw : string) :
  (JSON_parse raw = None
   \/ exists v, JSON_parse raw = Some v /\ is_string_array v = false) ->
  fst (parse_env_to_use (Some raw)) = []
  /\ (raw <> "" -> exists msg, snd (parse_env_to_use (Some raw)) = [(WARN, msg)]).
Proof.
  intros Hbad. unfold parse_env_to_use.
  destruct (String.eqb_spec raw "") as [->|Hne].
  - split; [reflexivity | congruence].
  - destruct Hbad as [Hnone | (v & Hv & Hshape)].
    + rewrite Hnone. split; [reflexivity | eauto].
    + rewrite Hv, Hshape. split; [reflexivity | eauto].
Qed.

(** The console output of [build_context] starts with the output of the
    two parsers. *)
Lemma build_context_log (headers : gmap string string) (env : Env) :
  exists rest,
    snd (build_context headers env) =
      (snd (parse_to_use_header (headers !! "to-use"))
       ++ snd (parse_env_to_use (TO_USE env)) ++ rest)%list.
Proof.
  unfold build_context.
  destruct (parse_to_use_header _) as [t l1].
  destruct (parse_env_to_use _) as [e l2].
  destruct (missing_backend_header headers); simpl; eauto.
Qed.

(** C5 (as amended). Let the allow-list input of a request be the to-use
    header when the four mandatory backend headers are present and
    non-empty, and the TO_USE setting otherwise. When that input is not
    valid JSON, or is
    valid JSON but not an array of strings, the resolver still produces a
    bundle, the bundle's enabledOperations is empty, every operation name
    is admitted, and (unless the input is the empty string) a warning is
    written to the console. *)
Theorem malformed_allow_list_opens_the_gate
    (headers : gmap string string) (env : Env) (raw : string) :
  (JSON_parse raw = None
   \/ exists v, JSON_parse raw = Some v /\ is_string_array v = false) ->
  (missing_backend_header headers = false /\ headers !! "to-use" = Some raw)
  \/ (missing_backend_header headers = true /\ TO_USE env = Some raw) ->
  bundleToolsToUse (resolve headers env) = []
  /\ (forall n, shouldIgnoreTool (fst (build_context headers env)) n = false)
  /\ (raw <> "" ->
      exists msg, (WARN, msg) ∈ snd (build_context headers env)).
Proof.
  intros Hbad Hsrc.
  assert (Hopen : bundleToolsToUse (resolve headers env) = []).
  { unfold resolve. destruct Hsrc as [[Hb Hraw] | [Hb Hraw]].
    - rewrite (build_context_headers headers env Hb). cbn.
      rewrite Hraw. apply (parse_to_use_header_malformed raw Hbad).
    - rewrite (build_context_env headers env Hb). cbn.
      rewrite Hraw. apply (parse_env_to_use_malformed raw Hbad). }
  split; [exact Hopen|]. split.
  - intros n. unfold shouldIgnoreTool. fold (resolve headers env).
    now rewrite Hopen.
  - intros Hne. destruct (build_context_log headers env) as [rest ->].
    destruct Hsrc as [[Hb Hraw] | [Hb Hraw]]; rewrite Hraw.
    + destruct (parse_to_use_header_malformed raw Hbad) as [_ Hw].
      destruct (Hw Hne) as [msg ->]. exists msg.
      rewrite !elem_of_app. left. apply list_elem_of_singleton. reflexivity.
    + destruct (parse_env_to_use_malformed raw Hbad) as [_ Hw].
      destruct (Hw Hne) as [msg ->]. exists msg.
      rewrite !elem_of_app. right. left.
      apply list_elem_of_singleton. reflexivity.
Qed.

(** ** Properties of the capability gate *)

Lemma includes_elem_of (l : list string) (x : string) :
  includes l x = true <-> x ∈ l.
Proof.
  unfold includes. rewrite existsb_exists, list_elem_of_In. split.
  - intros (y & Hy & Heq). apply String.eqb_eq in Heq. now subst.
  - intros Hx. exists x. split; [exact Hx | apply String.eqb_refl].
Qed.

Lemma shouldIgnoreTool_false (props : Props) (n : string) :
  shouldIgnoreTool props n = false <->
  bundleToolsToUse (getConfigFromContext props) = []
  \/ n ∈ bundleToolsToUse (getConfigFromContext props).
Proof.
  unfold shouldIgnoreTool.
  destruct (bundleToolsToUse (getConfigFromContext props)) as [|t l] eqn:E.
  - simpl. split; [now left | reflexivity].
  - cbn [length Nat.eqb]. rewrite negb_false_iff, includes_elem_of.
    split; [now right | intros [H|H]; [discriminate | exact H]].
Qed.

(** The registry of tools after [init]. *)
Lemma init_tools (props : Props) (s : State) :
  tools (state_of (init props s)) =
    let t1 :=
      if negb (shouldIgnoreTool props "search_product_by_reference_code")
      then <["search_product_by_reference_code" := SearchProductByReferenceCode]> (tools s)
      else tools s in
    if negb (shouldIgnoreTool props "create_sale_order")
    then <["create_sale_order" := CreateSaleOrder]> t1
    else t1.
Proof.
  unfold init, state_of, bind, new_OdooClient, modify, server_tool,
    server_resource, ret.
  destruct (shouldIgnoreTool props "search_product_by_reference_code");
    destruct (shouldIgnoreTool props "create_sale_order"); reflexivity.
Qed.

(** C1. The gate admits the name n ([shouldIgnoreTool] returns false)
    exactly when the bundle's toolsToUse is empty or contains n; [init]
    leaves the registry untouched at every name that is not admitted, so on
    a fresh server such a name is not registered; and a tool found in the
    registry of a fresh server after [init] is an admitted one. *)
Theorem gate_admits_iff_open_or_listed (props : Props) (n : string) :
  (shouldIgnoreTool props n = false <->
     bundleToolsToUse (getConfigFromContext props) = []
     \/ n ∈ bundleToolsToUse (getConfigFromContext props))
  /\ (forall s : State,
        shouldIgnoreTool props n = true ->
        tools (state_of (init props s)) !! n = tools s !! n)
  /\ (shouldIgnoreTool props n = true ->
        tools (state_of (init props fresh_state)) !! n = None)
  /\ (forall t,
        tools (state_of (init props fresh_state)) !! n = Some t ->
        shouldIgnoreTool props n = false).
Proof.
  assert (Hkeep : forall s : State,
            shouldIgnoreTool props n = true ->
            tools (state_of (init props s)) !! n = tools s !! n).
  { intros s Hn. rewrite init_tools. cbv zeta.
    destruct (shouldIgnoreTool props "search_product_by_reference_code") eqn:E1;
      destruct (shouldIgnoreTool props "create_sale_order") eqn:E2;
      cbn [negb]; try reflexivity.
    - rewrite lookup_insert_ne; [reflexivity | congruence].
    - rewrite lookup_insert_ne; [reflexivity | congruence].
    - rewrite !lookup_insert_ne; [reflexivity | congruence..]. }
  split; [apply shouldIgnoreTool_false|].
  split; [exact Hkeep|]. split.
  - intros Hn. now rewrite (Hkeep fresh_state Hn).
  - intros t Ht. destruct (shouldIgnoreTool props n) eqn:E; [|reflexivity].
    rewrite (Hkeep fresh_state eq_refl) in Ht. discriminate.
Qed.

(** ** Properties of the client *)

Lemma jsonRpc_run (this : nat) (o : OdooClient) (s : State)
    (service method : string) (args : list JValue) :
  heap s !! this = Some o ->
  jsonRpc this service method args s =
    (rpc_outcome
       (backend (sent s) (rpc_request o (length (sent s)) service method args)),
     set_sent
       (sent s ++ [rpc_request o (length (sent s)) service method args]) s).
Proof.
  intros Ho. unfold jsonRpc, bind, deref, get_state, modify, lift_result.
  rewrite Ho. reflexivity.
Qed.

(** With a session identity, [executeKw] sends the execution envelope and
    nothing else, and leaves the client as it is. *)
Lemma executeKw_with_session (this : nat) (o : OdooClient) (s : State)
    (model : JValue) (method : string) (args : list JValue) (kwargs : JValue) :
  heap s !! this = Some o ->
  nullish (uid o) = false ->
  executeKw this model method args kwargs s =
    (rpc_outcome
       (backend (sent s)
          (execute_request o (length (sent s)) model method args kwargs)),
     set_sent
       (sent s ++ [execute_request o (length (sent s)) model method args kwargs])
       s).
Proof.
  intros Ho Hu. unfold executeKw, login.
  unfold bind at 1. unfold bind at 1. unfold deref at 1.
  rewrite Ho. cbn [lift_opt ret]. rewrite Hu. cbn [negb ret].
  unfold bind at 1. unfold deref. rewrite Ho. cbn [lift_opt ret].
  now rewrite (jsonRpc_run this o s _ _ _ Ho).
Qed.

(** Without one, it sends the login envelope first; when the login throws,
    the same exception leaves [executeKw] and nothing more happens; when
    the login returns [v], [v] is stored and the execution envelope is sent
    with it. *)
Lemma executeKw_without_session (this : nat) (o : OdooClient) (s : State)
    (model : JValue) (method : string) (args : list JValue) (kwargs : JValue) :
  heap s !! this = Some o ->
  nullish (uid o) = true ->
  let lreq := login_request o (length (sent s)) in
  executeKw this model method args kwargs s =
    match rpc_outcome (backend (sent s) lreq) with
    | Throw e => (Throw e, set_sent (sent s ++ [lreq]) s)
    | Ok v =>
        let o' := {| uid := v; cfg := cfg o |} in
        let xreq :=
          execute_request o' (S (length (sent s))) model method args kwargs in
        (rpc_outcome (backend (sent s ++ [lreq]) xreq),
         set_sent (sent s ++ [lreq; xreq])
           (set_heap (<[this := o']> (heap s)) s))
    end.
Proof.
  intros Ho Hu lreq. unfold executeKw, login.
  unfold bind at 1. unfold bind at 1. unfold deref at 1.
  rewrite Ho. cbn [lift_opt ret]. rewrite Hu. cbn [negb].
  unfold bind at 1. rewrite (jsonRpc_run this o s _ _ _ Ho).
  fold (login_request o (length (sent s))). fold lreq.
  destruct (rpc_outcome (backend (sent s) lreq)) as [v|e]; [|reflexivity].
  unfold set_uid. cbn [heap set_sent]. rewrite Ho.
  assert (Hlt : this < length (heap s)) by (eapply lookup_lt_Some; eauto).
  unfold bind at 1. unfold deref.
  cbn [heap set_heap set_sent].
  rewrite (list_lookup_insert_eq _ _ _ Hlt). cbn [lift_opt ret].
  erewrite jsonRpc_run
    by (cbn [heap set_heap set_sent]; apply list_lookup_insert_eq, Hlt).
  cbn [sent set_heap set_sent]. rewrite length_app, Nat.add_1_r.
  cbn [uid cfg]. unfold execute_request. cbn [uid cfg].
  rewrite <- app_assoc. reflexivity.
Qed.

Lemma logins_cons (r : FetchRequest) (l : list FetchRequest) :
  logins (r :: l) = (if is_login r then 1 else 0) + logins l.
Proof.
  unfold logins. rewrite filter_cons.
  destruct (is_login r); case_decide; try congruence; reflexivity.
Qed.

Lemma logins_carries (v : JValue) (l : list FetchRequest) :
  Forall (carries v) l -> logins l = 0.
Proof.
  induction 1 as [|r l [Hr _] _ IH]; [reflexivity|].
  now rewrite logins_cons, Hr, IH.
Qed.

Lemma sent_since_app (s s' : State) (new : list FetchRequest) :
  sent s' = sent s ++ new -> sent_since s s' = new.
Proof. intros H. unfold sent_since. rewrite H. apply drop_app_length. Qed.

Lemma state_of_pair {A} (r : Result A) (s : State) : state_of (r, s) = s.
Proof. reflexivity. Qed.

Lemma result_of_pair {A} (r : Result A) (s : State) : result_of (r, s) = r.
Proof. reflexivity. Qed.

Lemma run_calls_cons (this : nat) (c : Call) (rest : list Call) (s : State) :
  run_calls this (c :: rest) s =
    run_calls this rest
      (state_of
         (executeKw this (call_model c) (call_method c) (call_args c)
            (call_kwargs c) s)).
Proof.
  cbn [run_calls]. unfold bind, try_catch, ret, state_of.
  destruct (executeKw _ _ _ _ _ s) as [[r|e] s1]; reflexivity.
Qed.

(** Once the client holds an identity, a run of calls sends execution
    envelopes with that identity only, and the client keeps it. *)
Lemma run_calls_with_session (this : nat) (o : OdooClient)
    (calls : list Call) :
  nullish (uid o) = false ->
  forall s : State,
    heap s !! this = Some o ->
    exists new,
      sent (state_of (run_calls this calls s)) = sent s ++ new
      /\ Forall (carries (uid o)) new
      /\ heap (state_of (run_calls this calls s)) = heap s.
Proof.
  intros Hu. induction calls as [|c rest IH]; intros s Ho.
  - exists []. cbn. now rewrite app_nil_r.
  - rewrite run_calls_cons.
    rewrite (executeKw_with_session this o s _ _ _ _ Ho Hu).
    rewrite state_of_pair.
    destruct (IH (set_sent (sent s ++
                [execute_request o (length (sent s)) (call_model c)
                   (call_method c) (call_args c) (call_kwargs c)]) s))
      as (new & Hsent & Hall & Hheap); [exact Ho|].
    eexists (_ :: new). rewrite Hsent, Hheap. cbn [sent heap set_sent].
    split; [now rewrite <- app_assoc|]. split; [|reflexivity].
    constructor; [|exact Hall]. split; reflexivity.
Qed.

(** C2. Constructing a client sends nothing; the new client holds no
    session identity ([uid] is [null]); and when the login of the first
    call returns an identity [v], any sequence of calls on that client
    sends exactly one login envelope: after it every request is an
    execution envelope that carries [v], and the client still holds [v] at
    the end. *)
Theorem one_login_per_client (c0 : OdooConfig) (s : State) :
  let this := length (heap s) in
  let s0 := state_of (new_OdooClient c0 s) in
  let o := {| uid := JNull; cfg := spread_cfg c0 |} in
  (result_of (new_OdooClient c0 s) = Ok this
   /\ sent s0 = sent s
   /\ heap s0 !! this = Some o
   /\ uid_of this s0 = Some JNull)
  /\ (forall (v : JValue) (call : Call) (calls : list Call),
        rpc_outcome (backend (sent s) (login_request o (length (sent s))))
          = Ok v ->
        nullish v = false ->
        let s' := state_of (run_calls this (call :: calls) s0) in
        logins (sent_since s0 s') = 1
        /\ (exists rest,
              sent_since s0 s' = login_request o (length (sent s)) :: rest
              /\ Forall (carries v) rest)
        /\ uid_of this s' = Some v).
Proof.
  intros this s0 o.
  assert (Ho : heap s0 !! this = Some o).
  { subst s0 this. unfold new_OdooClient, state_of. cbn.
    now rewrite list_lookup_middle. }
  split.
  - repeat split; [exact Ho|]. unfold uid_of. now rewrite Ho.
  - intros v call calls Hlogin Hv s'.
    assert (Hlt : this < length (heap s0)) by (eapply lookup_lt_Some; eauto).
    subst s'. rewrite run_calls_cons.
    rewrite (executeKw_without_session this o s0 _ _ _ _ Ho eq_refl).
    cbv zeta. change (sent s0) with (sent s). rewrite Hlogin.
    rewrite state_of_pair.
    set (o' := {| uid := v; cfg := cfg o |}).
    set (s1 := set_sent _ _).
    assert (Ho' : heap s1 !! this = Some o').
    { subst s1. cbn [heap set_sent set_heap].
      now apply list_lookup_insert_eq. }
    destruct (run_calls_with_session this o' calls Hv s1 Ho')
      as (new & Hsent & Hall & Hheap).
    assert (Hsince :
      sent_since s0 (state_of (run_calls this calls s1)) =
        login_request o (length (sent s))
          :: execute_request o' (S (length (sent s))) (call_model call)
               (call_method call) (call_args call) (call_kwargs call)
          :: new).
    { apply sent_since_app. rewrite Hsent. subst s1.
      cbn [sent set_sent set_heap]. change (sent s0) with (sent s).
      now rewrite <- app_assoc. }
    assert (Hrest : Forall (carries v)
      (execute_request o' (S (length (sent s))) (call_model call)
         (call_method call) (call_args call) (call_kwargs call) :: new)).
    { constructor; [split; reflexivity | exact Hall]. }
    rewrite Hsince. split; [|split].
    + now rewrite logins_cons, (logins_carries v _ Hrest).
    + eexists. split; [reflexivity | exact Hrest].
    + unfold uid_of. now rewrite Hheap, Ho'.
Qed.

(** A client without identity starts every call with a login envelope. *)
Lemma executeKw_starts_with_login (this : nat) (o : OdooClient) (s : State)
    (model : JValue) (method : string) (args : list JValue) (kwargs : JValue) :
  heap s !! this = Some o ->
  nullish (uid o) = true ->
  exists rest,
    sent_since s (state_of (executeKw this model method args kwargs s)) =
      login_request o (length (sent s)) :: rest.
Proof.
  intros Ho Hu.
  rewrite (executeKw_without_session this o s _ _ _ _ Ho Hu). cbv zeta.
  destruct (rpc_outcome _) as [v|e]; rewrite state_of_pair.
  - eexists. apply sent_since_app. reflexivity.
  - eexists. apply sent_since_app. reflexivity.
Qed.

(** C3 (as amended). On a client without session identity: when the login
    step throws, the call throws the same exception, only the login
    envelope has been sent, no identity is stored, and the next call on
    the client starts with a login envelope again. When the login step
    returns null or undefined without throwing, the call does not fail
    there: it sends the execution envelope with that value as identity and
    its outcome is the outcome of that envelope; the value stored is still
    no identity, so the next call starts with a login envelope again. *)
Theorem failed_login_is_retried (this : nat) (o : OdooClient) (s : State)
    (model : JValue) (method : string) (args : list JValue) (kwargs : JValue) :
  heap s !! this = Some o ->
  nullish (uid o) = true ->
  let lreq := login_request o (length (sent s)) in
  let r := executeKw this model method args kwargs s in
  (forall e,
      rpc_outcome (backend (sent s) lreq) = Throw e ->
      result_of r = Throw e
      /\ sent_since s (state_of r) = [lreq]
      /\ heap (state_of r) = heap s
      /\ forall model' method' args' kwargs',
           exists rest,
             sent_since (state_of r)
               (state_of (executeKw this model' method' args' kwargs'
                            (state_of r)))
             = login_request o (length (sent (state_of r))) :: rest)
  /\ (forall v,
        rpc_outcome (backend (sent s) lreq) = Ok v ->
        nullish v = true ->
        let o' := {| uid := v; cfg := cfg o |} in
        let xreq :=
          execute_request o' (S (length (sent s))) model method args kwargs in
        result_of r = rpc_outcome (backend (sent s ++ [lreq]) xreq)
        /\ sent_since s (state_of r) = [lreq; xreq]
        /\ uid_of this (state_of r) = Some v
        /\ forall model' method' args' kwargs',
             exists rest,
               sent_since (state_of r)
                 (state_of (executeKw this model' method' args' kwargs'
                              (state_of r)))
               = login_request o' (length (sent (state_of r))) :: rest).
Proof.
  intros Ho Hu lreq r.
  pose proof (executeKw_without_session this o s model method args kwargs
                Ho Hu) as Hrun.
  cbv zeta in Hrun. fold lreq in Hrun. fold r in Hrun. split.
  - intros e He. rewrite He in Hrun. rewrite Hrun.
    rewrite result_of_pair, state_of_pair.
    split; [reflexivity|]. split; [now apply sent_since_app|].
    split; [reflexivity|]. intros model' method' args' kwargs'.
    now apply executeKw_starts_with_login.
  - intros v Hv Hnull o' xreq. rewrite Hv in Hrun. rewrite Hrun.
    rewrite result_of_pair, state_of_pair.
    assert (Hlt : this < length (heap s)) by (eapply lookup_lt_Some; eauto).
    assert (Ho' : heap (set_sent (sent s ++ [lreq; xreq])
                          (set_heap (<[this := o']> (heap s)) s)) !! this
                  = Some o').
    { cbn [heap set_sent set_heap]. now apply list_lookup_insert_eq. }
    split; [reflexivity|]. split; [now apply sent_since_app|].
    split.
    { unfold uid_of. cbn [heap set_sent set_heap].
      now rewrite (list_lookup_insert_eq _ _ _ Hlt). }
    intros model' method' args' kwargs'.
    apply executeKw_starts_with_login; [exact Ho' | exact Hnull].
Qed.

(** ** Properties of the resource handlers *)

Lemma the_odoo_run (this : nat) (s : State) :
  this_odoo s = Some this -> the_odoo s = (Ok this, s).
Proof. intros H. unfold the_odoo, bind, get_state. now rewrite H. Qed.

(** Each resource handler is one call of [executeKw] on the client that
    [this.odoo] refers to when the handler runs. *)
Lemma models_handler_run (this : nat) (s : State) :
  this_odoo s = Some this ->
  models_handler s =
    executeKw this (JStr "ir.model") "search_read"
      [JArr []; JArr [JStr "model"; JStr "name"]] (JObj []) s.
Proof.
  intros H. unfold models_handler. unfold bind at 1.
  now rewrite (the_odoo_run this s H).
Qed.

(** C7 (as amended). In a record(model, id) resolution whose read call
    returns a list: when the list is empty, or its first element is null,
    the resolver returns the empty structure and raises no error; when
    the first element is not null, the resolver returns that element. *)
Theorem record_lookup_result (pathname : string) (s : State) (this : nat)
    (l : list JValue) :
  let parts := split "/" pathname in
  this_odoo s = Some this ->
  result_of
    (executeKw this (nth_str parts 1) "read"
       [JArr [Number_ (nth_str parts 2)]] (JObj []) s) = Ok (JArr l) ->
  result_of (record_handler pathname s) =
    Ok (match l with
        | [] => JObj []
        | x :: _ => if nullish x then JObj [] else x
        end).
Proof.
  intros parts Hthis Hread. unfold record_handler. fold parts.
  unfold bind at 1. rewrite (the_odoo_run this s Hthis).
  unfold bind at 1.
  destruct (executeKw _ _ _ _ _ s) as [[v|e] s1]; [|discriminate].
  rewrite result_of_pair in Hread. injection Hread as ->.
  destruct l as [|x l']; reflexivity.
Qed.

(** C8. For a search address whose domain segment decodes to [decoded]
    and parses to [D], the resolver does what the single call
    [executeKw(model, "search_read", [D])] on [this.odoo] does: with a
    session identity the only request sent is the execution envelope of
    that call, with [D] as the sole element of its positional arguments;
    without one, the login envelope comes first and the same execution
    envelope follows unless the login throws. When the segment does not
    decode, or the decoded text does not parse, the resolver throws
    (URIError, SyntaxError) and sends nothing. *)
Theorem search_forwards_the_domain (pathname : string) (s : State)
    (this : nat) (o : OdooClient) :
  let parts := split "/" pathname in
  let model := nth_str parts 1 in
  let segment := uri_argument (nth_str parts 2) in
  this_odoo s = Some this ->
  heap s !! this = Some o ->
  (forall decoded D,
      decodeURIComponent segment = Some decoded ->
      JSON_parse decoded = Some D ->
      let new := sent_since s (state_of (search_handler pathname s)) in
      search_handler pathname s
        = executeKw this model "search_read" [D] (JObj []) s
      /\ (nullish (uid o) = false ->
            new = [execute_request o (length (sent s)) model "search_read"
                     [D] (JObj [])])
      /\ (nullish (uid o) = true ->
            new = [login_request o (length (sent s))]
            \/ exists v,
                 new = [login_request o (length (sent s));
                        execute_request {| uid := v; cfg := cfg o |}
                          (S (length (sent s))) model "search_read" [D]
                          (JObj [])]))
  /\ (decodeURIComponent segment = None ->
        search_handler pathname s = (Throw URIError, s))
  /\ (forall decoded,
        decodeURIComponent segment = Some decoded ->
        JSON_parse decoded = None ->
        search_handler pathname s = (Throw SyntaxError, s)).
Proof.
  intros parts model segment Hthis Ho.
  split; [|split].
  - intros decoded D Hdec Hparse new.
    assert (Heq : search_handler pathname s
                  = executeKw this model "search_read" [D] (JObj []) s).
    { unfold search_handler. fold parts. fold model. fold segment.
      rewrite Hdec. unfold bind at 1. cbn [lift_opt ret].
      rewrite Hparse. unfold bind at 1. cbn [lift_opt ret].
      unfold bind at 1. now rewrite (the_odoo_run this s Hthis). }
    subst new. rewrite Heq. split; [reflexivity|]. split; intros Hu.
    + rewrite (executeKw_with_session this o s _ _ _ _ Ho Hu).
      rewrite state_of_pair. now apply sent_since_app.
    + rewrite (executeKw_without_session this o s _ _ _ _ Ho Hu). cbv zeta.
      destruct (rpc_outcome _) as [v|e]; rewrite state_of_pair.
      * right. exists v. now apply sent_since_app.
      * left. now apply sent_since_app.
  - intros Hdec. unfold search_handler. fold parts. fold segment.
    now rewrite Hdec.
  - intros decoded Hdec Hparse. unfold search_handler.
    fold parts. fold segment. rewrite Hdec.
    unfold bind at 1. cbn [lift_opt ret]. now rewrite Hparse.
Qed.

(** ** Properties of the tool handlers *)

Lemma only_client_changed_refl (this : nat) (s : State) :
  is_Some (heap s !! this) -> only_client_changed this s s.
Proof.
  intros H. unfold only_client_changed.
  split; [exists []; now rewrite app_nil_r|].
  repeat split; [reflexivity..|exact H].
Qed.

Lemma only_client_changed_trans (this : nat) (s1 s2 s3 : State) :
  only_client_changed this s1 s2 ->
  only_client_changed this s2 s3 ->
  only_client_changed this s1 s3.
Proof.
  intros ([n1 H1] & Ha1 & Hb1 & Hc1 & Hd1 & He1 & Hf1)
         ([n2 H2] & Ha2 & Hb2 & Hc2 & Hd2 & He2 & Hf2).
  unfold only_client_changed.
  split; [exists (n1 ++ n2); now rewrite H2, H1, app_assoc|].
  repeat split; try congruence.
  intros i Hi. now rewrite He2, He1.
Qed.

Lemma executeKw_only_client_changed (this : nat) (s : State)
    (model : JValue) (method : string) (args : list JValue) (kwargs : JValue) :
  is_Some (heap s !! this) ->
  only_client_changed this s
    (state_of (executeKw this model method args kwargs s)).
Proof.
  intros [o Ho]. unfold only_client_changed.
  assert (Hlt : this < length (heap s)) by (eapply lookup_lt_Some; eauto).
  destruct (nullish (uid o)) eqn:Hu.
  - rewrite (executeKw_without_session this o s _ _ _ _ Ho Hu). cbv zeta.
    destruct (rpc_outcome _) as [v|e]; rewrite state_of_pair;
      cbn [sent heap this_odoo tools resources set_sent set_heap].
    + split; [eauto|]. repeat split.
      * apply length_insert.
      * intros i Hi. now apply list_lookup_insert_ne.
      * rewrite (list_lookup_insert_eq _ _ _ Hlt). eauto.
    + split; [eauto|]. repeat split. eauto.
  - rewrite (executeKw_with_session this o s _ _ _ _ Ho Hu).
    rewrite state_of_pair.
    cbn [sent heap this_odoo tools resources set_sent set_heap].
    split; [eauto|]. repeat split. eauto.
Qed.

Lemma create_lines_only_client_changed (this : nat) (orderId : JValue)
    (lines : list OrderLine) :
  forall s : State,
    is_Some (heap s !! this) ->
    only_client_changed this s (state_of (create_lines this orderId lines s)).
Proof.
  induction lines as [|line rest IH]; intros s Hs.
  - now apply only_client_changed_refl.
  - cbn [create_lines]. unfold bind at 1.
    pose proof (executeKw_only_client_changed this s
                  (JStr "product.product") "search_read"
                  [JArr [JArr [JStr "default_code"; JStr "=";
                               JStr (reference_code line)]]]
                  (JObj [("fields", JArr [JStr "id"]);
                         ("limit", JNum (Num 1))]) Hs) as H1.
    destruct (executeKw _ _ _ _ _ s) as [[r|e] s1];
      rewrite state_of_pair in H1; [|exact H1].
    unfold bind at 1.
    destruct (first_of r) as [prod|]; cbn [lift_opt ret throw]; [|exact H1].
    destruct (truthy prod); cbn [negb]; [|exact H1].
    unfold bind at 1.
    destruct (get_prop prod "id") as [prod_id|]; cbn [lift_opt ret throw];
      [|exact H1].
    unfold bind at 1.
    assert (Hs1 : is_Some (heap s1 !! this)) by apply H1.
    pose proof (executeKw_only_client_changed this s1
                  (JStr "sale.order.line") "create"
                  [JObj [("order_id", orderId); ("product_id", prod_id);
                         ("product_uom_qty", qty line)]]
                  (JObj []) Hs1) as H2.
    destruct (executeKw _ _ _ _ _ s1) as [[r2|e2] s2];
      rewrite state_of_pair in H2.
    + eapply only_client_changed_trans; [exact H1|].
      eapply only_client_changed_trans; [exact H2|].
      apply IH, H2.
    + eapply only_client_changed_trans; [exact H1 | exact H2].
Qed.

Lemma getOdooClient_run (props : Props) (s : State) :
  getOdooClient props s =
    (Ok (length (heap s)),
     set_this_odoo (Some (length (heap s)))
       (set_heap
          (heap s
           ++ [{| uid := JNull;
                  cfg := spread_cfg (odooConfig (getConfigFromContext props)) |}])
          s)).
Proof. reflexivity. Qed.

Lemma try_catch_ret_state {A} (m : M A) (h : Exn -> A) (s : State) :
  state_of (try_catch m (fun e => ret (h e)) s) = state_of (m s).
Proof. unfold try_catch, ret. now destruct (m s) as [[a|e] s1]. Qed.

(** A computation that creates its client with [getOdooClient], calls
    [executeKw] on it and then only works on that client. *)
Lemma fresh_client_invocation {A} (props : Props) (s : State)
    (model : JValue) (method : string) (args : list JValue) (kwargs : JValue)
    (k : nat -> JValue -> M A) :
  let this := length (heap s) in
  let o := {| uid := JNull;
              cfg := spread_cfg (odooConfig (getConfigFromContext props)) |} in
  (forall r s1,
      is_Some (heap s1 !! this) ->
      only_client_changed this s1 (state_of (k this r s1))) ->
  let s' :=
    state_of
      ((odoo <- getOdooClient props ;;
        r <- executeKw odoo model method args kwargs ;;
        k odoo r) s) in
  (exists rest, sent_since s s' = login_request o (length (sent s)) :: rest)
  /\ this_odoo s' = Some this
  /\ length (heap s') = S (length (heap s))
  /\ (forall i, i < length (heap s) -> heap s' !! i = heap s !! i).
Proof.
  intros this o Hk s'.
  set (Q := fun s3 : State =>
    (exists rest, sent_since s s3 = login_request o (length (sent s)) :: rest)
    /\ this_odoo s3 = Some this
    /\ length (heap s3) = S (length (heap s))
    /\ (forall i, i < length (heap s) -> heap s3 !! i = heap s !! i)).
  change (Q s'). subst s'.
  unfold bind at 1. rewrite getOdooClient_run. fold this. fold o.
  set (s1 := set_this_odoo (Some this) (set_heap (heap s ++ [o]) s)).
  assert (Ho : heap s1 !! this = Some o).
  { subst s1 this. cbn [heap set_this_odoo set_heap].
    apply list_lookup_middle. reflexivity. }
  assert (Hlen : length (heap s1) = S (length (heap s))).
  { subst s1. cbn [heap set_this_odoo set_heap].
    rewrite length_app. cbn. lia. }
  assert (Hold : forall i, i < length (heap s) -> heap s1 !! i = heap s !! i).
  { intros i Hi. subst s1. cbn [heap set_this_odoo set_heap].
    now apply lookup_app_l. }
  unfold bind at 1.
  rewrite (executeKw_without_session this o s1 _ _ _ _ Ho eq_refl).
  cbv zeta. change (sent s1) with (sent s).
  destruct (rpc_outcome _) as [v|e].
  - set (s2 := set_sent _ _).
    assert (Hs2 : is_Some (heap s2 !! this)).
    { subst s2. cbn [heap set_sent set_heap].
      rewrite list_lookup_insert_eq; [eauto | lia]. }
    assert (Hfin : forall s3, only_client_changed this s2 s3 -> Q s3).
    { intros s3 ([new Hnew] & Ha & _ & _ & Hd & He & _).
      split; [|split; [|split]].
      - eexists. apply sent_since_app. rewrite Hnew. subst s2.
        cbn [sent set_sent]. change (sent s1) with (sent s).
        rewrite <- app_assoc. reflexivity.
      - now rewrite Ha.
      - rewrite Hd. subst s2. cbn [heap set_sent set_heap].
        now rewrite length_insert.
      - intros i Hi. rewrite He by (unfold this; lia).
        subst s2. cbn [heap set_sent set_heap].
        rewrite list_lookup_insert_ne by (unfold this; lia). now apply Hold. }
    destruct (rpc_outcome _) as [r|e].
    + apply Hfin, Hk, Hs2.
    + rewrite state_of_pair. now apply Hfin, only_client_changed_refl.
  - rewrite state_of_pair. unfold Q. cbn [sent heap this_odoo set_sent].
    split; [|split; [|split]].
    + eexists. apply sent_since_app. cbn [sent set_sent].
      change (sent s1) with (sent s). reflexivity.
    + reflexivity.
    + exact Hlen.
    + exact Hold.
Qed.

(** What a computation on a client returns and sends depends on the
    requests seen so far and on the fields of that client, not on the
    reference of the client nor on the other clients. *)
Lemma alike_ret {A} (c1 c2 : nat) (a : A) : alike c1 c2 (ret a) (ret a).
Proof. intros s1 s2 Hs. now split. Qed.

Lemma alike_throw {A} (c1 c2 : nat) (e : Exn) :
  alike c1 c2 (@throw A e) (throw e).
Proof. intros s1 s2 Hs. now split. Qed.

Lemma alike_lift_opt {A} (c1 c2 : nat) (e : Exn) (o : option A) :
  alike c1 c2 (lift_opt e o) (lift_opt e o).
Proof. destruct o; [apply alike_ret | apply alike_throw]. Qed.

Lemma alike_bind {A B} (c1 c2 : nat) (m1 m2 : M A) (k1 k2 : A -> M B) :
  alike c1 c2 m1 m2 ->
  (forall a, alike c1 c2 (k1 a) (k2 a)) ->
  alike c1 c2 (bind m1 k1) (bind m2 k2).
Proof.
  intros Hm Hk s1 s2 Hs. destruct (Hm s1 s2 Hs) as [Hr Hst].
  unfold bind.
  destruct (m1 s1) as [[a1|e1] t1]; destruct (m2 s2) as [[a2|e2] t2];
    rewrite !result_of_pair in Hr; rewrite !state_of_pair in Hst;
    try discriminate.
  - injection Hr as ->. now apply Hk.
  - injection Hr as ->. rewrite !result_of_pair, !state_of_pair. now split.
Qed.

Lemma alike_executeKw (c1 c2 : nat) (model : JValue) (method : string)
    (args : list JValue) (kwargs : JValue) :
  alike c1 c2 (executeKw c1 model method args kwargs)
    (executeKw c2 model method args kwargs).
Proof.
  intros s1 s2 (Hsent & Hheap & [o Ho1]).
  assert (Ho2 : heap s2 !! c2 = Some o) by congruence.
  assert (Hlt1 : c1 < length (heap s1)) by (eapply lookup_lt_Some; eauto).
  assert (Hlt2 : c2 < length (heap s2)) by (eapply lookup_lt_Some; eauto).
  destruct (nullish (uid o)) eqn:Hu.
  - rewrite (executeKw_without_session c1 o s1 _ _ _ _ Ho1 Hu).
    rewrite (executeKw_without_session c2 o s2 _ _ _ _ Ho2 Hu).
    cbv zeta. rewrite Hsent.
    destruct (rpc_outcome _) as [v|e];
      rewrite !result_of_pair, !state_of_pair;
      (split; [reflexivity|]); unfold same_client;
      cbn [sent heap set_sent set_heap].
    + rewrite !list_lookup_insert_eq by assumption. eauto.
    + rewrite Ho1, Ho2. eauto.
  - rewrite (executeKw_with_session c1 o s1 _ _ _ _ Ho1 Hu).
    rewrite (executeKw_with_session c2 o s2 _ _ _ _ Ho2 Hu).
    rewrite Hsent, !result_of_pair, !state_of_pair.
    split; [reflexivity|]. unfold same_client.
    cbn [sent heap set_sent set_heap]. rewrite Ho1, Ho2. eauto.
Qed.

Lemma alike_create_lines (c1 c2 : nat) (orderId : JValue)
    (lines : list OrderLine) :
  alike c1 c2 (create_lines c1 orderId lines) (create_lines c2 orderId lines).
Proof.
  induction lines as [|line rest IH]; cbn [create_lines].
  - apply alike_ret.
  - apply alike_bind; [apply alike_executeKw|]. intros r.
    apply alike_bind; [apply alike_lift_opt|]. intros prod.
    destruct (truthy prod); cbn [negb]; [|apply alike_throw].
    apply alike_bind; [apply alike_lift_opt|]. intros prod_id.
    apply alike_bind; [apply alike_executeKw|]. intros _. exact IH.
Qed.

(** A handler that creates its client with [getOdooClient] returns and
    sends the same in two states that have seen the same requests,
    whatever clients these states hold. *)
Lemma invocation_ignores_other_clients {A} (props : Props)
    (body : nat -> M A) (h : Exn -> A) :
  (forall c1 c2, alike c1 c2 (body c1) (body c2)) ->
  forall s1 s2,
    sent s1 = sent s2 ->
    result_of
      (try_catch (odoo <- getOdooClient props ;; body odoo)
         (fun e => ret (h e)) s1)
    = result_of
        (try_catch (odoo <- getOdooClient props ;; body odoo)
           (fun e => ret (h e)) s2)
    /\ sent
         (state_of
            (try_catch (odoo <- getOdooClient props ;; body odoo)
               (fun e => ret (h e)) s1))
       = sent
           (state_of
              (try_catch (odoo <- getOdooClient props ;; body odoo)
                 (fun e => ret (h e)) s2)).
Proof.
  intros Hbody s1 s2 Hsent. unfold try_catch, bind.
  rewrite !getOdooClient_run.
  set (o := {| uid := JNull;
               cfg := spread_cfg (odooConfig (getConfigFromContext props)) |}).
  set (t1 := set_this_odoo _ (set_heap _ s1)).
  set (t2 := set_this_odoo _ (set_heap _ s2)).
  assert (Hs : same_client (length (heap s1)) (length (heap s2)) t1 t2).
  { subst t1 t2. unfold same_client.
    cbn [sent heap set_this_odoo set_heap].
    rewrite !list_lookup_middle by reflexivity. eauto. }
  destruct (Hbody _ _ t1 t2 Hs) as [Hr (Hst & _)].
  destruct (body (length (heap s1)) t1) as [[a1|e1] u1];
    destruct (body (length (heap s2)) t2) as [[a2|e2] u2];
    rewrite !result_of_pair in Hr; rewrite !state_of_pair in Hst;
    try discriminate; unfold ret;
    rewrite !result_of_pair, !state_of_pair.
  - now split.
  - injection Hr as ->. now split.
Qed.

(** C9 (as amended). Each invocation of a tool handler
    (search_product_by_reference_code or create_sale_order) first
    constructs a new client with unset session identity and stores it in
    [this.odoo]; the first request of the invocation is the login envelope
    of that client; the clients that existed before are left as they were,
    and what the invocation returns and sends does not depend on them, so
    an identity cached by an earlier invocation is not used. [init] too
    stores a new client in [this.odoo]. Each resource handler runs its call
    on the client that [this.odoo] refers to when it runs: the client of
    [init] until a tool is invoked, the client of the latest tool
    invocation afterwards. *)
Theorem tool_invocation_replaces_the_client (props : Props) (s : State) :
  let this := length (heap s) in
  let o := {| uid := JNull;
              cfg := spread_cfg (odooConfig (getConfigFromContext props)) |} in
  (forall h : M Content,
      (exists code, h = search_product_handler props code)
      \/ (exists tax_id confirm lines,
            h = create_sale_order_handler props tax_id confirm lines) ->
      let s' := state_of (h s) in
      (exists rest, sent_since s s' = login_request o (length (sent s)) :: rest)
      /\ this_odoo s' = Some this
      /\ length (heap s') = S (length (heap s))
      /\ (forall i, i < length (heap s) -> heap s' !! i = heap s !! i)
      /\ (forall s2,
            sent s2 = sent s ->
            result_of (h s2) = result_of (h s)
            /\ sent (state_of (h s2)) = sent s'))
  /\ (this_odoo (state_of (init props s)) = Some this
      /\ heap (state_of (init props s)) = heap s ++ [o]
      /\ sent (state_of (init props s)) = sent s)
  /\ (forall (c : nat) (pathname : string),
        this_odoo s = Some c ->
        models_handler s =
          executeKw c (JStr "ir.model") "search_read"
            [JArr []; JArr [JStr "model"; JStr "name"]] (JObj []) s
        /\ model_handler pathname s =
             executeKw c
               (default JUndefined (JStr <$> last (split "/" pathname)))
               "fields_get"
               [JArr []; JArr [JStr "string"; JStr "type"; JStr "required"]]
               (JObj []) s
        /\ state_of (record_handler pathname s) =
             state_of
               (executeKw c (nth_str (split "/" pathname) 1) "read"
                  [JArr [Number_ (nth_str (split "/" pathname) 2)]]
                  (JObj []) s)
        /\ (forall decoded D,
              decodeURIComponent
                (uri_argument (nth_str (split "/" pathname) 2)) = Some decoded ->
              JSON_parse decoded = Some D ->
              search_handler pathname s =
                executeKw c (nth_str (split "/" pathname) 1) "search_read"
                  [D] (JObj []) s)).
Proof.
  intros this o. split; [|split].
  - intros h [[code ->] | (tax_id & confirm & lines & ->)] s'; subst s'.
    + assert (H4 :
        (exists rest,
           sent_since s (state_of (search_product_handler props code s))
           = login_request o (length (sent s)) :: rest)
        /\ this_odoo (state_of (search_product_handler props code s))
             = Some this
        /\ length (heap (state_of (search_product_handler props code s)))
             = S (length (heap s))
        /\ (forall i, i < length (heap s) ->
              heap (state_of (search_product_handler props code s)) !! i
              = heap s !! i)).
      { unfold search_product_handler. rewrite try_catch_ret_state.
        apply (fresh_client_invocation props s _ _ _ _
                 (fun _ r =>
                    product <- lift_opt TypeError (first_of r) ;;
                    if negb (truthy product) then ret _ else ret _)).
        intros r s1 Hs1. unfold bind.
        destruct (first_of r) as [product|]; cbn [lift_opt ret throw].
        - destruct (truthy product); now apply only_client_changed_refl.
        - now apply only_client_changed_refl. }
      destruct H4 as (Ha & Hb & Hc & Hd).
      refine (conj Ha (conj Hb (conj Hc (conj Hd _)))).
      intros s2 Hs2. unfold search_product_handler.
      apply invocation_ignores_other_clients; [|exact Hs2].
      intros c1 c2.
      apply alike_bind; [apply alike_executeKw|]. intros r.
      apply alike_bind; [apply alike_lift_opt|]. intros product.
      destruct (truthy product); apply alike_ret.
    + assert (H4 :
        (exists rest,
           sent_since s
             (state_of
                (create_sale_order_handler props tax_id confirm lines s))
           = login_request o (length (sent s)) :: rest)
        /\ this_odoo
             (state_of
                (create_sale_order_handler props tax_id confirm lines s))
             = Some this
        /\ length
             (heap
                (state_of
                   (create_sale_order_handler props tax_id confirm lines s)))
             = S (length (heap s))
        /\ (forall i, i < length (heap s) ->
              heap
                (state_of
                   (create_sale_order_handler props tax_id confirm lines s))
                !! i
              = heap s !! i)).
      { unfold create_sale_order_handler. rewrite try_catch_ret_state.
        apply (fresh_client_invocation props s _ _ _ _
                 (fun odoo r =>
                    partner <- lift_opt TypeError (first_of r) ;;
                    if negb (truthy partner) then throw _
                    else
                      partner_id <-
                        lift_opt TypeError (get_prop partner "id") ;;
                      orderId <- executeKw odoo _ _ _ _ ;;
                      create_lines odoo orderId lines ;;; ret _)).
        intros r s1 Hs1. unfold bind at 1.
        destruct (first_of r) as [partner|]; cbn [lift_opt ret throw];
          [|now apply only_client_changed_refl].
        destruct (truthy partner); cbn [negb];
          [|now apply only_client_changed_refl].
        unfold bind at 1.
        destruct (get_prop partner "id") as [partner_id|];
          cbn [lift_opt ret throw]; [|now apply only_client_changed_refl].
        unfold bind at 1.
        pose proof (executeKw_only_client_changed (length (heap s)) s1
                      (JStr "sale.order") "create"
                      [JObj [("partner_id", partner_id)]] (JObj []) Hs1)
          as H1.
        destruct (executeKw _ _ _ _ _ s1) as [[orderId|e] s2];
          rewrite state_of_pair in H1; [|exact H1].
        unfold bind at 1.
        assert (Hs2 : is_Some (heap s2 !! length (heap s))) by apply H1.
        pose proof (create_lines_only_client_changed (length (heap s))
                      orderId lines s2 Hs2) as H2.
        destruct (create_lines _ _ _ s2) as [[u|e] s3];
          rewrite state_of_pair in H2;
          eapply only_client_changed_trans; eauto. }
      destruct H4 as (Ha & Hb & Hc & Hd).
      refine (conj Ha (conj Hb (conj Hc (conj Hd _)))).
      intros s2 Hs2. unfold create_sale_order_handler.
      apply invocation_ignores_other_clients; [|exact Hs2].
      intros c1 c2.
      apply alike_bind; [apply alike_executeKw|]. intros r.
      apply alike_bind; [apply alike_lift_opt|]. intros partner.
      destruct (truthy partner); cbn [negb]; [|apply alike_throw].
      apply alike_bind; [apply alike_lift_opt|]. intros partner_id.
      apply alike_bind; [apply alike_executeKw|]. intros orderId.
      apply alike_bind; [apply alike_create_lines|]. intros _.
      apply alike_ret.
  - unfold init, state_of, bind, new_OdooClient, modify, server_tool,
      server_resource, ret.
    destruct (shouldIgnoreTool props "search_product_by_reference_code");
      destruct (shouldIgnoreTool props "create_sale_order");
      repeat split; reflexivity.
  - intros c pathname Hc. split; [now apply models_handler_run|].
    split; [|split].
    + unfold model_handler. unfold bind at 1.
      now rewrite (the_odoo_run c s Hc).
    + unfold record_handler. unfold bind at 1.
      rewrite (the_odoo_run c s Hc). unfold bind at 1.
      destruct (executeKw _ _ _ _ _ s) as [[r|e] s1]; [|reflexivity].
      unfold bind. now destruct (first_of r).
    + intros decoded D Hdec Hparse. unfold search_handler.
      rewrite Hdec. unfold bind at 1. cbn [lift_opt ret].
      rewrite Hparse. unfold bind at 1. cbn [lift_opt ret].
      unfold bind at 1. now rewrite (the_odoo_run c s Hc).
Qed.

(** The Number value of an integer is a number, never [NaN]. *)
Lemma to_double_not_NaN (z : Z) : to_double z <> NaN.
Proof.
  unfold to_double. destruct (Z.abs z <? 2 ^ 53)%Z; [discriminate|].
  cbv zeta. destruct (2 ^ 1024 <=? _)%Z; discriminate.
Qed.

(** An integer below 2^53 in absolute value is its own Number value. *)
Lemma to_double_exact (z : Z) :
  (Z.abs z < 2 ^ 53)%Z -> to_double z = Num z.
Proof.
  intros H. unfold to_double.
  destruct (Z.ltb_spec (Z.abs z) (2 ^ 53)); [reflexivity | lia].
Qed.

(** [parseInt] gives [NaN] exactly when no decimal digit follows the
    leading white space and the optional sign. *)
Lemma parseInt_NaN_iff (s : string) :
  parseInt s = NaN <-> read_digits (after_sign (trim_start s)) None = None.
Proof.
  unfold parseInt, after_sign.
  destruct (trim_start s) as [|a rest]; [split; reflexivity|].
  destruct (Ascii.eqb_spec a "-") as [->|Hm].
  { destruct (read_digits rest None) as [n|]; split;
      try discriminate; try reflexivity.
    intros H. now apply to_double_not_NaN in H. }
  destruct (Ascii.eqb_spec a "+") as [->|Hp].
  { destruct (read_digits rest None) as [n|]; split;
      try discriminate; try reflexivity.
    intros H. now apply to_double_not_NaN in H. }
  assert (Hgen : forall (t : string) (o : option Z),
             match o with
             | Some n => to_double n
             | None => NaN
             end = NaN <-> o = None).
  { intros t [n|]; split; try discriminate; try reflexivity.
    intros H. now apply to_double_not_NaN in H. }
  destruct a as [[] [] [] [] [] [] [] []];
    try contradiction; apply (Hgen "").
Qed.

(** C10 (as amended). Let the timeout text of a request be the
    odoo-timeout header when the four mandatory backend headers are present
    and non-empty, and the ODOO_TIMEOUT setting otherwise. When that text
    is not empty and
    [parseInt] finds no integer in it, the timeout of the resolved
    configuration is NaN, not 60000; the constructor of the client keeps
    NaN, because the [timeout] key of the supplied configuration replaces
    the default; and every transport request of a client built from that
    configuration carries NaN as its timeout. *)
Theorem unparseable_timeout_is_NaN
    (headers : gmap string string) (env : Env) (raw : string) :
  raw <> "" ->
  parseInt raw = NaN ->
  (missing_backend_header headers = false
   /\ headers !! "odoo-timeout" = Some raw)
  \/ (missing_backend_header headers = true /\ ODOO_TIMEOUT env = Some raw) ->
  let c := odooConfig (resolve headers env) in
  timeout c = Some NaN
  /\ timeout (spread_cfg c) = Some NaN
  /\ (forall (s : State) (service method : string) (args : list JValue),
        exists req,
          sent_since s
            (state_of
               ((this <- new_OdooClient c ;;
                 jsonRpc this service method args) s)) = [req]
          /\ cfTimeout req = Some NaN).
Proof.
  intros Hne Hnan Hsrc c.
  assert (Hc : timeout c = Some NaN).
  { subst c. unfold resolve.
    destruct Hsrc as [[Hb Hraw] | [Hb Hraw]].
    - rewrite (build_context_headers headers env Hb).
      cbn -[str_or parseInt]. rewrite Hraw, str_or_idem.
      now rewrite (str_or_present raw "60000" Hne), Hnan.
    - rewrite (build_context_env headers env Hb).
      cbn -[str_or parseInt]. rewrite Hraw, str_or_idem.
      now rewrite (str_or_present raw "60000" Hne), Hnan. }
  assert (Hs : timeout (spread_cfg c) = Some NaN).
  { unfold spread_cfg. cbn [timeout]. now rewrite Hc. }
  split; [exact Hc|]. split; [exact Hs|].
  intros s service method args. unfold bind at 1.
  unfold new_OdooClient at 1.
  set (o := {| uid := JNull; cfg := spread_cfg c |}).
  set (s1 := set_heap (heap s ++ [o]) s).
  assert (Ho : heap s1 !! length (heap s) = Some o).
  { subst s1. cbn [heap set_heap]. apply list_lookup_middle. reflexivity. }
  rewrite (jsonRpc_run _ o s1 _ _ _ Ho), state_of_pair.
  eexists. split; [apply sent_since_app; reflexivity|].
  cbn [cfTimeout rpc_request]. subst o. cbn [cfg]. exact Hs.
Qed.

(** ** Further properties: invariants of an agent *)

Lemma keeps_ret {A} (P : State -> Prop) (a : A) : keeps P (ret a).
Proof. intros s Hs. exact Hs. Qed.

Lemma keeps_throw {A} (P : State -> Prop) (e : Exn) : keeps P (@throw A e).
Proof. intros s Hs. exact Hs. Qed.

Lemma keeps_lift_opt {A} (P : State -> Prop) (e : Exn) (o : option A) :
  keeps P (lift_opt e o).
Proof. destruct o; [apply keeps_ret | apply keeps_throw]. Qed.

Lemma keeps_bind {A B} (P : State -> Prop) (m : M A) (k : A -> M B) :
  keeps P m -> (forall a, keeps P (k a)) -> keeps P (bind m k).
Proof.
  intros Hm Hk s Hs. specialize (Hm s Hs). unfold bind.
  destruct (m s) as [[a|e] s1]; rewrite state_of_pair in Hm.
  - now apply Hk.
  - now rewrite state_of_pair.
Qed.

Lemma keeps_try_catch {A} (P : State -> Prop) (m : M A) (h : Exn -> M A) :
  keeps P m -> (forall e, keeps P (h e)) -> keeps P (try_catch m h).
Proof.
  intros Hm Hh s Hs. specialize (Hm s Hs). unfold try_catch.
  destruct (m s) as [[a|e] s1]; rewrite state_of_pair in Hm.
  - now rewrite state_of_pair.
  - now apply Hh.
Qed.

(** A call on a reference behind which there is no client throws before
    anything happens. *)
Lemma executeKw_no_client (this : nat) (s : State) (model : JValue)
    (method : string) (args : list JValue) (kwargs : JValue) :
  heap s !! this = None ->
  executeKw this model method args kwargs s = (Throw TypeError, s).
Proof.
  intros Hn. unfold executeKw, login. unfold bind at 1. unfold bind at 1.
  unfold deref at 1. now rewrite Hn.
Qed.

Lemma lookup_snoc_inv {A} (P : nat -> A -> Prop) (l : list A) (x : A) :
  (forall n r, l !! n = Some r -> P n r) ->
  P (length l) x ->
  forall n r, (l ++ [x]) !! n = Some r -> P n r.
Proof.
  intros Hl Hx n r Hn. apply lookup_snoc_Some in Hn as [[_ Hn] | [-> <-]].
  - now apply Hl.
  - exact Hx.
Qed.

Lemma login_request_ok (o : OdooClient) (n : nat) :
  request_ok (cfg o) n (login_request o n).
Proof.
  unfold request_ok, login_request, rpc_request. cbn.
  repeat split. left. repeat split.
Qed.

Lemma execute_request_ok (o : OdooClient) (n : nat) (model : JValue)
    (method : string) (args : list JValue) (kwargs : JValue) :
  request_ok (cfg o) n (execute_request o n model method args kwargs).
Proof.
  unfold request_ok, execute_request, rpc_request. cbn.
  repeat split. right. repeat split. eauto 10.
Qed.

Lemma executeKw_keeps_agent_inv (props : Props) (this : nat) (model : JValue)
    (method : string) (args : list JValue) (kwargs : JValue) :
  keeps (agent_inv props) (executeKw this model method args kwargs).
Proof.
  intros s (Hcfg & Hthis & Hsent).
  destruct (heap s !! this) as [o|] eqn:Ho.
  2: { rewrite (executeKw_no_client this s _ _ _ _ Ho), state_of_pair.
       exact (conj Hcfg (conj Hthis Hsent)). }
  pose proof (Hcfg this o Ho) as Hc.
  assert (Hlt : this < length (heap s)) by (eapply lookup_lt_Some; eauto).
  destruct (nullish (uid o)) eqn:Hu.
  - rewrite (executeKw_without_session this o s _ _ _ _ Ho Hu). cbv zeta.
    destruct (rpc_outcome _) as [v|e]; rewrite state_of_pair;
      unfold agent_inv; cbn [heap this_odoo sent set_sent set_heap].
    + split; [|split].
      * intros i o' Hi. destruct (decide (i = this)) as [->|Hne].
        -- rewrite (list_lookup_insert_eq _ _ _ Hlt) in Hi.
           injection Hi as <-. exact Hc.
        -- rewrite list_lookup_insert_ne in Hi by congruence. eauto.
      * intros i Hi. rewrite length_insert. eauto.
      * change [login_request o (length (sent s));
                execute_request {| uid := v; cfg := cfg o |}
                  (S (length (sent s))) model method args kwargs]
          with ([login_request o (length (sent s))]
                ++ [execute_request {| uid := v; cfg := cfg o |}
                      (S (length (sent s))) model method args kwargs]).
        rewrite app_assoc. apply lookup_snoc_inv.
        -- apply lookup_snoc_inv; [exact Hsent|].
           rewrite <- Hc. apply login_request_ok.
        -- rewrite length_app, Nat.add_1_r. rewrite <- Hc.
           apply (execute_request_ok {| uid := v; cfg := cfg o |}).
    + split; [exact Hcfg|]. split; [exact Hthis|].
      apply lookup_snoc_inv; [exact Hsent|].
      rewrite <- Hc. apply login_request_ok.
  - rewrite (executeKw_with_session this o s _ _ _ _ Ho Hu), state_of_pair.
    unfold agent_inv. cbn [heap this_odoo sent set_sent set_heap].
    split; [exact Hcfg|]. split; [exact Hthis|].
    apply lookup_snoc_inv; [exact Hsent|].
    rewrite <- Hc. apply execute_request_ok.
Qed.

Lemma getOdooClient_keeps_agent_inv (props : Props) :
  keeps (agent_inv props) (getOdooClient props).
Proof.
  intros s (Hcfg & Hthis & Hsent). rewrite getOdooClient_run, state_of_pair.
  unfold agent_inv. cbn [heap this_odoo sent set_this_odoo set_heap].
  split; [|split].
  - intros i o Hi. apply lookup_snoc_Some in Hi as [[_ Hi] | [_ <-]].
    + eauto.
    + reflexivity.
  - intros i [= <-]. rewrite length_app. cbn. lia.
  - exact Hsent.
Qed.

Lemma the_odoo_keeps (P : State -> Prop) : keeps P the_odoo.
Proof.
  intros s Hs. unfold the_odoo, bind, get_state.
  now destruct (this_odoo s).
Qed.

Lemma create_lines_keeps_agent_inv (props : Props) (odoo : nat)
    (orderId : JValue) (lines : list OrderLine) :
  keeps (agent_inv props) (create_lines odoo orderId lines).
Proof.
  induction lines as [|line rest IH]; cbn [create_lines].
  - apply keeps_ret.
  - apply keeps_bind; [apply executeKw_keeps_agent_inv|]. intros r.
    apply keeps_bind; [apply keeps_lift_opt|]. intros prod.
    destruct (truthy prod); cbn [negb]; [|apply keeps_throw].
    apply keeps_bind; [apply keeps_lift_opt|]. intros prod_id.
    apply keeps_bind; [apply executeKw_keeps_agent_inv|]. intros _.
    exact IH.
Qed.

Lemma init_keeps_agent_inv (props : Props) : keeps (agent_inv props) (init props).
Proof.
  intros s (Hcfg & Hthis & Hsent).
  assert (Hst : heap (state_of (init props s))
                = heap s ++ [{| uid := JNull;
                                cfg := spread_cfg
                                         (odooConfig
                                            (getConfigFromContext props)) |}]
                /\ this_odoo (state_of (init props s)) = Some (length (heap s))
                /\ sent (state_of (init props s)) = sent s).
  { unfold init, state_of, bind, new_OdooClient, modify, server_tool,
      server_resource, ret.
    destruct (shouldIgnoreTool props "search_product_by_reference_code");
      destruct (shouldIgnoreTool props "create_sale_order");
      repeat split; reflexivity. }
  destruct Hst as (Hh & Ht & Hs). unfold agent_inv. rewrite Hh, Ht, Hs.
  split; [|split].
  - intros i o Hi. apply lookup_snoc_Some in Hi as [[_ Hi] | [_ <-]].
    + eauto.
    + reflexivity.
  - intros i [= <-]. rewrite length_app. cbn. lia.
  - exact Hsent.
Qed.

Lemma run_op_keeps_agent_inv (props : Props) (op : Op) (s : State) :
  agent_inv props s -> agent_inv props (run_op props op s).
Proof.
  destruct op as [|code|tax_id confirm lines| |pathname|pathname|pathname];
    cbn [run_op]; revert s.
  - apply init_keeps_agent_inv.
  - apply keeps_try_catch; [|intros e; apply keeps_ret].
    apply keeps_bind; [apply getOdooClient_keeps_agent_inv|]. intros odoo.
    apply keeps_bind; [apply executeKw_keeps_agent_inv|]. intros r.
    apply keeps_bind; [apply keeps_lift_opt|]. intros product.
    destruct (truthy product); apply keeps_ret.
  - apply keeps_try_catch; [|intros e; apply keeps_ret].
    apply keeps_bind; [apply getOdooClient_keeps_agent_inv|]. intros odoo.
    apply keeps_bind; [apply executeKw_keeps_agent_inv|]. intros r.
    apply keeps_bind; [apply keeps_lift_opt|]. intros partner.
    destruct (truthy partner); cbn [negb]; [|apply keeps_throw].
    apply keeps_bind; [apply keeps_lift_opt|]. intros partner_id.
    apply keeps_bind; [apply executeKw_keeps_agent_inv|]. intros orderId.
    apply keeps_bind; [apply create_lines_keeps_agent_inv|]. intros _.
    apply keeps_ret.
  - apply keeps_bind; [apply the_odoo_keeps|]. intros odoo.
    apply executeKw_keeps_agent_inv.
  - apply keeps_bind; [apply the_odoo_keeps|]. intros odoo.
    apply executeKw_keeps_agent_inv.
  - apply keeps_bind; [apply the_odoo_keeps|]. intros odoo.
    apply keeps_bind; [apply executeKw_keeps_agent_inv|]. intros r.
    apply keeps_bind; [apply keeps_lift_opt|]. intros rec. apply keeps_ret.
  - apply keeps_bind; [apply keeps_lift_opt|]. intros decoded.
    apply keeps_bind; [apply keeps_lift_opt|]. intros domain.
    apply keeps_bind; [apply the_odoo_keeps|]. intros odoo.
    apply executeKw_keeps_agent_inv.
Qed.

Lemma run_ops_keeps_agent_inv (props : Props) (ops : list Op) :
  forall s, agent_inv props s -> agent_inv props (run_ops props ops s).
Proof.
  induction ops as [|op ops IH]; intros s Hs; [exact Hs|].
  cbn [run_ops fold_left]. apply IH. now apply run_op_keeps_agent_inv.
Qed.

Lemma fresh_state_agent_inv (props : Props) : agent_inv props fresh_state.
Proof.
  unfold agent_inv, fresh_state. cbn [heap this_odoo sent].
  split; [|split].
  - intros i o Hi. now rewrite lookup_nil in Hi.
  - intros i Hi. discriminate.
  - intros n r Hn. now rewrite lookup_nil in Hn.
Qed.

(** X1. After any sequence of operations on a new agent ([init], tool
    invocations, resource reads, in any order), every client has the
    configuration read from the props, [this.odoo] refers to an existing
    client, and the n-th request sent is a POST of a JSON-RPC 2.0 envelope
    to [<baseUrl>/jsonrpc] of that configuration, with its timeout, the
    n-th identifier drawn, and either the login arguments
    [db, username, password] or seven execution arguments that start with
    [db], the identity and [password]. *)
Theorem agent_requests_keep_to_the_props (props : Props) (ops : list Op) :
  agent_inv props (run_ops props ops fresh_state).
Proof. apply run_ops_keeps_agent_inv, fresh_state_agent_inv. Qed.

Lemma history_refl (s : State) : history s s.
Proof.
  split; [exists []; now rewrite app_nil_r|]. split; [|split]; [|done..].
  intros i o Hi. exists o. now repeat split.
Qed.

Lemma history_trans (s1 s2 s3 : State) :
  history s1 s2 -> history s2 s3 -> history s1 s3.
Proof.
  intros ([n1 H1] & Hh1 & Ht1 & Hr1) ([n2 H2] & Hh2 & Ht2 & Hr2).
  split; [exists (n1 ++ n2); now rewrite H2, H1, app_assoc|].
  split; [|split; etrans; eassumption].
  intros i o Hi. destruct (Hh1 i o Hi) as (o1 & Hi1 & Hc1 & Hu1).
  destruct (Hh2 i o1 Hi1) as (o2 & Hi2 & Hc2 & Hu2).
  exists o2. split; [exact Hi2|]. split; [congruence|].
  intros Hn. rewrite Hu2; [now apply Hu1|]. rewrite Hu1; assumption.
Qed.

Lemma moves_history_ret {A} (a : A) : moves history (ret a).
Proof. intros s. apply history_refl. Qed.

Lemma moves_history_throw {A} (e : Exn) : moves history (@throw A e).
Proof. intros s. apply history_refl. Qed.

Lemma moves_history_lift_opt {A} (e : Exn) (o : option A) :
  moves history (lift_opt e o).
Proof. destruct o; [apply moves_history_ret | apply moves_history_throw]. Qed.

Lemma moves_history_bind {A B} (m : M A) (k : A -> M B) :
  moves history m -> (forall a, moves history (k a)) ->
  moves history (bind m k).
Proof.
  intros Hm Hk s. specialize (Hm s). unfold bind.
  destruct (m s) as [[a|e] s1]; rewrite state_of_pair in Hm.
  - eapply history_trans; [exact Hm | apply Hk].
  - now rewrite state_of_pair.
Qed.

Lemma moves_history_try_catch {A} (m : M A) (h : Exn -> M A) :
  moves history m -> (forall e, moves history (h e)) ->
  moves history (try_catch m h).
Proof.
  intros Hm Hh s. specialize (Hm s). unfold try_catch.
  destruct (m s) as [[a|e] s1]; rewrite state_of_pair in Hm.
  - now rewrite state_of_pair.
  - eapply history_trans; [exact Hm | apply Hh].
Qed.

Lemma moves_history_the_odoo : moves history the_odoo.
Proof.
  intros s. unfold the_odoo, bind, get_state.
  destruct (this_odoo s); apply history_refl.
Qed.

Lemma moves_history_executeKw (this : nat) (model : JValue) (method : string)
    (args : list JValue) (kwargs : JValue) :
  moves history (executeKw this model method args kwargs).
Proof.
  intros s. destruct (heap s !! this) as [o|] eqn:Ho.
  2: { rewrite (executeKw_no_client this s _ _ _ _ Ho), state_of_pair.
       apply history_refl. }
  assert (Hlt : this < length (heap s)) by (eapply lookup_lt_Some; eauto).
  destruct (nullish (uid o)) eqn:Hu.
  - rewrite (executeKw_without_session this o s _ _ _ _ Ho Hu). cbv zeta.
    destruct (rpc_outcome _) as [v|e]; rewrite state_of_pair;
      unfold history; cbn [heap tools resources sent set_sent set_heap].
    + split; [eauto|]. split; [|done].
      intros i o' Hi. destruct (decide (i = this)) as [->|Hne].
      * rewrite (list_lookup_insert_eq _ _ _ Hlt).
        eexists. split; [reflexivity|]. split.
        -- cbn. congruence.
        -- intros Hn. congruence.
      * rewrite list_lookup_insert_ne by congruence.
        exists o'. now repeat split.
    + split; [eauto|]. split; [|done].
      intros i o' Hi. exists o'. now repeat split.
  - rewrite (executeKw_with_session this o s _ _ _ _ Ho Hu), state_of_pair.
    unfold history. cbn [heap tools resources sent set_sent set_heap].
    split; [eauto|]. split; [|done].
    intros i o' Hi. exists o'. now repeat split.
Qed.

Lemma history_snoc_client (s : State) (o : OdooClient) (r : option nat) :
  history s (set_this_odoo r (set_heap (heap s ++ [o]) s)).
Proof.
  unfold history. cbn [heap tools resources sent set_this_odoo set_heap].
  split; [exists []; now rewrite app_nil_r|]. split; [|done].
  intros i o' Hi. exists o'. split; [|now split].
  now apply lookup_app_l_Some.
Qed.

Lemma moves_history_getOdooClient (props : Props) :
  moves history (getOdooClient props).
Proof.
  intros s. rewrite getOdooClient_run, state_of_pair.
  apply history_snoc_client.
Qed.

Lemma moves_history_server_tool (name : string) (t : ToolName) :
  moves history (server_tool name t).
Proof.
  intros s. unfold server_tool, modify, state_of, history.
  cbn [snd heap tools resources sent set_tools].
  split; [exists []; now rewrite app_nil_r|]. split; [|split]; [| |done].
  - intros i o Hi. exists o. now repeat split.
  - apply dom_insert_subseteq.
Qed.

Lemma moves_history_server_resource (name uri : string) (r : ResourceName) :
  moves history (server_resource name uri r).
Proof.
  intros s. unfold server_resource, modify, state_of, history.
  cbn [snd heap tools resources sent set_resources].
  split; [exists []; now rewrite app_nil_r|]. split; [|split]; [|done|].
  - intros i o Hi. exists o. now repeat split.
  - apply dom_insert_subseteq.
Qed.

Lemma moves_history_create_lines (odoo : nat) (orderId : JValue)
    (lines : list OrderLine) :
  moves history (create_lines odoo orderId lines).
Proof.
  induction lines as [|line rest IH]; cbn [create_lines].
  - apply moves_history_ret.
  - apply moves_history_bind; [apply moves_history_executeKw|]. intros r.
    apply moves_history_bind; [apply moves_history_lift_opt|]. intros prod.
    destruct (truthy prod); cbn [negb]; [|apply moves_history_throw].
    apply moves_history_bind; [apply moves_history_lift_opt|]. intros pid.
    apply moves_history_bind; [apply moves_history_executeKw|]. intros _.
    exact IH.
Qed.

Lemma moves_history_init (props : Props) : moves history (init props).
Proof.
  unfold init.
  apply moves_history_bind.
  { intros s. unfold new_OdooClient. rewrite state_of_pair.
    apply (history_snoc_client s _ (this_odoo s)). }
  intros c. apply moves_history_bind.
  { intros s. unfold modify. rewrite state_of_pair. unfold history.
    cbn [heap tools resources sent set_this_odoo].
    split; [exists []; now rewrite app_nil_r|]. split; [|done].
    intros i o Hi. exists o. now repeat split. }
  intros _. apply moves_history_bind.
  { destruct (shouldIgnoreTool props "search_product_by_reference_code");
      cbn [negb]; [apply moves_history_ret | apply moves_history_server_tool]. }
  intros _. apply moves_history_bind.
  { destruct (shouldIgnoreTool props "create_sale_order");
      cbn [negb]; [apply moves_history_ret | apply moves_history_server_tool]. }
  intros _.
  repeat (apply moves_history_bind;
          [apply moves_history_server_resource | intros _]).
  apply moves_history_server_resource.
Qed.

Lemma run_op_history (props : Props) (op : Op) (s : State) :
  history s (run_op props op s).
Proof.
  destruct op as [|code|tax_id confirm lines| |pathname|pathname|pathname];
    cbn [run_op]; revert s.
  - apply moves_history_init.
  - apply moves_history_try_catch; [|intros e; apply moves_history_ret].
    apply moves_history_bind; [apply moves_history_getOdooClient|].
    intros odoo.
    apply moves_history_bind; [apply moves_history_executeKw|]. intros r.
    apply moves_history_bind; [apply moves_history_lift_opt|].
    intros product. destruct (truthy product); apply moves_history_ret.
  - apply moves_history_try_catch; [|intros e; apply moves_history_ret].
    apply moves_history_bind; [apply moves_history_getOdooClient|].
    intros odoo.
    apply moves_history_bind; [apply moves_history_executeKw|]. intros r.
    apply moves_history_bind; [apply moves_history_lift_opt|].
    intros partner.
    destruct (truthy partner); cbn [negb]; [|apply moves_history_throw].
    apply moves_history_bind; [apply moves_history_lift_opt|]. intros pid.
    apply moves_history_bind; [apply moves_history_executeKw|].
    intros orderId.
    apply moves_history_bind; [apply moves_history_create_lines|].
    intros _. apply moves_history_ret.
  - apply moves_history_bind; [apply moves_history_the_odoo|]. intros odoo.
    apply moves_history_executeKw.
  - apply moves_history_bind; [apply moves_history_the_odoo|]. intros odoo.
    apply moves_history_executeKw.
  - apply moves_history_bind; [apply moves_history_the_odoo|]. intros odoo.
    apply moves_history_bind; [apply moves_history_executeKw|]. intros r.
    apply moves_history_bind; [apply moves_history_lift_opt|]. intros rec.
    apply moves_history_ret.
  - apply moves_history_bind; [apply moves_history_lift_opt|]. intros dec.
    apply moves_history_bind; [apply moves_history_lift_opt|]. intros dom.
    apply moves_history_bind; [apply moves_history_the_odoo|]. intros odoo.
    apply moves_history_executeKw.
Qed.

(** X2. Across any sequence of operations on an agent, from any state:
    the requests already sent stay as they are and new ones come after
    them; no client disappears, the configuration of a client never
    changes, and an identity that a client holds (a [uid] other than null
    and undefined) is never replaced nor cleared; no tool and no resource
    is unregistered. *)
Theorem agent_history_only_grows (props : Props) (ops : list Op) (s : State) :
  history s (run_ops props ops s).
Proof.
  revert s. induction ops as [|op ops IH]; intros s; [apply history_refl|].
  cbn [run_ops fold_left]. eapply history_trans; [apply run_op_history|].
  apply IH.
Qed.

(** ** Further properties: registration *)

(** X3. On a new agent, [init] registers exactly the tools of its table
    that the gate admits, each under its own name, and registers the four
    resources whatever the allow-list holds: the gate never hides a
    resource. [setupBasicResources] of [BaseMCP] registers the same four
    resources. *)
Theorem init_registers_admitted_tools_and_all_resources
    (props : Props) (name : string) (t : ToolName) :
  (tools (state_of (init props fresh_state)) !! name = Some t <->
     (name, t) ∈ tool_table /\ shouldIgnoreTool props name = false)
  /\ resources (state_of (init props fresh_state)) = list_to_map resource_table
  /\ resources (state_of (setupBasicResources fresh_state))
     = list_to_map resource_table.
Proof.
  split; [|split].
  - rewrite init_tools. cbv zeta. unfold tool_table, fresh_state.
    cbn [tools]. rewrite !elem_of_cons, elem_of_nil.
    destruct (shouldIgnoreTool props "search_product_by_reference_code")
      eqn:E1;
      destruct (shouldIgnoreTool props "create_sale_order") eqn:E2;
      cbn [negb].
    + rewrite lookup_empty. split; [discriminate|].
      intros [[[= -> ->] | [[= -> ->] | []]] Hn]; congruence.
    + rewrite lookup_insert. case_decide as Hd.
      * subst name. split.
        -- intros [= <-]. split; [right; left; reflexivity | exact E2].
        -- intros [[[= ?] | [[= <-] | []]] _]; reflexivity.
      * rewrite lookup_empty. split; [discriminate|].
        intros [[[= -> ->] | [[= -> ->] | []]] Hn]; congruence.
    + rewrite lookup_insert. case_decide as Hd.
      * subst name. split.
        -- intros [= <-]. split; [left; reflexivity | exact E1].
        -- intros [[[= <-] | [[= ?] | []]] _]; reflexivity.
      * rewrite lookup_empty. split; [discriminate|].
        intros [[[= -> ->] | [[= -> ->] | []]] Hn]; congruence.
    + rewrite lookup_insert. case_decide as Hd.
      * subst name. split.
        -- intros [= <-]. split; [right; left; reflexivity | exact E2].
        -- intros [[[= ?] | [[= <-] | []]] _]; reflexivity.
      * rewrite lookup_insert. case_decide as Hd'.
        -- subst name. split.
           ++ intros [= <-]. split; [left; reflexivity | exact E1].
           ++ intros [[[= <-] | [[= ?] | []]] _]; reflexivity.
        -- rewrite lookup_empty. split; [discriminate|].
           intros [[[= -> ->] | [[= -> ->] | []]] Hn]; congruence.
  - unfold init, state_of, bind, new_OdooClient, modify, server_tool,
      server_resource, ret.
    destruct (shouldIgnoreTool props "search_product_by_reference_code");
      destruct (shouldIgnoreTool props "create_sale_order");
      cbn; apply map_eq; intros i;
      repeat (rewrite lookup_insert; case_decide; [reflexivity|]);
      reflexivity.
  - cbn. apply map_eq; intros i.
    repeat (rewrite lookup_insert; case_decide; [reflexivity|]).
    reflexivity.
Qed.

(** ** Further properties: the request configuration *)

(** X4. Whatever the request and the settings are, the backend fields of
    the resolved bundle are not empty: they are non-empty header values,
    non-empty settings, or the placeholders. *)
Theorem resolved_backend_fields_are_not_empty
    (headers : gmap string string) (env : Env) :
  baseUrl (odooConfig (resolve headers env)) <> ""
  /\ db (odooConfig (resolve headers env)) <> ""
  /\ username (odooConfig (resolve headers env)) <> ""
  /\ password (odooConfig (resolve headers env)) <> "".
Proof.
  unfold resolve. destruct (missing_backend_header headers) eqn:Hb.
  - rewrite (build_context_env headers env Hb). cbn -[str_or].
    rewrite !str_or_present by (apply str_or_nonempty; discriminate).
    repeat split; apply str_or_nonempty; discriminate.
  - destruct (proj1 (missing_backend_header_false headers) Hb)
      as (u & d & us & p & [Hu Hu'] & [Hd Hd'] & [Hus Hus'] & [Hp Hp']).
    rewrite (build_context_headers headers env Hb). cbn -[str_or].
    rewrite Hu, Hd, Hus, Hp. rewrite !str_or_present by assumption.
    repeat split; assumption.
Qed.

Lemma strings_of_list_fmap (l : list string) :
  strings_of_list (JStr <$> l) = l.
Proof. induction l as [|x l IH]; [reflexivity|]. cbn. now rewrite IH. Qed.

Lemma is_string_array_fmap (l : list string) :
  is_string_array (JArr (JStr <$> l)) = true.
Proof. cbn. induction l as [|x l IH]; [reflexivity|]. exact IH. Qed.

(** The header and the setting go through the same rule: the same text
    gives the same list. *)
Lemma parsers_agree (o : option string) :
  fst (parse_to_use_header o) = fst (parse_env_to_use o).
Proof.
  destruct o as [raw|]; [|reflexivity]. cbn.
  destruct (raw =? ""); [reflexivity|].
  destruct (JSON_parse raw) as [v|]; [|reflexivity].
  now destruct (is_string_array v).
Qed.

(** X5. A well-formed allow-list reaches the gate unchanged: when the
    input that governs the request (the to-use header beside the four
    mandatory headers, the TO_USE setting otherwise) is a non-empty text
    that parses to an array of the strings [l], the bundle's toolsToUse is
    [l], in the same order and with the same repetitions, and the gate
    admits every name when [l] is empty and exactly the names of [l]
    otherwise. *)
Theorem well_formed_allow_list_is_forwarded
    (headers : gmap string string) (env : Env) (raw : string)
    (l : list string) :
  raw <> "" ->
  JSON_parse raw = Some (JArr (JStr <$> l)) ->
  (missing_backend_header headers = false /\ headers !! "to-use" = Some raw)
  \/ (missing_backend_header headers = true /\ TO_USE env = Some raw) ->
  bundleToolsToUse (resolve headers env) = l
  /\ (forall n,
        shouldIgnoreTool (fst (build_context headers env)) n = false <->
        l = [] \/ n ∈ l).
Proof.
  intros Hne Hparse Hsrc.
  assert (Hhead : fst (parse_to_use_header (Some raw)) = l).
  { cbn. destruct (String.eqb_spec raw ""); [contradiction|].
    rewrite Hparse, is_string_array_fmap. cbn.
    apply strings_of_list_fmap. }
  assert (Hl : bundleToolsToUse (resolve headers env) = l).
  { unfold resolve. destruct Hsrc as [[Hb Hraw] | [Hb Hraw]].
    - rewrite (build_context_headers headers env Hb). cbn.
      now rewrite Hraw.
    - rewrite (build_context_env headers env Hb). cbn.
      now rewrite Hraw, <- parsers_agree. }
  split; [exact Hl|]. intros n. rewrite shouldIgnoreTool_false.
  fold (resolve headers env). now rewrite Hl.
Qed.

(** X6. Both allow-list inputs are parsed on every request: a TO_USE
    setting (or a to-use header) that is not empty and does not parse to
    an array of strings puts a warning on the console of every request,
    also of the requests whose allow-list comes from the other input. *)
Theorem malformed_input_is_warned_on_every_request
    (headers : gmap string string) (env : Env) (raw : string) :
  raw <> "" ->
  (JSON_parse raw = None
   \/ exists v, JSON_parse raw = Some v /\ is_string_array v = false) ->
  headers !! "to-use" = Some raw \/ TO_USE env = Some raw ->
  exists msg, (WARN, msg) ∈ snd (build_context headers env).
Proof.
  intros Hne Hbad Hin. destruct (build_context_log headers env) as [rest ->].
  destruct Hin as [Hraw | Hraw]; rewrite Hraw.
  - destruct (parse_to_use_header_malformed raw Hbad) as [_ Hw].
    destruct (Hw Hne) as [msg ->]. exists msg.
    rewrite !elem_of_app. left. apply list_elem_of_singleton. reflexivity.
  - destruct (parse_env_to_use_malformed raw Hbad) as [_ Hw].
    destruct (Hw Hne) as [msg ->]. exists msg.
    rewrite !elem_of_app. right. left.
    apply list_elem_of_singleton. reflexivity.
Qed.

(** ** Further properties: the tool handlers *)

Lemma returns_ret {A} (Q : A -> Prop) (a : A) : Q a -> returns Q (ret a).
Proof. intros Ha s a' [= <-]. exact Ha. Qed.

Lemma returns_throw {A} (Q : A -> Prop) (e : Exn) : returns Q (throw e).
Proof. intros s a H. discriminate. Qed.

Lemma returns_bind {A B} (Q : B -> Prop) (m : M A) (k : A -> M B) :
  (forall a, returns Q (k a)) -> returns Q (bind m k).
Proof.
  intros Hk s b. unfold bind. destruct (m s) as [[a|e] s1].
  - apply Hk.
  - rewrite result_of_pair. discriminate.
Qed.

Lemma returns_try_catch {A} (Q : A -> Prop) (m : M A) (h : Exn -> M A) :
  returns Q m -> (forall e, returns Q (h e)) -> returns Q (try_catch m h).
Proof.
  intros Hm Hh s a. unfold try_catch. specialize (Hm s).
  destruct (m s) as [[a'|e] s1].
  - rewrite !result_of_pair in *. exact (Hm a).
  - apply Hh.
Qed.

Lemma try_catch_recovers {A} (Q : A -> Prop) (m : M A) (h : Exn -> A) :
  returns Q m -> (forall e, Q (h e)) ->
  forall s, exists a,
    result_of (try_catch m (fun e => ret (h e)) s) = Ok a /\ Q a.
Proof.
  intros Hm Hh s. unfold try_catch, ret. specialize (Hm s).
  destruct (m s) as [[a|e] s1]; rewrite result_of_pair in *; eauto.
Qed.

(** X7. No exception leaves a tool handler: whatever the backend answers
    and whatever the state is, search_product_by_reference_code and
    create_sale_order return a content made of exactly one item of type
    text. *)
Theorem tool_handlers_always_return_one_text (props : Props) (s : State) :
  (forall code,
      exists text,
        result_of (search_product_handler props code s)
        = Ok [("text", text)])
  /\ (forall tax_id confirm lines,
        exists text,
          result_of (create_sale_order_handler props tax_id confirm lines s)
          = Ok [("text", text)]).
Proof.
  pose (Q := fun a : Content => exists text, a = [("text", text)]).
  assert (Hshape : forall text, Q (text_content text)).
  { intros text. exists text. reflexivity. }
  split.
  - intros code. unfold search_product_handler.
    edestruct (try_catch_recovers Q) as (a & -> & text & ->);
      [|intros e; apply Hshape|eauto].
    apply returns_bind. intros odoo. apply returns_bind. intros r.
    apply returns_bind. intros product.
    destruct (truthy product); apply returns_ret, Hshape.
  - intros tax_id confirm lines. unfold create_sale_order_handler.
    edestruct (try_catch_recovers Q) as (a & -> & text & ->);
      [|intros e; apply Hshape|eauto].
    apply returns_bind. intros odoo. apply returns_bind. intros r.
    apply returns_bind. intros partner.
    destruct (truthy partner); cbn [negb]; [|apply returns_throw].
    apply returns_bind. intros partner_id. apply returns_bind.
    intros orderId. apply returns_bind. intros _.
    apply returns_ret, Hshape.
Qed.

(** X8. The search_product_by_reference_code tool is [findProductByCode]
    of [BaseMCP] with the answer formatted: it leaves the state that the
    helper leaves (same new client, same requests), answers the product
    that the helper returns as JSON, the object
    [{error: "Product not found"}] when the helper returns a falsy value,
    and the text of the exception when the helper throws. *)
Theorem search_product_formats_findProductByCode
    (props : Props) (code : string) (s : State) :
  state_of (search_product_handler props code s)
  = state_of (findProductByCode props code s)
  /\ result_of (search_product_handler props code s)
     = Ok (match result_of (findProductByCode props code s) with
           | Ok product =>
               if truthy product then createSuccessResponse product
               else createSuccessResponse
                      (JObj [("error", JStr "Product not found")])
           | Throw e =>
               text_content
                 ("Error al buscar producto: " +:+ error_text e)
           end).
Proof.
  unfold search_product_handler, findProductByCode, createSuccessResponse,
    try_catch, bind.
  destruct (getOdooClient props s) as [[odoo|e] s1]; [|split; reflexivity].
  destruct (executeKw odoo _ _ _ _ s1) as [[r|e] s2]; [|split; reflexivity].
  destruct (first_of r) as [product|]; cbn [lift_opt];
    [|split; reflexivity].
  unfold ret. rewrite !state_of_pair, !result_of_pair.
  destruct (truthy product); split; reflexivity.
Qed.

(** X9. The [confirm] argument of create_sale_order is only echoed: the
    requests sent and the state left are the same for [confirm = true]
    and [confirm = false]; the answer is either an error text that does
    not depend on the flag, or the JSON of
    [{order_id, confirmed: confirm}] for the same order. No request is
    made on behalf of the flag. *)
Theorem confirm_flag_is_only_echoed
    (props : Props) (tax_id : string) (lines : list OrderLine) (s : State) :
  exists s',
    (exists text,
       forall confirm,
         create_sale_order_handler props tax_id confirm lines s
         = (Ok (text_content text), s'))
    \/ (exists orderId,
          forall confirm,
            create_sale_order_handler props tax_id confirm lines s
            = (Ok (text_content
                     (JSON_stringify
                        (JObj [("order_id", orderId);
                               ("confirmed", JBool confirm)]))), s')).
Proof.
  unfold create_sale_order_handler, try_catch, bind, lift_opt, ret, throw.
  destruct (getOdooClient props s) as [[odoo|e] s1];
    [|eexists; left; eexists; intros confirm; reflexivity].
  destruct (executeKw odoo _ _ _ _ s1) as [[r|e] s2];
    [|eexists; left; eexists; intros confirm; reflexivity].
  destruct (first_of r) as [partner|];
    [|eexists; left; eexists; intros confirm; reflexivity].
  destruct (truthy partner); cbn [negb];
    [|eexists; left; eexists; intros confirm; reflexivity].
  destruct (get_prop partner "id") as [partner_id|];
    [|eexists; left; eexists; intros confirm; reflexivity].
  destruct (executeKw odoo _ _ _ _ s2) as [[orderId|e] s3];
    [|eexists; left; eexists; intros confirm; reflexivity].
  destruct (create_lines odoo orderId lines s3) as [[[]|e] s4];
    [|eexists; left; eexists; intros confirm; reflexivity].
  exists s4. right. exists orderId. intros confirm. reflexivity.
Qed.

(** ** Further properties: what an operation asks of the backend *)

Lemma moves_ret {A} {R : relation State} `{!PreOrder R} (a : A) : moves R (ret a).
Proof. intros s. reflexivity. Qed.

Lemma moves_throw {A} {R : relation State} `{!PreOrder R} (e : Exn) : moves R (@throw A e).
Proof. intros s. reflexivity. Qed.

Lemma moves_lift_opt {A} {R : relation State} `{!PreOrder R} (e : Exn)
    (o : option A) :
  moves R (lift_opt e o).
Proof. destruct o; [apply moves_ret | apply moves_throw]. Qed.

Lemma moves_bind {A B} {R : relation State} `{!PreOrder R} (m : M A)
    (k : A -> M B) :
  moves R m -> (forall a, moves R (k a)) -> moves R (bind m k).
Proof.
  intros Hm Hk s. specialize (Hm s). unfold bind.
  destruct (m s) as [[a|e] s1]; rewrite state_of_pair in Hm.
  - etrans; [exact Hm | apply Hk].
  - now rewrite state_of_pair.
Qed.

Lemma moves_try_catch {A} {R : relation State} `{!PreOrder R} (m : M A)
    (h : Exn -> M A) :
  moves R m -> (forall e, moves R (h e)) -> moves R (try_catch m h).
Proof.
  intros Hm Hh s. specialize (Hm s). unfold try_catch.
  destruct (m s) as [[a|e] s1]; rewrite state_of_pair in Hm.
  - now rewrite state_of_pair.
  - etrans; [exact Hm | apply Hh].
Qed.

Lemma moves_the_odoo {R : relation State} `{!PreOrder R} : moves R the_odoo.
Proof.
  intros s. unfold the_odoo, bind, get_state.
  destruct (this_odoo s); reflexivity.
Qed.

#[local] Instance appends_preorder (Q : FetchRequest -> Prop) :
  PreOrder (appends Q).
Proof.
  split.
  - intros s. exists []. split; [now rewrite app_nil_r | constructor].
  - intros s1 s2 s3 (n1 & H1 & F1) (n2 & H2 & F2). exists (n1 ++ n2).
    split; [now rewrite H2, H1, app_assoc | now apply Forall_app].
Qed.

Lemma appends_same_sent (Q : FetchRequest -> Prop) (s s' : State) :
  sent s' = sent s -> appends Q s s'.
Proof. intros H. exists []. split; [now rewrite app_nil_r | constructor]. Qed.

(** What [executeKw] sends, whatever the state: nothing, the login
    envelope, the execution envelope, or the one after the other. *)
Lemma moves_appends_executeKw (Q : FetchRequest -> Prop) (this : nat)
    (model : JValue) (method : string) (args : list JValue)
    (kwargs : JValue) :
  (forall o n, Q (login_request o n)) ->
  (forall o n, Q (execute_request o n model method args kwargs)) ->
  moves (appends Q) (executeKw this model method args kwargs).
Proof.
  intros Hl Hx s. destruct (heap s !! this) as [o|] eqn:Ho.
  2: { rewrite (executeKw_no_client this s _ _ _ _ Ho), state_of_pair.
       reflexivity. }
  destruct (nullish (uid o)) eqn:Hu.
  - rewrite (executeKw_without_session this o s _ _ _ _ Ho Hu). cbv zeta.
    destruct (rpc_outcome _) as [v|e]; rewrite state_of_pair;
      eexists; (split; [reflexivity|]); repeat constructor; auto.
  - rewrite (executeKw_with_session this o s _ _ _ _ Ho Hu), state_of_pair.
    eexists. split; [reflexivity|]. repeat constructor; auto.
Qed.

Lemma login_request_is_login (o : OdooClient) (n : nat) :
  is_login (login_request o n) = true.
Proof. reflexivity. Qed.

Lemma moves_login_or_call_executeKw (table : list (JValue * string))
    (this : nat) (model : JValue) (method : string) (args : list JValue)
    (kwargs : JValue) :
  (model, method) ∈ table ->
  moves (appends (login_or_call table))
    (executeKw this model method args kwargs).
Proof.
  intros Hin. apply moves_appends_executeKw.
  - intros o n. left. apply login_request_is_login.
  - intros o n. right. exists model, method. split; [exact Hin|].
    reflexivity.
Qed.

Lemma moves_appends_getOdooClient (Q : FetchRequest -> Prop)
    (props : Props) :
  moves (appends Q) (getOdooClient props).
Proof.
  intros s. rewrite getOdooClient_run, state_of_pair.
  now apply appends_same_sent.
Qed.

Lemma moves_login_or_call_create_lines (table : list (JValue * string))
    (odoo : nat) (orderId : JValue) (lines : list OrderLine) :
  (JStr "product.product", "search_read") ∈ table ->
  (JStr "sale.order.line", "create") ∈ table ->
  moves (appends (login_or_call table)) (create_lines odoo orderId lines).
Proof.
  intros Hp Hl. induction lines as [|line rest IH]; cbn [create_lines].
  - apply moves_ret.
  - apply moves_bind; [now apply moves_login_or_call_executeKw|].
    intros r. apply moves_bind; [apply moves_lift_opt|]. intros prod.
    destruct (truthy prod); cbn [negb]; [|apply moves_throw].
    apply moves_bind; [apply moves_lift_opt|]. intros prod_id.
    apply moves_bind; [now apply moves_login_or_call_executeKw|].
    intros _. exact IH.
Qed.

Lemma init_sends_nothing (props : Props) (s : State) :
  sent (state_of (init props s)) = sent s.
Proof.
  unfold init, state_of, bind, new_OdooClient, modify, server_tool,
    server_resource, ret.
  destruct (shouldIgnoreTool props "search_product_by_reference_code");
    destruct (shouldIgnoreTool props "create_sale_order"); reflexivity.
Qed.

(** X10. What each operation of an agent can ask of the backend, whatever
    the state and whatever the backend answers: beside login envelopes,
    search_product_by_reference_code only reads product.product;
    create_sale_order only reads res.partner and product.product and only
    creates sale.order and sale.order.line records; the resources only
    read (search_read on ir.model, fields_get, read and search_read on
    the model of the address); [init] sends nothing. No operation writes
    to, deletes or confirms an existing record. *)
Theorem operations_only_make_their_calls
    (props : Props) (op : Op) (s : State) :
  appends (login_or_call (calls_of op)) s (run_op props op s)
  /\ sent (run_op props OpInit s) = sent s.
Proof.
  split; [|apply init_sends_nothing].
  destruct op as [|code|tax_id confirm lines| |pathname|pathname|pathname];
    cbn [run_op calls_of]; revert s.
  - intros s. apply appends_same_sent, init_sends_nothing.
  - apply moves_try_catch; [|intros e; apply moves_ret].
    apply moves_bind; [apply moves_appends_getOdooClient|]. intros odoo.
    apply moves_bind.
    { apply moves_login_or_call_executeKw. apply list_elem_of_here. }
    intros r. apply moves_bind; [apply moves_lift_opt|]. intros product.
    destruct (truthy product); apply moves_ret.
  - apply moves_try_catch; [|intros e; apply moves_ret].
    apply moves_bind; [apply moves_appends_getOdooClient|]. intros odoo.
    apply moves_bind.
    { apply moves_login_or_call_executeKw. apply list_elem_of_here. }
    intros r. apply moves_bind; [apply moves_lift_opt|]. intros partner.
    destruct (truthy partner); cbn [negb]; [|apply moves_throw].
    apply moves_bind; [apply moves_lift_opt|]. intros partner_id.
    apply moves_bind.
    { apply moves_login_or_call_executeKw.
      rewrite !elem_of_cons. right. right. left. reflexivity. }
    intros orderId. apply moves_bind; [|intros _; apply moves_ret].
    apply moves_login_or_call_create_lines; rewrite !elem_of_cons.
    + right. left. reflexivity.
    + right. right. right. left. reflexivity.
  - apply moves_bind; [apply moves_the_odoo|]. intros odoo.
    apply moves_login_or_call_executeKw. apply list_elem_of_here.
  - apply moves_bind; [apply moves_the_odoo|]. intros odoo.
    apply moves_login_or_call_executeKw. apply list_elem_of_here.
  - apply moves_bind; [apply moves_the_odoo|]. intros odoo.
    apply moves_bind.
    { apply moves_login_or_call_executeKw. apply list_elem_of_here. }
    intros r. apply moves_bind; [apply moves_lift_opt|]. intros rec.
    apply moves_ret.
  - apply moves_bind; [apply moves_lift_opt|]. intros decoded.
    apply moves_bind; [apply moves_lift_opt|]. intros domain.
    apply moves_bind; [apply moves_the_odoo|]. intros odoo.
    apply moves_login_or_call_executeKw. apply list_elem_of_here.
Qed.

(** X11. Without a partner there is no order: when the search of the
    partner throws, or returns something without a truthy first element,
    create_sale_order stops there. It leaves the state that the search
    left, so what it sent are login envelopes and search_read calls on
    res.partner and nothing is created; when the search returned a list
    (empty, or with a falsy first element) the answer is the text of the
    error "Partner not found". *)
Theorem no_partner_no_order
    (props : Props) (tax_id : string) (confirm : bool)
    (lines : list OrderLine) (s : State) :
  partner_found (result_of (partner_search props tax_id s)) = false ->
  let s' :=
    state_of (create_sale_order_handler props tax_id confirm lines s) in
  s' = state_of (partner_search props tax_id s)
  /\ appends (login_or_call [(JStr "res.partner", "search_read")]) s s'
  /\ (forall r,
        result_of (partner_search props tax_id s) = Ok r ->
        first_of r <> None ->
        result_of (create_sale_order_handler props tax_id confirm lines s)
        = Ok (text_content
                ("Error al crear orden de venta: "
                 +:+ error_text (Error (JStr "Partner not found"))))).
Proof.
  intros Hnot s'.
  assert (Hs : s' = state_of (partner_search props tax_id s)
               /\ (forall r,
                     result_of (partner_search props tax_id s) = Ok r ->
                     first_of r <> None ->
                     result_of
                       (create_sale_order_handler props tax_id confirm lines s)
                     = Ok (text_content
                             ("Error al crear orden de venta: "
                              +:+ error_text
                                    (Error (JStr "Partner not found")))))).
  { subst s'. revert Hnot.
    unfold create_sale_order_handler, partner_search, partner_found,
      try_catch, bind, lift_opt, ret, throw.
    destruct (getOdooClient props s) as [[odoo|e] s1];
      [|intros _; split; [reflexivity | discriminate]].
    destruct (executeKw odoo _ _ _ _ s1) as [[r|e] s2];
      [|intros _; split; [reflexivity | discriminate]].
    rewrite !result_of_pair, !state_of_pair.
    destruct (first_of r) as [partner|] eqn:Hfirst.
    - intros ->. cbn [negb]. split; [reflexivity|].
      intros r' [= <-] _. reflexivity.
    - intros _. split; [reflexivity|].
      intros r' [= <-] Hn. now rewrite Hfirst in Hn. }
  destruct Hs as [Hs Hr]. split; [exact Hs|]. split; [|exact Hr].
  rewrite Hs. clear. revert s.
  apply moves_bind; [apply moves_appends_getOdooClient|]. intros odoo.
  apply moves_login_or_call_executeKw. apply list_elem_of_here.
Qed.

(** ** Further properties: the lines of an order *)

Lemma bind_assoc {A B C} (m : M A) (k : A -> M B) (k' : B -> M C)
    (s : State) :
  bind (bind m k) k' s = bind m (fun a => bind (k a) k') s.
Proof. unfold bind. now destruct (m s) as [[a|e] s1]. Qed.

Lemma bind_ext {A B} (m : M A) (k1 k2 : A -> M B) (s : State) :
  (forall a s', k1 a s' = k2 a s') -> bind m k1 s = bind m k2 s.
Proof. intros H. unfold bind. destruct (m s) as [[a|e] s1]; auto. Qed.

(** The lines are worked through in order: the lines of [l2] start from
    the state that the lines of [l1] left, and are not looked at when a
    line of [l1] threw. *)
Lemma create_lines_app (odoo : nat) (orderId : JValue)
    (l1 l2 : list OrderLine) (s : State) :
  create_lines odoo orderId (l1 ++ l2) s
  = (create_lines odoo orderId l1 ;;; create_lines odoo orderId l2) s.
Proof.
  revert s. induction l1 as [|line rest IH]; intros s; [reflexivity|].
  cbn [app create_lines].
  rewrite bind_assoc. apply bind_ext. intros r s1. cbv beta.
  rewrite bind_assoc. apply bind_ext. intros prod s2. cbv beta.
  destruct (truthy prod); cbn [negb]; [|reflexivity].
  rewrite bind_assoc. apply bind_ext. intros pid s3. cbv beta.
  rewrite bind_assoc. apply bind_ext. intros _ s4. apply IH.
Qed.

(** X12. An order is not built atomically: when the lines [done] have
    been worked through and the search of the product of the next line
    returns a list without a truthy first element, the loop throws
    "Product <code> missing" in the state that the search left. The
    requests sent for the order and for the lines [done] stay sent, and
    the lines after the missing one are never looked at. *)
Theorem missing_product_aborts_the_rest
    (odoo : nat) (orderId : JValue) (done rest : list OrderLine)
    (line : OrderLine) (s s1 s2 : State) (r p : JValue) :
  create_lines odoo orderId done s = (Ok tt, s1) ->
  product_search odoo line s1 = (Ok r, s2) ->
  first_of r = Some p ->
  truthy p = false ->
  create_lines odoo orderId (done ++ line :: rest) s
  = (Throw (Error (JStr ("Product " +:+ reference_code line +:+ " missing"))),
     s2)
  /\ exists new, sent s2 = sent s ++ new.
Proof.
  intros Hdone Hsearch Hfirst Hfalsy. split.
  - rewrite create_lines_app. unfold bind at 1. rewrite Hdone.
    cbn [create_lines]. unfold bind at 1.
    unfold product_search in Hsearch. rewrite Hsearch.
    unfold bind at 1. rewrite Hfirst. cbn [lift_opt ret].
    now rewrite Hfalsy.
  - pose proof (moves_history_create_lines odoo orderId done s) as H1.
    rewrite Hdone, state_of_pair in H1.
    pose proof (moves_history_executeKw odoo (JStr "product.product")
                  "search_read"
                  [JArr [JArr [JStr "default_code"; JStr "=";
                               JStr (reference_code line)]]]
                  (JObj [("fields", JArr [JStr "id"]);
                         ("limit", JNum (Num 1))]) s1) as H2.
    unfold product_search in Hsearch. rewrite Hsearch, state_of_pair in H2.
    destruct (history_trans _ _ _ H1 H2) as [Hnew _]. exact Hnew.
Qed.

(** ** Further properties: the session of a tool invocation *)

Lemma steady_ret {A} (this : nat) (a : A) : steady this (ret a).
Proof. intros s Hs. split; [exact Hs | reflexivity]. Qed.

Lemma steady_throw {A} (this : nat) (e : Exn) : steady this (@throw A e).
Proof. intros s Hs. split; [exact Hs | reflexivity]. Qed.

Lemma steady_lift_opt {A} (this : nat) (e : Exn) (o : option A) :
  steady this (lift_opt e o).
Proof. destruct o; [apply steady_ret | apply steady_throw]. Qed.

Lemma steady_bind {A B} (this : nat) (m : M A) (k : A -> M B) :
  steady this m -> (forall a, steady this (k a)) -> steady this (bind m k).
Proof.
  intros Hm Hk s Hs. destruct (Hm s Hs) as [H1 H2]. unfold bind.
  destruct (m s) as [[a|e] s1]; rewrite state_of_pair in H1, H2.
  - destruct (Hk a s1 H1) as [H3 H4]. split; [exact H3|].
    etrans; eassumption.
  - rewrite state_of_pair. split; assumption.
Qed.

Lemma steady_executeKw (this : nat) (model : JValue) (method : string)
    (args : list JValue) (kwargs : JValue) :
  steady this (executeKw this model method args kwargs).
Proof.
  intros s (o & Ho & Hu).
  rewrite (executeKw_with_session this o s _ _ _ _ Ho Hu), state_of_pair.
  split.
  - exists o. split; assumption.
  - eexists. split; [reflexivity|]. repeat constructor.
Qed.

Lemma steady_create_lines (this : nat) (orderId : JValue)
    (lines : list OrderLine) :
  steady this (create_lines this orderId lines).
Proof.
  induction lines as [|line rest IH]; cbn [create_lines].
  - apply steady_ret.
  - apply steady_bind; [apply steady_executeKw|]. intros r.
    apply steady_bind; [apply steady_lift_opt|]. intros prod.
    destruct (truthy prod); cbn [negb]; [|apply steady_throw].
    apply steady_bind; [apply steady_lift_opt|]. intros prod_id.
    apply steady_bind; [apply steady_executeKw|]. intros _. exact IH.
Qed.

Lemma logins_app (l1 l2 : list FetchRequest) :
  logins (l1 ++ l2) = logins l1 + logins l2.
Proof. unfold logins. now rewrite filter_app, length_app. Qed.

Lemma logins_none (l : list FetchRequest) :
  Forall (fun r => is_login r = false) l -> logins l = 0.
Proof.
  induction 1 as [|r l Hr _ IH]; [reflexivity|].
  now rewrite logins_cons, Hr, IH.
Qed.

(** A computation that creates its client with [getOdooClient], calls
    [executeKw] on it and then only works on that client: what it does
    when the login of the new client is answered. *)
Lemma fresh_client_session {A} (props : Props) (s : State)
    (model : JValue) (method : string) (args : list JValue) (kwargs : JValue)
    (k : nat -> JValue -> M A) :
  let this := length (heap s) in
  let o := {| uid := JNull;
              cfg := spread_cfg (odooConfig (getConfigFromContext props)) |} in
  let lreq := login_request o (length (sent s)) in
  let m := (odoo <- getOdooClient props ;;
            r <- executeKw odoo model method args kwargs ;;
            k odoo r) in
  (forall e,
      rpc_outcome (backend (sent s) lreq) = Throw e ->
      m s = (Throw e,
             set_sent (sent s ++ [lreq])
               (set_this_odoo (Some this) (set_heap (heap s ++ [o]) s))))
  /\ (forall v,
        rpc_outcome (backend (sent s) lreq) = Ok v ->
        nullish v = false ->
        (forall r, steady this (k this r)) ->
        logins (sent_since s (state_of (m s))) = 1).
Proof.
  intros this o lreq m.
  set (s1 := set_this_odoo (Some this) (set_heap (heap s ++ [o]) s)).
  assert (Ho : heap s1 !! this = Some o).
  { subst s1 this. cbn [heap set_this_odoo set_heap].
    apply list_lookup_middle. reflexivity. }
  pose proof (executeKw_without_session this o s1 model method args kwargs
                Ho eq_refl) as Hrun.
  cbv zeta in Hrun. change (sent s1) with (sent s) in Hrun.
  fold lreq in Hrun.
  assert (Hm : m s = bind (executeKw this model method args kwargs)
                       (k this) s1).
  { subst m. unfold bind at 1. rewrite getOdooClient_run. reflexivity. }
  split.
  - intros e He. rewrite Hm. unfold bind. rewrite Hrun, He. reflexivity.
  - intros v Hv Hnn Hk. rewrite Hm. unfold bind. rewrite Hrun, Hv.
    cbv beta iota.
    set (xreq := execute_request _ _ _ _ _ _).
    set (s2 := set_sent _ _).
    assert (Hs2 : has_session this s2).
    { exists {| uid := v; cfg := cfg o |}. split; [|exact Hnn].
      subst s2. cbn [heap set_sent set_heap].
      apply list_lookup_insert_eq. eapply lookup_lt_Some, Ho. }
    assert (Hfin : forall s3,
               appends (fun r => is_login r = false) s2 s3 ->
               logins (sent_since s s3) = 1).
    { intros s3 (new & Hnew & Hall).
      rewrite (sent_since_app s s3 ([lreq; xreq] ++ new)).
      - rewrite logins_app, (logins_none new Hall). reflexivity.
      - rewrite Hnew. subst s2. cbn [sent set_sent].
        now rewrite <- app_assoc. }
    destruct (rpc_outcome (backend (sent s ++ [lreq]) xreq)) as [r|e].
    + apply Hfin. exact (proj2 (Hk r s2 Hs2)).
    + rewrite state_of_pair. apply Hfin. reflexivity.
Qed.

(** X13. A tool invocation whose login is answered with an identity
    (a value other than null and undefined) sends exactly one login
    envelope, however many lines the order has: the client created for
    the invocation keeps the identity until the invocation ends. *)
Theorem tool_invocation_logs_in_once
    (props : Props) (s : State) (v : JValue) :
  rpc_outcome
    (backend (sent s)
       (login_request
          {| uid := JNull;
             cfg := spread_cfg (odooConfig (getConfigFromContext props)) |}
          (length (sent s)))) = Ok v ->
  nullish v = false ->
  (forall code,
      logins (sent_since s (state_of (search_product_handler props code s)))
      = 1)
  /\ (forall tax_id confirm lines,
        logins
          (sent_since s
             (state_of
                (create_sale_order_handler props tax_id confirm lines s)))
        = 1).
Proof.
  intros Hv Hnn. split.
  - intros code. unfold search_product_handler.
    rewrite try_catch_ret_state.
    apply (proj2 (fresh_client_session props s _ _ _ _
                    (fun _ r =>
                       product <- lift_opt TypeError (first_of r) ;;
                       if negb (truthy product) then
                         ret (text_content
                                (JSON_stringify
                                   (JObj [("error",
                                           JStr "Product not found")])))
                       else ret (text_content (JSON_stringify product))))
             v Hv Hnn).
    intros r. apply steady_bind; [apply steady_lift_opt|]. intros product.
    destruct (truthy product); apply steady_ret.
  - intros tax_id confirm lines. unfold create_sale_order_handler.
    rewrite try_catch_ret_state.
    apply (proj2 (fresh_client_session props s _ _ _ _
                    (fun odoo r =>
                       partner <- lift_opt TypeError (first_of r) ;;
                       if negb (truthy partner) then
                         throw (Error (JStr "Partner not found"))
                       else
                         partner_id <- lift_opt TypeError
                                         (get_prop partner "id") ;;
                         orderId <- executeKw odoo (JStr "sale.order")
                                      "create"
                                      [JObj [("partner_id", partner_id)]]
                                      (JObj []) ;;
                         create_lines odoo orderId lines ;;;
                         ret (text_content
                                (JSON_stringify
                                   (JObj [("order_id", orderId);
                                          ("confirmed", JBool confirm)])))))
             v Hv Hnn).
    intros r. apply steady_bind; [apply steady_lift_opt|]. intros partner.
    destruct (truthy partner); cbn [negb]; [|apply steady_throw].
    apply steady_bind; [apply steady_lift_opt|]. intros partner_id.
    apply steady_bind; [apply steady_executeKw|]. intros orderId.
    apply steady_bind; [apply steady_create_lines|]. intros _.
    apply steady_ret.
Qed.

(** X14. A login that fails is reported by the tool and nothing else is
    asked of the backend: when the login of the client created for the
    invocation throws [e], the tool answers the text of [e] behind its
    prefix, the login envelope is the only request sent, and the new
    client, without identity, stays behind [this.odoo]. *)
Theorem failed_login_is_reported_by_the_tool
    (props : Props) (s : State) (e : Exn) :
  let o := {| uid := JNull;
              cfg := spread_cfg (odooConfig (getConfigFromContext props)) |} in
  let lreq := login_request o (length (sent s)) in
  let s' := set_sent (sent s ++ [lreq])
              (set_this_odoo (Some (length (heap s)))
                 (set_heap (heap s ++ [o]) s)) in
  rpc_outcome (backend (sent s) lreq) = Throw e ->
  (forall code,
      search_product_handler props code s
      = (Ok (text_content ("Error al buscar producto: " +:+ error_text e)),
         s'))
  /\ (forall tax_id confirm lines,
        create_sale_order_handler props tax_id confirm lines s
        = (Ok (text_content
                 ("Error al crear orden de venta: " +:+ error_text e)),
           s')).
Proof.
  intros o lreq s' He. split.
  - intros code. unfold search_product_handler, try_catch.
    rewrite (proj1 (fresh_client_session props s _ _ _ _
                      (fun _ r =>
                         product <- lift_opt TypeError (first_of r) ;;
                         if negb (truthy product) then
                           ret (text_content
                                  (JSON_stringify
                                     (JObj [("error",
                                             JStr "Product not found")])))
                         else ret (text_content (JSON_stringify product))))
               e He).
    reflexivity.
  - intros tax_id confirm lines.
    unfold create_sale_order_handler, try_catch.
    rewrite (proj1 (fresh_client_session props s _ _ _ _
                      (fun odoo r =>
                         partner <- lift_opt TypeError (first_of r) ;;
                         if negb (truthy partner) then
                           throw (Error (JStr "Partner not found"))
                         else
                           partner_id <- lift_opt TypeError
                                           (get_prop partner "id") ;;
                           orderId <- executeKw odoo (JStr "sale.order")
                                        "create"
                                        [JObj [("partner_id", partner_id)]]
                                        (JObj []) ;;
                           create_lines odoo orderId lines ;;;
                           ret (text_content
                                  (JSON_stringify
                                     (JObj [("order_id", orderId);
                                            ("confirmed",
                                             JBool confirm)])))))
               e He).
    reflexivity.
Qed.

(** ** Further properties: the helpers of [BaseMCP] *)

Lemma bind_ret_r {A} (m : M A) (s : State) : bind m ret s = m s.
Proof. unfold bind, ret. now destruct (m s) as [[a|e] s1]. Qed.

(** Every helper creates its client, and its first request is the login
    of that client. *)
Lemma base_call_run (props : Props) (c : BaseCall) (s : State) :
  let o := {| uid := JNull;
              cfg := spread_cfg (odooConfig (getConfigFromContext props)) |} in
  let s' := state_of (base_call props c s) in
  (exists rest, sent s' = sent s ++ login_request o (length (sent s)) :: rest)
  /\ this_odoo s' = Some (length (heap s))
  /\ length (heap s') = S (length (heap s)).
Proof.
  intros o s'.
  assert (Hgen : forall model method args kwargs
                   (k : nat -> JValue -> M JValue),
             (forall odoo r s1, state_of (k odoo r s1) = s1) ->
             let s2 :=
               state_of
                 ((odoo <- getOdooClient props ;;
                   r <- executeKw odoo model method args kwargs ;;
                   k odoo r) s) in
             (exists rest,
                sent s2 = sent s ++ login_request o (length (sent s)) :: rest)
             /\ this_odoo s2 = Some (length (heap s))
             /\ length (heap s2) = S (length (heap s))).
  { intros model method args kwargs k Hk s2.
    destruct (fresh_client_invocation props s model method args kwargs k)
      as ([rest Hrest] & Hthis & Hlen & _).
    { intros r s1 Hs1. rewrite Hk. now apply only_client_changed_refl. }
    fold s2 in Hrest, Hthis, Hlen. fold o in Hrest.
    split; [|split; assumption]. exists rest.
    assert (Hh : history s s2).
    { apply (moves_history_bind (getOdooClient props));
        [apply moves_history_getOdooClient|].
      intros odoo. apply moves_history_bind;
        [apply moves_history_executeKw|].
      intros r s1. rewrite Hk. apply history_refl. }
    destruct Hh as [[new Hnew] _]. unfold sent_since in Hrest.
    rewrite Hnew, drop_app_length in Hrest. now rewrite Hnew, Hrest. }
  subst s'.
  destruct c as [vat|code|partnerId|orderId productId qty]; cbn [base_call].
  - apply (Hgen _ _ _ _ (fun _ r => lift_opt TypeError (first_of r))).
    intros odoo r s1. now destruct (first_of r).
  - apply (Hgen _ _ _ _ (fun _ r => lift_opt TypeError (first_of r))).
    intros odoo r s1. now destruct (first_of r).
  - unfold createBasicSaleOrder.
    erewrite bind_ext; [|intros odoo s1; symmetry; apply bind_ret_r].
    apply (Hgen _ _ _ _ (fun _ r => ret r)). reflexivity.
  - unfold createOrderLine.
    erewrite bind_ext; [|intros odoo s1; symmetry; apply bind_ret_r].
    apply (Hgen _ _ _ _ (fun _ r => ret r)). reflexivity.
Qed.

Lemma run_base_calls_cons (props : Props) (c : BaseCall)
    (rest : list BaseCall) (s : State) :
  run_base_calls props (c :: rest) s
  = run_base_calls props rest (state_of (base_call props c s)).
Proof.
  cbn [run_base_calls]. unfold bind, try_catch, ret, state_of.
  destruct (base_call props c s) as [[r|e] s1]; reflexivity.
Qed.

Lemma run_base_calls_sessions (props : Props) (calls : list BaseCall) :
  forall s,
    let s' := state_of (run_base_calls props calls s) in
    (exists new, sent s' = sent s ++ new /\ length calls <= logins new)
    /\ length (heap s') = length (heap s) + length calls.
Proof.
  induction calls as [|c rest IH]; intros s s'.
  - subst s'. cbn. split; [|lia]. exists []. rewrite app_nil_r.
    split; [reflexivity|]. cbn. lia.
  - subst s'. rewrite run_base_calls_cons.
    destruct (base_call_run props c s) as ([new1 H1] & _ & Hlen1).
    destruct (IH (state_of (base_call props c s)))
      as ((new2 & H2 & Hlog) & Hlen2).
    split.
    + eexists. rewrite H2, H1, <- app_assoc. split; [reflexivity|].
      rewrite logins_app, logins_cons, login_request_is_login.
      cbn [length]. lia.
    + rewrite Hlen2, Hlen1. cbn [length]. lia.
Qed.

(** X15. The helpers of [BaseMCP] never share a session: each call of
    findPartnerByVat, findProductByCode, createBasicSaleOrder or
    createOrderLine creates a client of its own and logs in again, so a
    run of n helper calls leaves n more clients and sends at least n login
    envelopes, whether the calls return or throw. *)
Theorem base_helpers_log_in_on_every_call
    (props : Props) (calls : list BaseCall) (s : State) :
  let s' := state_of (run_base_calls props calls s) in
  length (heap s') = length (heap s) + length calls
  /\ length calls <= logins (sent_since s s').
Proof.
  intros s'.
  destruct (run_base_calls_sessions props calls s)
    as ((new & Hnew & Hlog) & Hlen).
  fold s' in Hnew, Hlen. split; [exact Hlen|].
  now rewrite (sent_since_app s s' new Hnew).
Qed.

(** ** Further properties: the addresses of the resources *)

Lemma string_app_assoc (a b c : string) : (a +:+ b) +:+ c = a +:+ (b +:+ c).
Proof.
  induction a as [|x a IH]; [reflexivity|].
  change (String x ((a +:+ b) +:+ c) = String x (a +:+ (b +:+ c))).
  now rewrite IH.
Qed.

Lemma string_app_nil_r (a : string) : a +:+ "" = a.
Proof.
  induction a as [|x a IH]; [reflexivity|].
  change (String x (a +:+ "") = String x a). now rewrite IH.
Qed.

Lemma split_acc_free (sep : ascii) (a cur : string) :
  free_of sep a = true -> split_acc sep a cur = [cur +:+ a].
Proof.
  revert cur. induction a as [|x a IH]; intros cur Hf.
  - cbn [split_acc]. now rewrite string_app_nil_r.
  - cbn [free_of] in Hf. apply andb_true_iff in Hf as [Hx Ha].
    apply negb_true_iff in Hx. cbn [split_acc]. rewrite Hx, (IH _ Ha).
    now rewrite string_app_assoc.
Qed.

Lemma split_acc_sep (sep : ascii) (a rest cur : string) :
  free_of sep a = true ->
  split_acc sep (a +:+ String sep rest) cur
  = (cur +:+ a) :: split_acc sep rest "".
Proof.
  revert cur. induction a as [|x a IH]; intros cur Hf.
  - change ("" +:+ String sep rest) with (String sep rest).
    cbn [split_acc]. now rewrite Ascii.eqb_refl, string_app_nil_r.
  - cbn [free_of] in Hf. apply andb_true_iff in Hf as [Hx Ha].
    apply negb_true_iff in Hx.
    change (String x a +:+ String sep rest)
      with (String x (a +:+ String sep rest)).
    cbn [split_acc]. rewrite Hx, (IH _ Ha). now rewrite string_app_assoc.
Qed.

(** [parts.join("/").split("/")] gives [parts] back when no part holds
    the separator. *)
Lemma split_concat (sep : ascii) (parts : list string) :
  parts <> [] ->
  Forall (fun p => free_of sep p = true) parts ->
  split sep (String.concat (String sep "") parts) = parts.
Proof.
  intros Hne Hall. unfold split.
  induction Hall as [|p rest Hp Hrest IH]; [contradiction|].
  destruct rest as [|q rest].
  - cbn. now rewrite (split_acc_free sep p "" Hp).
  - cbn [String.concat]. change (String sep "" +:+ ?x) with (String sep x).
    rewrite (split_acc_sep sep p _ "" Hp). f_equal.
    apply IH. discriminate.
Qed.

(** X16. How an address names its model. For path segments that hold no
    "/": the model resource reads the fields of the last segment of the
    path, whatever comes before it; the record resource reads, on the
    model of the first segment, the record whose identifier is the number
    of the second segment; the search resource decodes the second segment
    and searches on the model of the first; both ignore any further
    segment. *)
Theorem resource_addresses_name_their_model
    (before more : list string) (model id : string) (s : State) :
  Forall (fun p => free_of "/" p = true) before ->
  Forall (fun p => free_of "/" p = true) more ->
  free_of "/" model = true ->
  free_of "/" id = true ->
  let tail := String.concat "/" ("" :: model :: id :: more) in
  model_handler (String.concat "/" (before ++ [model])) s
  = (odoo <- the_odoo ;;
     executeKw odoo (JStr model) "fields_get"
       [JArr []; JArr [JStr "string"; JStr "type"; JStr "required"]]
       (JObj [])) s
  /\ record_handler tail s
     = (odoo <- the_odoo ;;
        r <- executeKw odoo (JStr model) "read"
               [JArr [Number_ (JStr id)]] (JObj []) ;;
        rec <- lift_opt TypeError (first_of r) ;;
        ret (coalesce rec (JObj []))) s
  /\ search_handler tail s
     = (decoded <- lift_opt URIError (decodeURIComponent id) ;;
        domain <- lift_opt SyntaxError (JSON_parse decoded) ;;
        odoo <- the_odoo ;;
        executeKw odoo (JStr model) "search_read" [domain] (JObj [])) s.
Proof.
  intros Hbefore Hmore Hmodel Hid tail.
  assert (Htail : split "/" tail = "" :: model :: id :: more).
  { apply (split_concat "/"); [discriminate|].
    repeat constructor; assumption. }
  split; [|split].
  - unfold model_handler.
    rewrite (split_concat "/" (before ++ [model])).
    + now rewrite last_snoc.
    + now destruct before.
    + apply Forall_app. split; [exact Hbefore|]. now constructor.
  - unfold record_handler. now rewrite Htail.
  - unfold search_handler. now rewrite Htail.
Qed.

(** ** Further properties: the number of requests *)

Lemma within_same_sent (n : nat) (s s' : State) :
  sent s' = sent s -> within n s s'.
Proof.
  intros H. exists []. rewrite app_nil_r. split; [exact H|].
  cbn. split; lia.
Qed.

Lemma moves_within_ret {A} (n : nat) (a : A) : moves (within n) (ret a).
Proof. intros s. now apply within_same_sent. Qed.

Lemma moves_within_throw {A} (n : nat) (e : Exn) :
  moves (within n) (@throw A e).
Proof. intros s. now apply within_same_sent. Qed.

Lemma moves_within_lift_opt {A} (n : nat) (e : Exn) (o : option A) :
  moves (within n) (lift_opt e o).
Proof. destruct o; [apply moves_within_ret | apply moves_within_throw]. Qed.

Lemma moves_within_bind {A B} (n1 n2 n : nat) (m : M A) (k : A -> M B) :
  n1 + n2 <= n ->
  moves (within n1) m -> (forall a, moves (within n2) (k a)) ->
  moves (within n) (bind m k).
Proof.
  intros Hn Hm Hk s. destruct (Hm s) as (new1 & H1 & Hl1 & Hg1).
  unfold bind. destruct (m s) as [[a|e] s1]; rewrite state_of_pair in H1.
  - destruct (Hk a s1) as (new2 & H2 & Hl2 & Hg2).
    exists (new1 ++ new2). rewrite H2, H1, <- app_assoc.
    split; [reflexivity|]. rewrite length_app, logins_app. split; lia.
  - rewrite state_of_pair. exists new1. split; [exact H1|]. split; lia.
Qed.

Lemma moves_within_try_catch {A} (n : nat) (m : M A) (h : Exn -> A) :
  moves (within n) m -> moves (within n) (try_catch m (fun e => ret (h e))).
Proof. intros Hm s. rewrite try_catch_ret_state. apply Hm. Qed.

Lemma moves_within_the_odoo (n : nat) : moves (within n) the_odoo.
Proof.
  intros s. apply within_same_sent. unfold the_odoo, bind, get_state.
  now destruct (this_odoo s).
Qed.

Lemma is_login_execute_request (o : OdooClient) (n : nat) (model : JValue)
    (method : string) (args : list JValue) (kwargs : JValue) :
  is_login (execute_request o n model method args kwargs) = false.
Proof. reflexivity. Qed.

(** One call: one or two requests, at most one of them a login. *)
Lemma moves_within_executeKw (this : nat) (model : JValue) (method : string)
    (args : list JValue) (kwargs : JValue) :
  moves (within 1) (executeKw this model method args kwargs).
Proof.
  intros s. destruct (heap s !! this) as [o|] eqn:Ho.
  2: { rewrite (executeKw_no_client this s _ _ _ _ Ho), state_of_pair.
       now apply within_same_sent. }
  destruct (nullish (uid o)) eqn:Hu.
  - rewrite (executeKw_without_session this o s _ _ _ _ Ho Hu). cbv zeta.
    destruct (rpc_outcome _) as [v|e]; rewrite state_of_pair;
      eexists; (split; [reflexivity|]);
      rewrite ?logins_cons, ?login_request_is_login,
        ?is_login_execute_request; cbn; lia.
  - rewrite (executeKw_with_session this o s _ _ _ _ Ho Hu), state_of_pair.
    eexists. split; [reflexivity|].
    rewrite logins_cons, is_login_execute_request. cbn. lia.
Qed.

Lemma moves_within_create_lines (odoo : nat) (orderId : JValue)
    (lines : list OrderLine) :
  moves (within (2 * length lines)) (create_lines odoo orderId lines).
Proof.
  induction lines as [|line rest IH]; cbn [create_lines].
  - apply moves_within_ret.
  - apply (moves_within_bind 1 (1 + 2 * length rest));
      [cbn [length]; lia | apply moves_within_executeKw |].
    intros r. apply (moves_within_bind 0 (1 + 2 * length rest));
      [lia | apply moves_within_lift_opt |].
    intros prod. destruct (truthy prod); cbn [negb];
      [|apply moves_within_throw].
    apply (moves_within_bind 0 (1 + 2 * length rest));
      [lia | apply moves_within_lift_opt |].
    intros prod_id. apply (moves_within_bind 1 (2 * length rest));
      [lia | apply moves_within_executeKw |].
    intros _. exact IH.
Qed.

Lemma moves_within_getOdooClient (props : Props) :
  moves (within 0) (getOdooClient props).
Proof.
  intros s. rewrite getOdooClient_run, state_of_pair.
  now apply within_same_sent.
Qed.

(** X17. The requests of an operation are bounded, whatever the backend
    answers: a call of [executeKw] sends at most two requests, at most one
    of them a login envelope, and nothing is retried. [init] sends
    nothing; search_product_by_reference_code and each resource make one
    call; create_sale_order on n lines makes at most 2 + 2n calls, so at
    most 4 + 4n requests. *)
Theorem operation_request_budget (props : Props) (op : Op) (s : State) :
  within (calls_bound op) s (run_op props op s).
Proof.
  destruct op as [|code|tax_id confirm lines| |pathname|pathname|pathname];
    cbn [run_op calls_bound]; revert s.
  - intros s. apply within_same_sent, init_sends_nothing.
  - apply moves_within_try_catch.
    apply (moves_within_bind 0 1); [lia | apply moves_within_getOdooClient |].
    intros odoo.
    apply (moves_within_bind 1 0); [lia | apply moves_within_executeKw |].
    intros r.
    apply (moves_within_bind 0 0); [lia | apply moves_within_lift_opt |].
    intros product. destruct (truthy product); apply moves_within_ret.
  - apply moves_within_try_catch.
    apply (moves_within_bind 0 (2 + 2 * length lines));
      [lia | apply moves_within_getOdooClient |].
    intros odoo.
    apply (moves_within_bind 1 (1 + 2 * length lines));
      [lia | apply moves_within_executeKw |].
    intros r.
    apply (moves_within_bind 0 (1 + 2 * length lines));
      [lia | apply moves_within_lift_opt |].
    intros partner. destruct (truthy partner); cbn [negb];
      [|apply moves_within_throw].
    apply (moves_within_bind 0 (1 + 2 * length lines));
      [lia | apply moves_within_lift_opt |].
    intros partner_id.
    apply (moves_within_bind 1 (2 * length lines));
      [lia | apply moves_within_executeKw |].
    intros orderId.
    apply (moves_within_bind (2 * length lines) 0);
      [lia | apply moves_within_create_lines |].
    intros _. apply moves_within_ret.
  - apply (moves_within_bind 0 1); [lia | apply moves_within_the_odoo |].
    intros odoo. apply moves_within_executeKw.
  - apply (moves_within_bind 0 1); [lia | apply moves_within_the_odoo |].
    intros odoo. apply moves_within_executeKw.
  - apply (moves_within_bind 0 1); [lia | apply moves_within_the_odoo |].
    intros odoo.
    apply (moves_within_bind 1 0); [lia | apply moves_within_executeKw |].
    intros r.
    apply (moves_within_bind 0 0); [lia | apply moves_within_lift_opt |].
    intros rec. apply moves_within_ret.
  - apply (moves_within_bind 0 1); [lia | apply moves_within_lift_opt |].
    intros decoded.
    apply (moves_within_bind 0 1); [lia | apply moves_within_lift_opt |].
    intros domain.
    apply (moves_within_bind 0 1); [lia | apply moves_within_the_odoo |].
    intros odoo. apply moves_within_executeKw.
Qed.

(** ** Further properties: what a call returns *)

(** A result comes out of an exchange only when the response is ok, its
    body is JSON with a falsy [error] member, and the result is its
    [result] member. *)
Lemma rpc_outcome_Ok (r : FetchResult) (v : JValue) :
  rpc_outcome r = Ok v ->
  exists status statusText data err,
    r = Responded true status statusText (Some data)
    /\ get_prop data "error" = Some err
    /\ truthy err = false
    /\ get_prop data "result" = Some v.
Proof.
  destruct r as [|ok status statusText [data|]]; cbn [rpc_outcome];
    [discriminate| |destruct ok; discriminate].
  destruct ok; cbn [negb]; [|discriminate].
  destruct (get_prop data "error") as [err|] eqn:He; [|discriminate].
  destruct (truthy err) eqn:Ht; [discriminate|].
  destruct (get_prop data "result") as [res|] eqn:Hr; [|discriminate].
  intros [= ->]. exists status, statusText, data, err. repeat split;
    assumption.
Qed.

(** X18. A call returns only what the backend returned for it: when
    [executeKw] returns [v], the last request sent is the execution
    envelope of the call, and the backend answered it (given the requests
    sent before it) with an ok status and a JSON body whose [error] member
    is falsy and whose [result] member is [v]. A failed login, a non-ok
    status, an unparseable body or a truthy [error] never yields a
    value. *)
Theorem executeKw_returns_only_backend_results
    (this : nat) (model : JValue) (method : string) (args : list JValue)
    (kwargs : JValue) (s : State) (v : JValue) :
  result_of (executeKw this model method args kwargs s) = Ok v ->
  exists before o n status statusText data err,
    sent (state_of (executeKw this model method args kwargs s))
    = before ++ [execute_request o n model method args kwargs]
    /\ (before = sent s \/ exists l, is_login l = true /\ before = sent s ++ [l])
    /\ backend before (execute_request o n model method args kwargs)
       = Responded true status statusText (Some data)
    /\ get_prop data "error" = Some err
    /\ truthy err = false
    /\ get_prop data "result" = Some v.
Proof.
  destruct (heap s !! this) as [o|] eqn:Ho.
  2: { rewrite (executeKw_no_client this s _ _ _ _ Ho). discriminate. }
  destruct (nullish (uid o)) eqn:Hu.
  - rewrite (executeKw_without_session this o s _ _ _ _ Ho Hu). cbv zeta.
    destruct (rpc_outcome (backend (sent s) _)) as [u|e]; [|discriminate].
    rewrite result_of_pair, state_of_pair. intros Hv.
    destruct (rpc_outcome_Ok _ _ Hv)
      as (status & statusText & data & err & Hb & He & Ht & Hr).
    exists (sent s ++ [login_request o (length (sent s))]),
      {| uid := u; cfg := cfg o |}, (S (length (sent s))),
      status, statusText, data, err.
    cbn [sent set_sent]. split; [now rewrite <- app_assoc|].
    split; [right; eexists; split; [apply login_request_is_login|reflexivity]|].
    repeat split; assumption.
  - rewrite (executeKw_with_session this o s _ _ _ _ Ho Hu).
    rewrite result_of_pair, state_of_pair. intros Hv.
    destruct (rpc_outcome_Ok _ _ Hv)
      as (status & statusText & data & err & Hb & He & Ht & Hr).
    exists (sent s), o, (length (sent s)), status, statusText, data, err.
    cbn [sent set_sent]. split; [reflexivity|]. split; [left; reflexivity|].
    repeat split; assumption.
Qed.

End Runtime.

(** ** The theorems at concrete requests *)

(** The gate on the allow-list ["search_product_by_reference_code"]. *)
Lemma gate_admits_iff_open_or_listed_witness :
  shouldIgnoreTool Sample.gated_props "create_sale_order" = true
  /\ tools (state_of (init Sample.gated_props fresh_state))
       !! "create_sale_order" = None.
Proof.
  split; [reflexivity|].
  apply (proj1 (proj2 (proj2
           (gate_admits_iff_open_or_listed Sample.gated_props
              "create_sale_order")))).
  reflexivity.
Defined.

(** Three calls on a new client, login answered with the identity 7. *)
Lemma one_login_per_client_witness :
  rpc_outcome
    (Sample.login7 []
       (login_request Sample.uuid
          {| uid := JNull; cfg := spread_cfg Sample.cfg0 |} 0))
    = Ok (JNum (Num 7))
  /\ nullish (JNum (Num 7)) = false
  /\ logins
       (sent_since (state_of (new_OdooClient Sample.cfg0 fresh_state))
          (state_of
             (run_calls Sample.uuid Sample.login7 0
                [Sample.read_call; Sample.read_call; Sample.read_call]
                (state_of (new_OdooClient Sample.cfg0 fresh_state))))) = 1.
Proof.
  split; [reflexivity|]. split; [reflexivity|].
  exact (proj1
           (proj2
              (one_login_per_client Sample.uuid Sample.login7 Sample.cfg0
                 fresh_state)
              (JNum (Num 7)) Sample.read_call
              [Sample.read_call; Sample.read_call] eq_refl eq_refl)).
Defined.

(** The claim of the specification fails here: the login returns no identity
    (the backend answers [null] without an error) and the call does not
    fail, it returns the result of the execution envelope. *)
Lemma null_login_does_not_fail_the_call :
  rpc_outcome
    (Sample.login_null []
       (login_request Sample.uuid
          {| uid := JNull; cfg := spread_cfg Sample.cfg0 |} 0))
    = Ok JNull
  /\ result_of
       (executeKw Sample.uuid Sample.login_null 0 (JStr "res.partner") "read"
          [JArr [JNum (Num 5)]] (JObj [])
          (state_of (new_OdooClient Sample.cfg0 fresh_state)))
     = Ok (JArr [])
  /\ ~ (exists e,
          result_of
            (executeKw Sample.uuid Sample.login_null 0 (JStr "res.partner")
               "read" [JArr [JNum (Num 5)]] (JObj [])
               (state_of (new_OdooClient Sample.cfg0 fresh_state)))
          = Throw e).
Proof.
  split; [reflexivity|]. split; [reflexivity|].
  intros [e He]. vm_compute in He. discriminate.
Qed.

(** A login answered with a status 500. *)
Lemma failed_login_is_retried_witness :
  heap (state_of (new_OdooClient Sample.cfg0 fresh_state)) !! 0
    = Some {| uid := JNull; cfg := spread_cfg Sample.cfg0 |}
  /\ rpc_outcome
       (Sample.login_500 []
          (login_request Sample.uuid
             {| uid := JNull; cfg := spread_cfg Sample.cfg0 |} 0))
     = Throw (Error (JStr "HTTP 500: Internal Server Error"))
  /\ result_of
       (executeKw Sample.uuid Sample.login_500 0 (JStr "res.partner") "read"
          [JArr [JNum (Num 5)]] (JObj [])
          (state_of (new_OdooClient Sample.cfg0 fresh_state)))
     = Throw (Error (JStr "HTTP 500: Internal Server Error")).
Proof.
  split; [reflexivity|]. split; [reflexivity|].
  exact (proj1
           (proj1
              (failed_login_is_retried Sample.uuid Sample.login_500 0
                 {| uid := JNull; cfg := spread_cfg Sample.cfg0 |}
                 (state_of (new_OdooClient Sample.cfg0 fresh_state))
                 (JStr "res.partner") "read" [JArr [JNum (Num 5)]] (JObj [])
                 eq_refl eq_refl)
              (Error (JStr "HTTP 500: Internal Server Error")) eq_refl)).
Defined.

(** The claim of the specification fails here: the four mandatory headers
    are present, odoo-url with an empty value, and every backend field of
    the bundle is the process-wide setting, not the header value. *)
Lemma empty_mandatory_header_falls_back :
  (Sample.empty_url_headers !! "odoo-url" = Some ""
   /\ Sample.empty_url_headers !! "odoo-db" = Some "d"
   /\ Sample.empty_url_headers !! "odoo-user" = Some "u"
   /\ Sample.empty_url_headers !! "odoo-pass" = Some "p")
  /\ baseUrl
       (odooConfig
          (resolve Sample.JSON_parse Sample.empty_url_headers
             Sample.tenant_env)) = "https://erp.example"
  /\ db
       (odooConfig
          (resolve Sample.JSON_parse Sample.empty_url_headers
             Sample.tenant_env)) = "prod"
  /\ db
       (odooConfig
          (resolve Sample.JSON_parse Sample.empty_url_headers
             Sample.tenant_env)) <> "d".
Proof.
  split; [repeat split; reflexivity|].
  split; [reflexivity|]. split; [reflexivity|].
  vm_compute. discriminate.
Qed.

(** A request with the four mandatory headers, under other settings. *)
Lemma backend_fields_from_one_source_witness :
  Sample.backend_headers !! "odoo-url" = Some "https://x"
  /\ baseUrl
       (odooConfig
          (resolve Sample.JSON_parse Sample.backend_headers Sample.tenant_env))
     = "https://x"
  /\ db
       (odooConfig
          (resolve Sample.JSON_parse Sample.backend_headers Sample.tenant_env))
     = "d".
Proof.
  split; [reflexivity|].
  pose proof
    (proj1
       (backend_fields_from_one_source Sample.JSON_parse
          Sample.backend_headers Sample.tenant_env)
       "https://x" "d" "u" "p"
       eq_refl ltac:(discriminate) eq_refl ltac:(discriminate)
       eq_refl ltac:(discriminate) eq_refl ltac:(discriminate))
    as (Hurl & Hdb & _).
  split; [exact Hurl | exact Hdb].
Defined.

(** The claim of the specification fails here: the to-use header is not
    valid JSON, the request carries no backend header, and the bundle's
    enabledOperations is the allow-list of the TO_USE setting, not the empty
    set: the gate refuses search_product_by_reference_code. *)
Lemma malformed_header_beside_a_valid_setting :
  Sample.bad_to_use_only !! "to-use" = Some "not json"
  /\ Sample.JSON_parse "not json" = None
  /\ bundleToolsToUse
       (resolve Sample.JSON_parse Sample.bad_to_use_only Sample.listed_env)
     = ["create_sale_order"]
  /\ bundleToolsToUse
       (resolve Sample.JSON_parse Sample.bad_to_use_only Sample.listed_env)
     <> []
  /\ shouldIgnoreTool
       (fst (build_context Sample.JSON_parse Sample.bad_to_use_only
               Sample.listed_env))
       "search_product_by_reference_code" = true.
Proof.
  split; [reflexivity|]. split; [reflexivity|]. split; [reflexivity|].
  split; [vm_compute; discriminate | reflexivity].
Qed.

(** A malformed to-use header beside the four mandatory headers. *)
Lemma malformed_allow_list_opens_the_gate_witness :
  Sample.JSON_parse "not json" = None
  /\ missing_backend_header Sample.bad_to_use_headers = false
  /\ Sample.bad_to_use_headers !! "to-use" = Some "not json"
  /\ bundleToolsToUse
       (resolve Sample.JSON_parse Sample.bad_to_use_headers Sample.listed_env)
     = [].
Proof.
  split; [reflexivity|]. split; [reflexivity|]. split; [reflexivity|].
  exact (proj1
           (malformed_allow_list_opens_the_gate Sample.JSON_parse
              Sample.bad_to_use_headers Sample.listed_env "not json"
              (or_introl eq_refl) (or_introl (conj eq_refl eq_refl)))).
Defined.

(** The claim of the specification fails here: the request has the four
    mandatory headers and neither a timeout header nor a search key header,
    the settings have both, and the bundle takes the fixed literals, not the
    settings. *)
Lemma settings_not_read_beside_the_headers :
  (Sample.backend_headers !! "odoo-timeout" = None
   /\ ODOO_TIMEOUT Sample.tenant_env = Some "5000"
   /\ Sample.backend_headers !! "algolia-api-key" = None
   /\ ALGOLIA_API_KEY Sample.tenant_env = Some "envkey")
  /\ timeout
       (odooConfig
          (resolve Sample.JSON_parse Sample.backend_headers Sample.tenant_env))
     = Some (Num 60000)
  /\ timeout
       (odooConfig
          (resolve Sample.JSON_parse Sample.backend_headers Sample.tenant_env))
     <> Some
          (parseInt
             (spec_header_else_setting_else_literal
                (Sample.backend_headers !! "odoo-timeout")
                (ODOO_TIMEOUT Sample.tenant_env) "60000"))
  /\ apiKey
       (algoliaConfig
          (resolve Sample.JSON_parse Sample.backend_headers Sample.tenant_env))
     = ""
  /\ apiKey
       (algoliaConfig
          (resolve Sample.JSON_parse Sample.backend_headers Sample.tenant_env))
     <> spec_header_else_setting_else_literal
          (Sample.backend_headers !! "algolia-api-key")
          (ALGOLIA_API_KEY Sample.tenant_env) "".
Proof.
  split; [repeat split; reflexivity|].
  split; [reflexivity|]. split; [vm_compute; discriminate|].
  split; [reflexivity|]. vm_compute. discriminate.
Qed.

(** The same request: the timeout is the literal of the header branch. *)
Lemma optional_fields_follow_the_branch_witness :
  missing_backend_header Sample.backend_headers = false
  /\ timeout
       (odooConfig
          (resolve Sample.JSON_parse Sample.backend_headers Sample.tenant_env))
     = Some
         (parseInt (str_or (Sample.backend_headers !! "odoo-timeout") "60000")).
Proof.
  split; [reflexivity|].
  exact (proj1
           (proj1
              (optional_fields_follow_the_branch Sample.JSON_parse
                 Sample.backend_headers Sample.tenant_env)
              eq_refl)).
Defined.

(** The claim of the specification fails here: the read returns a non-empty
    list, its first element is [null], and the resolver returns the empty
    structure, not the first element. *)
Lemma null_first_element_is_not_returned :
  result_of
    (executeKw Sample.uuid Sample.read_null 0 (JStr "res.partner") "read"
       [JArr [Sample.Number_ (JStr "5")]] (JObj [])
       (state_of (init Sample.sample_props fresh_state)))
    = Ok (JArr [JNull])
  /\ result_of
       (record_handler Sample.Number_ Sample.uuid Sample.read_null
          "/res.partner/5" (state_of (init Sample.sample_props fresh_state)))
     = Ok (JObj [])
  /\ result_of
       (record_handler Sample.Number_ Sample.uuid Sample.read_null
          "/res.partner/5" (state_of (init Sample.sample_props fresh_state)))
     <> Ok JNull.
Proof.
  split; [reflexivity|]. split; [reflexivity|].
  vm_compute. discriminate.
Qed.

(** A read that finds the record 5. *)
Lemma record_lookup_result_witness :
  this_odoo (state_of (init Sample.sample_props fresh_state)) = Some 0
  /\ result_of
       (executeKw Sample.uuid Sample.read_partner 0 (JStr "res.partner")
          "read" [JArr [Sample.Number_ (JStr "5")]] (JObj [])
          (state_of (init Sample.sample_props fresh_state)))
     = Ok (JArr [Sample.partner5])
  /\ result_of
       (record_handler Sample.Number_ Sample.uuid Sample.read_partner
          "/res.partner/5" (state_of (init Sample.sample_props fresh_state)))
     = Ok Sample.partner5.
Proof.
  split; [reflexivity|]. split; [reflexivity|].
  exact (record_lookup_result Sample.Number_ Sample.uuid Sample.read_partner
           "/res.partner/5" (state_of (init Sample.sample_props fresh_state))
           0 [Sample.partner5] eq_refl eq_refl).
Defined.

(** The address of search(res.partner, [["vat","=","X"]]) after [init]. *)
Lemma search_forwards_the_domain_witness :
  Sample.decodeURIComponent
    (uri_argument (nth_str (split "/" Sample.search_path) 2))
    = Some Sample.vat_text
  /\ Sample.JSON_parse Sample.vat_text = Some Sample.vat_domain
  /\ search_handler Sample.JSON_parse Sample.decodeURIComponent Sample.uuid
       Sample.login7 Sample.search_path
       (state_of (init Sample.sample_props fresh_state))
     = executeKw Sample.uuid Sample.login7 0 (JStr "res.partner")
         "search_read" [Sample.vat_domain] (JObj [])
         (state_of (init Sample.sample_props fresh_state)).
Proof.
  split; [reflexivity|]. split; [reflexivity|].
  exact (proj1
           (proj1
              (search_forwards_the_domain Sample.JSON_parse
                 Sample.decodeURIComponent Sample.uuid Sample.login7
                 Sample.search_path
                 (state_of (init Sample.sample_props fresh_state)) 0
                 {| uid := JNull; cfg := spread_cfg Sample.cfg0 |}
                 eq_refl eq_refl)
              Sample.vat_text Sample.vat_domain eq_refl eq_refl)).
Defined.

(** The claim of the specification fails here: after [init] and one
    invocation of search_product_by_reference_code, [this.odoo] is the
    client of the invocation (reference 1), not the client of [init]
    (reference 0); the models resource then sends a single execution
    envelope with the identity 7 that the invocation cached, and the client
    of [init] has still never logged in. *)
Lemma resource_after_tool_runs_on_the_tool_client :
  this_odoo (state_of (init Sample.sample_props fresh_state)) = Some 0
  /\ this_odoo
       (state_of
          (search_product_handler Sample.JSON_stringify Sample.error_text
             Sample.uuid Sample.login7 Sample.sample_props "ABC"
             (state_of (init Sample.sample_props fresh_state)))) = Some 1
  /\ sent_since
       (state_of
          (search_product_handler Sample.JSON_stringify Sample.error_text
             Sample.uuid Sample.login7 Sample.sample_props "ABC"
             (state_of (init Sample.sample_props fresh_state))))
       (state_of
          (models_handler Sample.uuid Sample.login7
             (state_of
                (search_product_handler Sample.JSON_stringify
                   Sample.error_text Sample.uuid Sample.login7
                   Sample.sample_props "ABC"
                   (state_of (init Sample.sample_props fresh_state))))))
     = [execute_request Sample.uuid
          {| uid := JNum (Num 7); cfg := spread_cfg Sample.cfg0 |} 2
          (JStr "ir.model") "search_read"
          [JArr []; JArr [JStr "model"; JStr "name"]] (JObj [])]
  /\ uid_of 0
       (state_of
          (models_handler Sample.uuid Sample.login7
             (state_of
                (search_product_handler Sample.JSON_stringify
                   Sample.error_text Sample.uuid Sample.login7
                   Sample.sample_props "ABC"
                   (state_of (init Sample.sample_props fresh_state))))))
     = Some JNull.
Proof. repeat split; reflexivity. Qed.

(** One invocation of search_product_by_reference_code after [init]. *)
Lemma tool_invocation_replaces_the_client_witness :
  this_odoo (state_of (init Sample.sample_props fresh_state)) = Some 0
  /\ this_odoo
       (state_of
          (search_product_handler Sample.JSON_stringify Sample.error_text
             Sample.uuid Sample.login7 Sample.sample_props "ABC"
             (state_of (init Sample.sample_props fresh_state)))) = Some 1.
Proof.
  split; [reflexivity|].
  exact (proj1
           (proj2
              (proj1
                 (tool_invocation_replaces_the_client Sample.JSON_parse
                    Sample.JSON_stringify Sample.decodeURIComponent
                    Sample.Number_ Sample.error_text Sample.uuid
                    Sample.login7 Sample.sample_props
                    (state_of (init Sample.sample_props fresh_state)))
                 (search_product_handler Sample.JSON_stringify
                    Sample.error_text Sample.uuid Sample.login7
                    Sample.sample_props "ABC")
                 (or_introl (ex_intro _ "ABC" eq_refl))))).
Defined.

(** The claim of the specification fails here: the odoo-timeout header of
    the request is present and holds no integer, the request has no backend
    header and the settings no timeout, and the resolved timeout is 60000,
    not NaN. The same holds beside the four mandatory headers when the odoo-
    timeout header is present with an empty value. *)
Lemma unparseable_header_resolved_to_default :
  (Sample.bad_timeout_only !! "odoo-timeout" = Some "abc"
   /\ parseInt "abc" = NaN
   /\ timeout
        (odooConfig
           (resolve Sample.JSON_parse Sample.bad_timeout_only Sample.no_env))
      = Some (Num 60000))
  /\ (Sample.empty_timeout_headers !! "odoo-timeout" = Some ""
      /\ parseInt "" = NaN
      /\ missing_backend_header Sample.empty_timeout_headers = false
      /\ timeout
           (odooConfig
              (resolve Sample.JSON_parse Sample.empty_timeout_headers
                 Sample.no_env))
         = Some (Num 60000)).
Proof. repeat split; reflexivity. Qed.

(** The same header beside the four mandatory headers. *)
Lemma unparseable_timeout_is_NaN_witness :
  parseInt "abc" = NaN
  /\ missing_backend_header Sample.bad_timeout_headers = false
  /\ Sample.bad_timeout_headers !! "odoo-timeout" = Some "abc"
  /\ timeout
       (odooConfig
          (resolve Sample.JSON_parse Sample.bad_timeout_headers Sample.no_env))
     = Some NaN.
Proof.
  split; [reflexivity|]. split; [reflexivity|]. split; [reflexivity|].
  exact (proj1
           (unparseable_timeout_is_NaN Sample.JSON_parse Sample.uuid
              Sample.login7 Sample.bad_timeout_headers Sample.no_env "abc"
              ltac:(discriminate) eq_refl
              (or_introl (conj eq_refl eq_refl)))).
Defined.

(** [parseInt] on texts with white space of several bytes, a sign, a
    suffix, an integer beyond 2^53 and an integer beyond the doubles. *)
Lemma parseInt_examples :
  parseInt (String "194" (String "160" "42")) = Num 42
  /\ parseInt (String "239" (String "187" (String "191" " +15000ms")))
     = Num 15000
  /\ parseInt "-7px" = Num (-7)
  /\ parseInt "- 7" = NaN
  /\ parseInt "9007199254740993" = Num 9007199254740992
  /\ parseInt "9007199254740995" = Num 9007199254740996
  /\ to_double (10 ^ 400) = Inf false
  /\ to_double (- (2 ^ 1024 - 2 ^ 970)) = Inf true
  /\ to_double (2 ^ 1024 - 2 ^ 970 - 1) = Num (2 ^ 1024 - 2 ^ 971).
Proof. repeat split; vm_compute; reflexivity. Qed.

(** ** The further properties at concrete requests *)

(** The allow-list ["create_sale_order"] in the to-use header, beside the
    four mandatory headers. *)
Lemma well_formed_allow_list_is_forwarded_witness :
  Sample.JSON_parse ("[" +:+ Sample.quoted "create_sale_order" +:+ "]")
    = Some (JArr (JStr <$> ["create_sale_order"]))
  /\ missing_backend_header Sample.listed_headers = false
  /\ bundleToolsToUse
       (resolve Sample.JSON_parse Sample.listed_headers Sample.no_env)
     = ["create_sale_order"].
Proof.
  split; [reflexivity|]. split; [reflexivity|].
  exact (proj1
           (well_formed_allow_list_is_forwarded Sample.JSON_parse
              Sample.listed_headers Sample.no_env
              ("[" +:+ Sample.quoted "create_sale_order" +:+ "]")
              ["create_sale_order"]
              ltac:(discriminate) eq_refl
              (or_introl (conj eq_refl eq_refl)))).
Defined.

(** A TO_USE setting that is not valid JSON, on a request that brings its
    own backend headers. *)
Lemma malformed_input_is_warned_on_every_request_witness :
  Sample.JSON_parse "not json" = None
  /\ missing_backend_header Sample.backend_headers = false
  /\ exists msg,
       (WARN, msg)
         ∈ snd (build_context Sample.JSON_parse Sample.backend_headers
                  Sample.bad_list_env).
Proof.
  split; [reflexivity|]. split; [reflexivity|].
  exact (malformed_input_is_warned_on_every_request Sample.JSON_parse
           Sample.backend_headers Sample.bad_list_env "not json"
           ltac:(discriminate) (or_introl eq_refl) (or_intror eq_refl)).
Defined.

(** A backend that knows no partner: every search gives an empty list. *)
Lemma no_partner_no_order_witness :
  partner_found
    (result_of
       (partner_search Sample.uuid Sample.login7 Sample.sample_props "X"
          fresh_state)) = false
  /\ state_of
       (create_sale_order_handler Sample.JSON_stringify Sample.error_text
          Sample.uuid Sample.login7 Sample.sample_props "X" true
          [Sample.widget] fresh_state)
     = state_of
         (partner_search Sample.uuid Sample.login7 Sample.sample_props "X"
            fresh_state).
Proof.
  split; [reflexivity|].
  exact (proj1
           (no_partner_no_order Sample.JSON_stringify Sample.error_text
              Sample.uuid Sample.login7 Sample.sample_props "X" true
              [Sample.widget] fresh_state eq_refl)).
Defined.

(** An order of two lines on a backend that knows no product. *)
Lemma missing_product_aborts_the_rest_witness :
  let s := state_of (new_OdooClient Sample.cfg0 fresh_state) in
  let s2 := state_of (product_search Sample.uuid Sample.login7 0
                        Sample.widget s) in
  product_search Sample.uuid Sample.login7 0 Sample.widget s
    = (Ok (JArr []), s2)
  /\ create_lines Sample.uuid Sample.login7 0 (JNum (Num 9))
       [Sample.widget; Sample.gadget] s
     = (Throw (Error (JStr "Product W1 missing")), s2).
Proof.
  intros s s2. split; [reflexivity|].
  exact (proj1
           (missing_product_aborts_the_rest Sample.uuid Sample.login7 0
              (JNum (Num 9)) [] [Sample.gadget] Sample.widget s s s2
              (JArr []) JUndefined eq_refl eq_refl eq_refl eq_refl)).
Defined.

(** An order of two lines on a backend that grants the identity 7 and
    finds every partner and product. *)
Lemma tool_invocation_logs_in_once_witness :
  rpc_outcome
    (Sample.read_partner [] (login_request Sample.uuid
          {| uid := JNull;
             cfg := spread_cfg
                      (odooConfig (getConfigFromContext Sample.sample_props))
          |} 0))
    = Ok (JNum (Num 7))
  /\ logins
       (sent_since fresh_state
          (state_of
             (create_sale_order_handler Sample.JSON_stringify
                Sample.error_text Sample.uuid Sample.read_partner
                Sample.sample_props "X" true [Sample.widget; Sample.gadget]
                fresh_state))) = 1
  /\ length
       (sent_since fresh_state
          (state_of
             (create_sale_order_handler Sample.JSON_stringify
                Sample.error_text Sample.uuid Sample.read_partner
                Sample.sample_props "X" true [Sample.widget; Sample.gadget]
                fresh_state))) = 7.
Proof.
  split; [reflexivity|]. split; [|reflexivity].
  exact (proj2
           (tool_invocation_logs_in_once Sample.JSON_stringify
              Sample.error_text Sample.uuid Sample.read_partner
              Sample.sample_props fresh_state (JNum (Num 7))
              eq_refl eq_refl)
           "X" true [Sample.widget; Sample.gadget]).
Defined.

(** A login answered with a status 500. *)
Lemma failed_login_is_reported_by_the_tool_witness :
  rpc_outcome
    (Sample.login_500 [] (login_request Sample.uuid
          {| uid := JNull;
             cfg := spread_cfg
                      (odooConfig (getConfigFromContext Sample.sample_props))
          |} 0))
    = Throw (Error (JStr "HTTP 500: Internal Server Error"))
  /\ result_of
       (search_product_handler Sample.JSON_stringify Sample.error_text
          Sample.uuid Sample.login_500 Sample.sample_props "W1" fresh_state)
     = Ok (text_content
             "Error al buscar producto: HTTP 500: Internal Server Error").
Proof.
  split; [reflexivity|].
  rewrite (proj1
             (failed_login_is_reported_by_the_tool Sample.JSON_stringify
                Sample.error_text Sample.uuid Sample.login_500
                Sample.sample_props fresh_state
                (Error (JStr "HTTP 500: Internal Server Error")) eq_refl)
             "W1").
  reflexivity.
Defined.

(** The paths /res.partner and /res.partner/5. *)
Lemma resource_addresses_name_their_model_witness :
  let s := state_of (init Sample.sample_props fresh_state) in
  free_of "/" "res.partner" = true
  /\ free_of "/" "5" = true
  /\ model_handler Sample.uuid Sample.read_partner "/res.partner" s
     = (odoo <- the_odoo ;;
        executeKw Sample.uuid Sample.read_partner odoo (JStr "res.partner")
          "fields_get"
          [JArr []; JArr [JStr "string"; JStr "type"; JStr "required"]]
          (JObj [])) s
  /\ record_handler Sample.Number_ Sample.uuid Sample.read_partner
       "/res.partner/5" s
     = (odoo <- the_odoo ;;
        r <- executeKw Sample.uuid Sample.read_partner odoo
               (JStr "res.partner") "read"
               [JArr [Sample.Number_ (JStr "5")]] (JObj []) ;;
        rec <- lift_opt TypeError (first_of r) ;;
        ret (coalesce rec (JObj []))) s.
Proof.
  intros s. split; [reflexivity|]. split; [reflexivity|].
  pose proof
    (resource_addresses_name_their_model Sample.JSON_parse
       Sample.decodeURIComponent Sample.Number_ Sample.uuid
       Sample.read_partner [""] [] "res.partner" "5" s
       ltac:(repeat constructor) ltac:(constructor) eq_refl eq_refl)
    as (Hmodel & Hrecord & _).
  split; [exact Hmodel | exact Hrecord].
Defined.

(** A read on a new client, on a backend that grants the identity 7 and
    returns one record. *)
Lemma executeKw_returns_only_backend_results_witness :
  result_of
    (executeKw Sample.uuid Sample.read_partner 0 (JStr "res.partner") "read"
       [JArr [JNum (Num 5)]] (JObj [])
       (state_of (new_OdooClient Sample.cfg0 fresh_state)))
    = Ok (JArr [Sample.partner5])
  /\ exists before o n status statusText data err,
       sent
         (state_of
            (executeKw Sample.uuid Sample.read_partner 0 (JStr "res.partner")
               "read" [JArr [JNum (Num 5)]] (JObj [])
               (state_of (new_OdooClient Sample.cfg0 fresh_state))))
       = before
         ++ [execute_request Sample.uuid o n (JStr "res.partner") "read"
               [JArr [JNum (Num 5)]] (JObj [])]
       /\ (before = sent (state_of (new_OdooClient Sample.cfg0 fresh_state))
           \/ exists l,
                is_login l = true
                /\ before
                   = sent (state_of (new_OdooClient Sample.cfg0 fresh_state))
                     ++ [l])
       /\ Sample.read_partner before
            (execute_request Sample.uuid o n (JStr "res.partner") "read"
               [JArr [JNum (Num 5)]] (JObj []))
          = Responded true status statusText (Some data)
       /\ get_prop data "error" = Some err
       /\ truthy err = false
       /\ get_prop data "result" = Some (JArr [Sample.partner5]).
Proof.
  split; [reflexivity|].
  exact (executeKw_returns_only_backend_results Sample.uuid
           Sample.read_partner 0 (JStr "res.partner") "read"
           [JArr [JNum (Num 5)]] (JObj [])
           (state_of (new_OdooClient Sample.cfg0 fresh_state))
           (JArr [Sample.partner5]) eq_refl).
Defined.
